(** * Glucose dashboard: token lifecycle and synchronisation core

    A shallow embedding of the Cloud Functions back end
    (src/unnamed/part_000): the rate limiter, the state-token codec, the
    token refresh rule, the OAuth callback, the reading synchroniser and
    the scheduled sweep.

    Conventions.
    - Instants are epoch milliseconds in [Z]; a JS [Date] is [option Z]
      with [None] for Invalid Date.
    - Asynchronous code is written in a state-and-exception monad [M]
      over a [World] (the Firestore collections, the console, a step
      counter).  Everything the platform decides (clock readings, vendor
      responses, storage faults, date parsing, process configuration) is
      read from an environment [Env], indexed by the step counter where it
      may change between calls.
    - [console.log] lines carry no behaviour and are left out, except where
      building the line can throw ([toISOString] on an Invalid Date);
      [console.error] and [console.warn] lines are kept with their fixed
      text. *)

From Stdlib Require Import ZArith String Ascii List Lia Bool.
From Stdlib Require Import Decimal DecimalFacts DecimalPos DecimalZ DecimalString.
From stdpp Require Import base option list gmap strings pretty.

Local Open Scope string_scope.
Local Open Scope list_scope.
Local Open Scope Z_scope.

(** ** Byte strings

    A JS string is modelled by its UTF-8 bytes, a [string] of [ascii];
    [Buffer.from(s)] and [buf.toString()] are then the identity. *)

(** [Number.prototype.toString] on an integer below 1e21. *)
Definition Number_toString (z : Z) : string :=
  NilZero.string_of_int (Z.to_int z).

(** ** Base64, as Node's [Buffer] has it *)

Module Base64.

Definition alphabet : string :=
  "ABCDEFGHIJKLMNOPQRSTUVWXYZabcdefghijklmnopqrstuvwxyz0123456789+/".

Definition char_of_sextet (n : N) : ascii :=
  match String.get (N.to_nat n) alphabet with
  | Some c => c
  | None => "="%char
  end.

(** [buf.toString('base64')]: three bytes to four characters, padded with
    [=]. *)
Fixpoint encode (s : string) : string :=
  match s with
  | "" => ""
  | String a "" =>
      let a := N_of_ascii a in
      String (char_of_sextet (a / 4))
     (String (char_of_sextet ((a mod 4) * 16)) "==")
  | String a (String b "") =>
      let a := N_of_ascii a in
      let b := N_of_ascii b in
      String (char_of_sextet (a / 4))
     (String (char_of_sextet ((a mod 4) * 16 + b / 16))
     (String (char_of_sextet ((b mod 16) * 4)) "="))
  | String a (String b (String c s')) =>
      let a := N_of_ascii a in
      let b := N_of_ascii b in
      let c := N_of_ascii c in
      String (char_of_sextet (a / 4))
     (String (char_of_sextet ((a mod 4) * 16 + b / 16))
     (String (char_of_sextet ((b mod 16) * 4 + c / 64))
     (String (char_of_sextet (c mod 64)) (encode s'))))
  end%N.

(** The value of a legal character; the URL-safe [-] and [_] are accepted
    too. *)
Definition sextet_of_char (c : ascii) : option N :=
  let n := N_of_ascii c in
  (if (65 <=? n) && (n <=? 90) then Some (n - 65)
   else if (97 <=? n) && (n <=? 122) then Some (n - 71)
   else if (48 <=? n) && (n <=? 57) then Some (n + 4)
   else if (n =? 43) || (n =? 45) then Some 62
   else if (n =? 47) || (n =? 95) then Some 63
   else None)%N.

(** The legal characters up to the first [=]; anything else is skipped. *)
Fixpoint sextets (s : string) : list N :=
  match s with
  | "" => []
  | String c s' =>
      if Ascii.eqb c "="%char then []
      else match sextet_of_char c with
           | Some n => n :: sextets s'
           | None => sextets s'
           end
  end.

Fixpoint bytes_of_sextets (l : list N) : string :=
  match l with
  | s0 :: s1 :: s2 :: s3 :: l' =>
      String (ascii_of_N (s0 * 4 + s1 / 16))
     (String (ascii_of_N ((s1 mod 16) * 16 + s2 / 4))
     (String (ascii_of_N ((s2 mod 4) * 64 + s3)) (bytes_of_sextets l')))
  | [s0; s1; s2] =>
      String (ascii_of_N (s0 * 4 + s1 / 16))
     (String (ascii_of_N ((s1 mod 16) * 16 + s2 / 4)) "")
  | [s0; s1] => String (ascii_of_N (s0 * 4 + s1 / 16)) ""
  | _ => ""
  end%N.

(** [Buffer.from(s, 'base64')]: never throws. *)
Definition decode (s : string) : string := bytes_of_sextets (sextets s).

End Base64.

(** ** JSON values *)

(** A number is an exact decimal, mantissa times ten to the exponent (the
    rounding of doubles is not modelled). *)
#[warnings="-register-all"]
Inductive jsval :=
  | JNull
  | JBool (b : bool)
  | JNum (m e : Z)
  | JStr (s : string)
  | JArr (l : list jsval)
  | JObj (fields : list (string * jsval)).

Module JSON.

(** The double quote. *)
Definition dquote : ascii := ascii_of_N 34.

Definition hex_digit (n : N) : ascii :=
  match String.get (N.to_nat n) "0123456789abcdef" with
  | Some c => c
  | None => "0"%char
  end.

(** [QuoteJSONString], one character. *)
Definition quote_char (c : ascii) : string :=
  let n := N_of_ascii c in
  if Ascii.eqb c dquote then String "\" (String dquote "")
  else if Ascii.eqb c "\"%char then "\\"
  else if (n =? 8)%N then "\b"
  else if (n =? 12)%N then "\f"
  else if (n =? 10)%N then "\n"
  else if (n =? 13)%N then "\r"
  else if (n =? 9)%N then "\t"
  else if (n <? 32)%N
       then "\u00" +:+ String (hex_digit (n / 16)) (String (hex_digit (n mod 16)) "")
  else String c "".

Fixpoint quote_chars (s : string) : string :=
  match s with
  | "" => ""
  | String c s' => quote_char c +:+ quote_chars s'
  end.

Definition quote (s : string) : string :=
  String dquote (quote_chars s +:+ String dquote "").

(** [JSON.stringify({ userId, timestamp, nonce })] *)
Definition stringify_state (userId : string) (timestamp : Z) (nonce : string) : string :=
  "{" +:+ quote "userId" +:+ ":" +:+ quote userId +:+
  "," +:+ quote "timestamp" +:+ ":" +:+ Number_toString timestamp +:+
  "," +:+ quote "nonce" +:+ ":" +:+ quote nonce +:+ "}".

(** *** Parsing *)

Definition is_ws (c : ascii) : bool :=
  let n := N_of_ascii c in
  ((n =? 32) || (n =? 9) || (n =? 10) || (n =? 13))%N.

Fixpoint skip_ws (s : string) : string :=
  match s with
  | String c s' => if is_ws c then skip_ws s' else s
  | "" => ""
  end.

Definition hex_value (c : ascii) : option N :=
  let n := N_of_ascii c in
  (if (48 <=? n) && (n <=? 57) then Some (n - 48)
   else if (97 <=? n) && (n <=? 102) then Some (n - 87)
   else if (65 <=? n) && (n <=? 70) then Some (n - 55)
   else None)%N.

Definition hex4 (a b c d : ascii) : option N :=
  match hex_value a, hex_value b, hex_value c, hex_value d with
  | Some a, Some b, Some c, Some d => Some (((a * 16 + b) * 16 + c) * 16 + d)%N
  | _, _, _, _ => None
  end.

(** The UTF-8 bytes of one UTF-16 code unit (a surrogate half keeps its
    own three bytes). *)
Definition utf8_of_code_unit (n : N) : string :=
  (if n <? 128 then String (ascii_of_N n) ""
   else if n <? 2048
        then String (ascii_of_N (192 + n / 64)) (String (ascii_of_N (128 + n mod 64)) "")
   else String (ascii_of_N (224 + n / 4096))
       (String (ascii_of_N (128 + (n / 64) mod 64))
       (String (ascii_of_N (128 + n mod 64)) "")))%N.

Definition cons_chars (p : string) (r : option (string * string)) : option (string * string) :=
  match r with
  | Some (s, rest) => Some (p +:+ s, rest)
  | None => None
  end.

(** The characters of a string literal after its opening quote, and what
    follows the closing quote. *)
Fixpoint parse_chars (s : string) : option (string * string) :=
  match s with
  | "" => None
  | String c s' =>
      if Ascii.eqb c dquote then Some ("", s')
      else if Ascii.eqb c "\"%char then
        match s' with
        | String e s'' =>
            if Ascii.eqb e dquote then cons_chars (String dquote "") (parse_chars s'')
            else if Ascii.eqb e "\"%char then cons_chars "\" (parse_chars s'')
            else if Ascii.eqb e "/"%char then cons_chars "/" (parse_chars s'')
            else if Ascii.eqb e "b"%char then cons_chars (String (ascii_of_N 8) "") (parse_chars s'')
            else if Ascii.eqb e "f"%char then cons_chars (String (ascii_of_N 12) "") (parse_chars s'')
            else if Ascii.eqb e "n"%char then cons_chars (String (ascii_of_N 10) "") (parse_chars s'')
            else if Ascii.eqb e "r"%char then cons_chars (String (ascii_of_N 13) "") (parse_chars s'')
            else if Ascii.eqb e "t"%char then cons_chars (String (ascii_of_N 9) "") (parse_chars s'')
            else if Ascii.eqb e "u"%char then
              match s'' with
              | String h1 (String h2 (String h3 (String h4 s3))) =>
                  match hex4 h1 h2 h3 h4 with
                  | Some n => cons_chars (utf8_of_code_unit n) (parse_chars s3)
                  | None => None
                  end
              | _ => None
              end
            else None
        | "" => None
        end
      else if (N_of_ascii c <? 32)%N then None
      else cons_chars (String c "") (parse_chars s')
  end.

Definition digit_value (c : ascii) : option N :=
  let n := N_of_ascii c in
  if ((48 <=? n) && (n <=? 57))%N then Some (n - 48)%N else None.

(** The longest prefix of digits, read as a number, with how many there
    were and what follows. *)
Fixpoint take_digits (acc : N) (count : nat) (s : string) : N * nat * string :=
  match s with
  | String c s' =>
      match digit_value c with
      | Some d => take_digits (acc * 10 + d) (S count) s'
      | None => (acc, count, s)
      end
  | "" => (acc, count, "")
  end.

(** int: [0] or a digit sequence that does not start with [0]. *)
Definition parse_int_part (s : string) : option (N * string) :=
  match s with
  | String c s' =>
      if Ascii.eqb c "0"%char then Some (0%N, s')
      else match take_digits 0 0 s with
           | (_, O, _) => None
           | (n, _, rest) => Some (n, rest)
           end
  | "" => None
  end.

(** frac: nothing, or [.] and at least one digit.  Returns the mantissa
    extended by the digits and their number. *)
Definition parse_frac (m : N) (s : string) : option (N * nat * string) :=
  match s with
  | String c s' =>
      if Ascii.eqb c "."%char then
        match take_digits m 0 s' with
        | (_, O, _) => None
        | r => Some r
        end
      else Some (m, O, s)
  | "" => Some (m, O, "")
  end.

(** exp: nothing, or [e]/[E], an optional sign and at least one digit. *)
Definition parse_exp (s : string) : option (Z * string) :=
  match s with
  | String c s' =>
      if Ascii.eqb c "e"%char || Ascii.eqb c "E"%char then
        let '(neg, s'') :=
          match s' with
          | String sg t =>
              if Ascii.eqb sg "-"%char then (true, t)
              else if Ascii.eqb sg "+"%char then (false, t)
              else (false, s')
          | "" => (false, s')
          end in
        match take_digits 0 0 s'' with
        | (_, O, _) => None
        | (n, _, rest) => Some (if neg then - Z.of_N n else Z.of_N n, rest)
        end
      else Some (0, s)
  | "" => Some (0, "")
  end.

Definition parse_number (s : string) : option (jsval * string) :=
  let '(neg, s1) :=
    match s with
    | String c s' => if Ascii.eqb c "-"%char then (true, s') else (false, s)
    | "" => (false, s)
    end in
  match parse_int_part s1 with
  | None => None
  | Some (i, s2) =>
      match parse_frac i s2 with
      | None => None
      | Some (m, fd, s3) =>
          match parse_exp s3 with
          | None => None
          | Some (e, s4) =>
              Some (JNum (if neg then - Z.of_N m else Z.of_N m) (e - Z.of_nat fd), s4)
          end
      end
  end.

Definition expect (lit : string) (v : jsval) (s : string) : option (jsval * string) :=
  if String.prefix lit s
  then Some (v, String.substring (String.length lit) (String.length s - String.length lit) s)
  else None.

(** value, elements and members, by recursive descent; [fuel] bounds the
    nesting and the number of items. *)
Fixpoint parse_value (fuel : nat) (s : string) : option (jsval * string) :=
  match fuel with
  | O => None
  | S fuel =>
      match s with
      | "" => None
      | String c s' =>
          if Ascii.eqb c "{"%char then
            match skip_ws s' with
            | String c1 s1 =>
                if Ascii.eqb c1 "}"%char then Some (JObj [], s1)
                else match parse_members fuel (String c1 s1) with
                     | Some (fs, rest) => Some (JObj fs, rest)
                     | None => None
                     end
            | "" => None
            end
          else if Ascii.eqb c "["%char then
            match skip_ws s' with
            | String c1 s1 =>
                if Ascii.eqb c1 "]"%char then Some (JArr [], s1)
                else match parse_elements fuel (String c1 s1) with
                     | Some (vs, rest) => Some (JArr vs, rest)
                     | None => None
                     end
            | "" => None
            end
          else if Ascii.eqb c dquote then
            match parse_chars s' with
            | Some (str, rest) => Some (JStr str, rest)
            | None => None
            end
          else if Ascii.eqb c "t"%char then expect "true" (JBool true) s
          else if Ascii.eqb c "f"%char then expect "false" (JBool false) s
          else if Ascii.eqb c "n"%char then expect "null" JNull s
          else parse_number s
      end
  end
with parse_elements (fuel : nat) (s : string) : option (list jsval * string) :=
  match fuel with
  | O => None
  | S fuel =>
      match parse_value fuel s with
      | None => None
      | Some (v, rest) =>
          match skip_ws rest with
          | String c r =>
              if Ascii.eqb c "]"%char then Some ([v], r)
              else if Ascii.eqb c ","%char then
                match parse_elements fuel (skip_ws r) with
                | Some (vs, rest') => Some (v :: vs, rest')
                | None => None
                end
              else None
          | "" => None
          end
      end
  end
with parse_members (fuel : nat) (s : string) : option (list (string * jsval) * string) :=
  match fuel with
  | O => None
  | S fuel =>
      match s with
      | String c s' =>
          if Ascii.eqb c dquote then
            match parse_chars s' with
            | None => None
            | Some (key, rest) =>
                match skip_ws rest with
                | String c1 r1 =>
                    if Ascii.eqb c1 ":"%char then
                      match parse_value fuel (skip_ws r1) with
                      | None => None
                      | Some (v, rest') =>
                          match skip_ws rest' with
                          | String c2 r2 =>
                              if Ascii.eqb c2 "}"%char then Some ([(key, v)], r2)
                              else if Ascii.eqb c2 ","%char then
                                match parse_members fuel (skip_ws r2) with
                                | Some (fs, rest'') => Some ((key, v) :: fs, rest'')
                                | None => None
                                end
                              else None
                          | "" => None
                          end
                      end
                    else None
                | "" => None
                end
            end
          else None
      | "" => None
      end
  end.

(** [JSON.parse]: [None] when it throws a [SyntaxError]. *)
Definition parse (s : string) : option jsval :=
  match parse_value (S (String.length s)) (skip_ws s) with
  | Some (v, rest) => if String.eqb (skip_ws rest) "" then Some v else None
  | None => None
  end.

End JSON.
(** ** Configuration constants *)

Record ApiConfig := {
  SANDBOX_BASE_URL : string;
  PRODUCTION_BASE_URL : string;
  TOKEN_EXPIRY_BUFFER_MS : Z;
  REFRESH_TOKEN_EXPIRY_MS : Z;
  RATE_LIMIT_MAX_CALLS : Z;
  RATE_LIMIT_WINDOW_MS : Z
}.

Definition DEXCOM_API_CONFIG : ApiConfig := {|
  SANDBOX_BASE_URL := "https://sandbox-api.dexcom.com";
  PRODUCTION_BASE_URL := "https://api.dexcom.com";
  TOKEN_EXPIRY_BUFFER_MS := 30 * 60 * 1000;
  REFRESH_TOKEN_EXPIRY_MS := 365 * 24 * 60 * 60 * 1000;
  RATE_LIMIT_MAX_CALLS := 60000;
  RATE_LIMIT_WINDOW_MS := 60 * 60 * 1000
|}.

(** ** Errors *)

Inductive FunctionsErrorCode :=
  | unauthenticated | not_found | resource_exhausted
  | invalid_argument | failed_precondition | internal.

(** What a [throw] carries: an [HttpsError] of the Functions SDK, or any
    other JS error (a [TypeError], a [RangeError], a rejected Firestore or
    network promise). *)
Inductive exn :=
  | HttpsError (code : FunctionsErrorCode) (message : string)
  | JsError (message : string).

Inductive Result (A : Type) :=
  | Ok (a : A)
  | Threw (e : exn).
Arguments Ok {A} a.
Arguments Threw {A} e.

(** ** Stored documents *)

Record DexcomTokens := {
  tk_userId : string;
  accessToken : string;
  refreshToken : string;
  expiresAt : Z;
  refreshTokenCreatedAt : Z;
  lastRefresh : option Z
}.

(** A Firestore [Timestamp]: whole seconds and nanoseconds. *)
Record Timestamp := { seconds : Z; nanoseconds : Z }.

(** [Timestamp.fromDate]: the instant split at the second. *)
Definition Timestamp_fromMillis (ms : Z) : Timestamp :=
  {| seconds := ms / 1000; nanoseconds := (ms - (ms / 1000) * 1000) * 1000000 |}.

(** An optional numeric field of a JSON payload or of a stored document:
    left out ([undefined]), [null], or a number. *)
Inductive OptNumber :=
  | Undefined
  | Null
  | Num (n : Z).

(** One EGV record of the vendor payload.  [value] and [trendRate] are
    carried through and never computed on. *)
Record DexcomGlucoseReading := {
  systemTime : string;
  displayTime : string;
  value : Z;
  trend : string;
  trendRate : OptNumber
}.

Record StoredGlucoseReading := {
  sr_userId : string;
  sr_systemTime : Timestamp;
  sr_displayTime : Timestamp;
  sr_value : Z;
  sr_unit : string;
  sr_trend : string;
  sr_trendRate : OptNumber;
  sr_recordedAt : Z
}.

(** The document [rateLimits/global].  [calls] may be missing from a
    stored document ([data?.calls || []]). *)
Record RateLimitDoc := {
  calls : option (list Z);
  lastReset : Z;
  lastCall : option Z
}.

Record HealthMetric := {
  hm_operation : string;
  hm_success : bool;
  hm_responseTime : Z;
  hm_error : option string
}.

(** ** Vendor HTTP interface *)

Record HttpRequest := {
  req_method : string;
  req_url : string;
  req_bearer : option string;
  req_params : list (string * string)
}.

Record RangeBound := { rb_systemTime : string; rb_displayTime : string }.
Record EgvRange := { rg_start : option RangeBound; rg_end : option RangeBound }.
(** Only [egvs] of the data-range payload is ever read. *)
Record DexcomDataRange := { dr_egvs : option EgvRange }.

(** A JSON body, typed as the handlers cast it; [OtherJson] is valid JSON
    with none of the fields a handler reads. *)
Inductive JsonBody :=
  | TokenBody (access_token refresh_token : string) (expires_in : Z)
  | EgvsBody (records egvs : option (list DexcomGlucoseReading))
  | DataRangeBody (r : DexcomDataRange)
  | OtherJson.

(** [json = None]: the body is not JSON and [response.json()] rejects. *)
Record HttpResponse := {
  status : Z;
  text : string;
  json : option JsonBody
}.

Definition response_ok (r : HttpResponse) : bool :=
  (200 <=? status r) && (status r <=? 299).

Inductive FetchResult :=
  | NetworkError
  | Responded (r : HttpResponse).

Inductive LogLevel := LError | LWarn.

(** ** The world and the environment *)

Record World := {
  step : nat;
  dexcomTokens : gmap string DexcomTokens;
  glucoseReadings : gmap string StoredGlucoseReading;
  rateLimits : option RateLimitDoc;
  healthMetrics : list HealthMetric;
  console : list (LogLevel * string);
  (** the requests sent to the vendor so far, oldest first *)
  network : list HttpRequest
}.

Definition set_step (n : nat) (w : World) : World :=
  {| step := n; dexcomTokens := dexcomTokens w; glucoseReadings := glucoseReadings w;
     rateLimits := rateLimits w; healthMetrics := healthMetrics w; console := console w;
     network := network w |}.

Definition set_dexcomTokens (t : gmap string DexcomTokens) (w : World) : World :=
  {| step := step w; dexcomTokens := t; glucoseReadings := glucoseReadings w;
     rateLimits := rateLimits w; healthMetrics := healthMetrics w; console := console w;
     network := network w |}.

Definition set_glucoseReadings (g : gmap string StoredGlucoseReading) (w : World) : World :=
  {| step := step w; dexcomTokens := dexcomTokens w; glucoseReadings := g;
     rateLimits := rateLimits w; healthMetrics := healthMetrics w; console := console w;
     network := network w |}.

Definition set_rateLimits (r : option RateLimitDoc) (w : World) : World :=
  {| step := step w; dexcomTokens := dexcomTokens w; glucoseReadings := glucoseReadings w;
     rateLimits := r; healthMetrics := healthMetrics w; console := console w;
     network := network w |}.

Definition set_healthMetrics (h : list HealthMetric) (w : World) : World :=
  {| step := step w; dexcomTokens := dexcomTokens w; glucoseReadings := glucoseReadings w;
     rateLimits := rateLimits w; healthMetrics := h; console := console w;
     network := network w |}.

Definition set_network (n : list HttpRequest) (w : World) : World :=
  {| step := step w; dexcomTokens := dexcomTokens w; glucoseReadings := glucoseReadings w;
     rateLimits := rateLimits w; healthMetrics := healthMetrics w; console := console w;
     network := n |}.

Definition set_console (c : list (LogLevel * string)) (w : World) : World :=
  {| step := step w; dexcomTokens := dexcomTokens w; glucoseReadings := glucoseReadings w;
     rateLimits := rateLimits w; healthMetrics := healthMetrics w; console := c;
     network := network w |}.

(** ** The monad of asynchronous code *)

Definition M (A : Type) : Type := World -> Result A * World.

#[global] Instance M_ret : MRet M := fun A a w => (Ok a, w).

#[global] Instance M_bind : MBind M := fun A B f m w =>
  match m w with
  | (Ok a, w') => f a w'
  | (Threw e, w') => (Threw e, w')
  end.

Definition throw {A} (e : exn) : M A := fun w => (Threw e, w).

(** [try { m } catch (e) { h e }] *)
Definition try_catch {A} (m : M A) (h : exn -> M A) : M A := fun w =>
  match m w with
  | (Ok a, w') => (Ok a, w')
  | (Threw e, w') => h e w'
  end.

(** One platform effect: returns its index and moves the counter on. *)
Definition tick : M nat := fun w => (Ok (step w), set_step (S (step w)) w).

Definition modify (f : World -> World) : M unit := fun w => (Ok tt, f w).
Definition gets {A} (f : World -> A) : M A := fun w => (Ok (f w), w).

Definition console_error (msg : string) : M unit :=
  modify (fun w => set_console (console w ++ [(LError, msg)]) w).
Definition console_warn (msg : string) : M unit :=
  modify (fun w => set_console (console w ++ [(LWarn, msg)]) w).

(** ** The environment *)

Record LocalFields := {
  lf_year : Z; lf_month : Z; lf_date : Z; lf_hours : Z; lf_minutes : Z; lf_seconds : Z
}.

Record Env := {
  apiConfig : ApiConfig;
  (** [Date.now()] when it is the [k]-th effect of the run *)
  clock : nat -> Z;
  (** the Firestore server's time at the [k]-th effect *)
  serverTime : nat -> Z;
  (** [new Date(s).getTime()], [None] for [NaN] *)
  parseDate : string -> option Z;
  (** [getFullYear], [getMonth], ... of an instant in the process's zone *)
  localFields : Z -> LocalFields;
  encodeURIComponent : string -> string;
  (** [ToNumber] on a JSON value that is not a number, [None] for [NaN] *)
  ToNumber : jsval -> option (Z * Z);
  processEnv : string -> option string;
  functionsConfig : string -> option string;
  (** the vendor's answer to a request issued as the [k]-th effect *)
  httpFetch : nat -> HttpRequest -> FetchResult;
  (** whether the Firestore operation issued as the [k]-th effect fails *)
  dbFails : nat -> bool;
  (** the Firestore setting of the same name (off unless configured) *)
  ignoreUndefinedProperties : bool;
  (** byte [i] of the [crypto.randomBytes] drawn as the [k]-th effect *)
  randomByte : nat -> nat -> ascii
}.

(** ** JS coercions on JSON values; [None] is [undefined] *)

Definition truthy (v : option jsval) : bool :=
  match v with
  | None | Some JNull => false
  | Some (JBool b) => b
  | Some (JNum m _) => negb (m =? 0)
  | Some (JStr s) => negb (String.eqb s "")
  | Some (JArr _) | Some (JObj _) => true
  end.

(** Truthiness of an optional string (a query parameter, an argument, an
    environment variable). *)
Definition truthy_str (s : option string) : bool :=
  match s with
  | Some s => negb (String.eqb s "")
  | None => false
  end.

(** The value a parsed object holds for a key: the last of duplicates. *)
Fixpoint lookup_field (key : string) (fields : list (string * jsval)) : option jsval :=
  match fields with
  | [] => None
  | (k, v) :: fields' =>
      match lookup_field key fields' with
      | Some v' => Some v'
      | None => if String.eqb k key then Some v else None
      end
  end.

(** [v.key] for one of the keys read here (none is a property of a string,
    a number, a boolean or an array): a [TypeError] on [null]. *)
Definition get_property (v : jsval) (key : string) : Result (option jsval) :=
  match v with
  | JNull => Threw (JsError "TypeError: Cannot read properties of null")
  | JObj fields => Ok (lookup_field key fields)
  | _ => Ok None
  end.

Definition decimal_eqb (m1 e1 m2 e2 : Z) : bool :=
  if e1 <=? e2 then m1 =? m2 * 10 ^ (e2 - e1) else m1 * 10 ^ (e1 - e2) =? m2.

(** [a === b]; two objects or arrays obtained from two parses are never
    the same object. *)
Definition strict_eq (a b : option jsval) : bool :=
  match a, b with
  | None, None => true
  | Some JNull, Some JNull => true
  | Some (JBool x), Some (JBool y) => Bool.eqb x y
  | Some (JNum m1 e1), Some (JNum m2 e2) => decimal_eqb m1 e1 m2 e2
  | Some (JStr x), Some (JStr y) => String.eqb x y
  | _, _ => false
  end.

(** [now - m * 10^e > limit] *)
Definition age_exceeds (now m e limit : Z) : bool :=
  if 0 <=? e then now - m * 10 ^ e >? limit
  else (now - limit) * 10 ^ (- e) >? m.

(** [haystack.includes(needle)] *)
Fixpoint includes (needle haystack : string) : bool :=
  String.prefix needle haystack ||
  match haystack with
  | "" => false
  | String _ h' => includes needle h'
  end.

(** [String(n).padStart(2, '0')] *)
Definition padStart2 (n : Z) : string :=
  let s := Number_toString n in
  if (String.length s <? 2)%nat then "0" +:+ s else s.

(** [buf.toString('hex')] *)
Fixpoint hex_of_bytes (l : list ascii) : string :=
  match l with
  | [] => ""
  | b :: l' =>
      String (JSON.hex_digit (N_of_ascii b / 16))
     (String (JSON.hex_digit (N_of_ascii b mod 16)) (hex_of_bytes l'))
  end.

#[global] Instance Result_ret : MRet Result := fun A a => Ok a.
#[global] Instance Result_bind : MBind Result := fun A B f r =>
  match r with
  | Ok a => f a
  | Threw e => Threw e
  end.

(** A synchronous computation that may throw. *)
Definition liftR {A} (r : Result A) : M A := fun w => (r, w).

(** [date.toISOString()] is evaluated for a log line: a [RangeError] on an
    Invalid Date, and otherwise the instant is known valid. *)
Definition toISOString_checked (d : option Z) : Result Z :=
  match d with
  | Some ms => Ok ms
  | None => Threw (JsError "RangeError: Invalid time value")
  end.

(** [Timestamp.fromDate(d)]: the constructor rejects a [NaN] and seconds
    outside years 0001 to 9999. *)
Definition Timestamp_fromDate (d : option Z) : Result Timestamp :=
  match d with
  | Some ms =>
      let t := Timestamp_fromMillis ms in
      if (-62135596800 <=? seconds t) && (seconds t <=? 253402300799)
      then Ok t
      else Threw (JsError "Value for argument seconds must be within range")
  | None => Threw (JsError "Value for argument seconds is not a valid integer")
  end.

(** ** Vendor error table *)

Record DexcomApiError := {
  err_status : Z;
  err_message : string;
  err_userMessage : string;
  err_isRetryable : bool
}.

Definition DEXCOM_ERROR_CODES (status : Z) : option (string * string * bool) :=
  if status =? 400 then Some ("Bad Request - Invalid parameters", "Invalid request parameters", false)
  else if status =? 401 then Some ("Unauthorized - Invalid or expired token", "Authentication expired. Please reconnect.", false)
  else if status =? 403 then Some ("Forbidden - Insufficient permissions", "Access denied. Please check permissions.", false)
  else if status =? 404 then Some ("Not Found - Endpoint or resource not found", "Requested data not found", false)
  else if status =? 409 then Some ("Conflict - Resource conflict", "Data conflict occurred", false)
  else if status =? 429 then Some ("Too Many Requests - Rate limit exceeded", "Too many requests. Please try again later.", true)
  else if status =? 500 then Some ("Internal Server Error - Dexcom API error", "Dexcom service temporarily unavailable", true)
  else if status =? 502 then Some ("Bad Gateway - Upstream server error", "Service temporarily unavailable", true)
  else if status =? 503 then Some ("Service Unavailable - Dexcom maintenance", "Dexcom service under maintenance", true)
  else if status =? 504 then Some ("Gateway Timeout - Request timeout", "Request timed out. Please try again.", true)
  else None.

Definition handleDexcomError (response : HttpResponse) : DexcomApiError :=
  let status := status response in
  let '(message, userMessage, isRetryable) :=
    default ("HTTP " +:+ Number_toString status +:+ " - Unknown error",
             "An unexpected error occurred", false)
            (DEXCOM_ERROR_CODES status) in
  {| err_status := status; err_message := message;
     err_userMessage := userMessage; err_isRetryable := isRetryable |}.

Section Core.

Context (E : Env).

Definition Date_now : M Z := k ← tick; mret (clock E k).

(** A Firestore operation: it rejects with a storage error, or applies
    [f] atomically. *)
Definition firestore_op {A} (f : nat -> World -> A * World) : M A :=
  k ← tick;
  if dbFails E k then throw (JsError "Firestore operation failed")
  else fun w => let (a, w') := f k w in (Ok a, w').

(** [await fetch(...)]: rejects when no response arrives. *)
Definition fetch (req : HttpRequest) : M HttpResponse :=
  k ← tick;
  modify (fun w => set_network (network w ++ [req]) w);;
  match httpFetch E k req with
  | Responded r => mret r
  | NetworkError => throw (JsError "fetch failed")
  end.

(** [await response.json()] *)
Definition response_json (r : HttpResponse) : M JsonBody :=
  match json r with
  | Some b => mret b
  | None => throw (JsError "SyntaxError: Unexpected token in JSON")
  end.

(** ** Security utilities *)

Definition generateSecureState (userId : string) : M string :=
  k ← tick;
  let nonce := hex_of_bytes (map (randomByte E k) (seq 0 16)) in
  timestamp ← Date_now;
  mret (Base64.encode (JSON.stringify_state userId timestamp nonce)).

Record StateValidation := {
  valid : bool;
  reason : option string
}.

(** [now - stateData.timestamp > 60 * 60 * 1000]; a [NaN] compares
    false. *)
Definition stateAge_exceeds (now : Z) (timestamp : option jsval) : bool :=
  match timestamp with
  | Some (JNum m e) => age_exceeds now m e (60 * 60 * 1000)
  | Some v =>
      match ToNumber E v with
      | Some (m, e) => age_exceeds now m e (60 * 60 * 1000)
      | None => false
      end
  | None => false
  end.

Definition validateState (state : string) (expectedUserId : option jsval) : M StateValidation :=
  try_catch
    (stateData ← match JSON.parse (Base64.decode state) with
                 | Some v => mret v
                 | None => throw (JsError "SyntaxError: Unexpected token in JSON")
                 end;
     userId ← liftR (get_property stateData "userId");
     timestamp ← liftR (get_property stateData "timestamp");
     nonce ← liftR (get_property stateData "nonce");
     if negb (truthy userId) || negb (truthy timestamp) || negb (truthy nonce)
     then mret {| valid := false; reason := Some "Missing required state fields" |}
     else if negb (strict_eq userId expectedUserId)
     then mret {| valid := false; reason := Some "User ID mismatch" |}
     else
       now ← Date_now;
       if stateAge_exceeds now timestamp
       then mret {| valid := false; reason := Some "State parameter expired" |}
       else mret {| valid := true; reason := None |})
    (fun _ => mret {| valid := false; reason := Some "Invalid state format" |}).

(** ** Token management utilities *)

(** [db.collection(c).doc(id)]: the id must be a non-empty string. *)
Definition doc_id (id : option jsval) : Result string :=
  match id with
  | Some (JStr s) =>
      if String.eqb s "" then Threw (JsError "Path must be a non-empty string")
      else Ok s
  | _ => Threw (JsError "Path must be a non-empty string")
  end.

Definition getUserTokens (userId : string) : M (option DexcomTokens) :=
  try_catch
    (id ← liftR (doc_id (Some (JStr userId)));
     firestore_op (fun _ w => (dexcomTokens w !! id, w)))
    (fun error => console_error "Error getting user tokens:";; mret None).

(** The fields [saveUserTokens] reads from its [tokens] argument. *)
Record TokenFields := {
  tf_accessToken : string;
  tf_refreshToken : string;
  tf_expiresAt : Z;
  tf_refreshTokenCreatedAt : Z
}.

(** [userId] is whatever the caller holds: the callback passes the value
    decoded from the state. *)
Definition saveUserTokens (userId : option jsval) (tokens : TokenFields) : M unit :=
  try_catch
    (created ← (if tf_refreshTokenCreatedAt tokens =? 0 then Date_now
                else mret (tf_refreshTokenCreatedAt tokens));
     refreshed ← Date_now;
     id ← liftR (doc_id userId);
     let tokenData := {|
       tk_userId := id;
       accessToken := tf_accessToken tokens;
       refreshToken := tf_refreshToken tokens;
       expiresAt := tf_expiresAt tokens;
       refreshTokenCreatedAt := created;
       lastRefresh := Some refreshed |} in
     firestore_op (fun _ w => (tt, set_dexcomTokens (<[id := tokenData]> (dexcomTokens w)) w)))
    (fun error => console_error "Error saving user tokens:";; throw error).

(** ** Rate limiting utilities *)

Record RateLimitResult := {
  allowed : bool;
  remaining : Z;
  resetTime : Z
}.

(** The body of the transaction in [checkRateLimit]: from the document
    read, the result and the document to write, if any. *)
Definition rateLimitTransaction (now : Z) (doc : option RateLimitDoc)
  : RateLimitResult * option RateLimitDoc :=
  let windowStart := now - RATE_LIMIT_WINDOW_MS (apiConfig E) in
  let data := match doc with
              | Some d => d
              | None => {| calls := Some []; lastReset := now; lastCall := None |}
              end in
  let recentCalls := filter (fun timestamp => timestamp > windowStart)
                            (default [] (calls data)) in
  let remaining := RATE_LIMIT_MAX_CALLS (apiConfig E) - Z.of_nat (length recentCalls) in
  let allowed := bool_decide (remaining > 0) in
  ({| allowed := allowed;
      remaining := Z.max 0 remaining;
      resetTime := now + RATE_LIMIT_WINDOW_MS (apiConfig E) |},
   if allowed
   then Some {| calls := Some (recentCalls ++ [now]); lastReset := now; lastCall := Some now |}
   else None).

Definition runTransaction {A} (body : option RateLimitDoc -> A * option RateLimitDoc) : M A :=
  firestore_op (fun _ w =>
    let (a, write) := body (rateLimits w) in
    (a, match write with
        | Some d => set_rateLimits (Some d) w
        | None => w
        end)).

Definition checkRateLimit : M RateLimitResult :=
  now ← Date_now;
  try_catch
    (runTransaction (rateLimitTransaction now))
    (fun error =>
       console_error "Rate limit check failed:";;
       mret {| allowed := true;
               remaining := RATE_LIMIT_MAX_CALLS (apiConfig E);
               resetTime := now + RATE_LIMIT_WINDOW_MS (apiConfig E) |}).

(** ** Health monitoring utilities *)

Definition recordHealthMetric (operation : string) (success : bool)
    (responseTime : option Z) (error : option string) : M unit :=
  try_catch
    (firestore_op (fun _ w =>
       (tt, set_healthMetrics
              (healthMetrics w ++
               [{| hm_operation := operation;
                   hm_success := success;
                   hm_responseTime := default 0 responseTime;
                   hm_error := if truthy_str error then error else None |}]) w)))
    (fun error => console_error "Failed to record health metric:").

(** ** Glucose data storage utilities *)

(** One [batch.set(docRef, storedReading, { merge: true })] waiting for
    the commit; [recordedAt] is filled in by the server. *)
Record BatchWrite := {
  bw_docId : string;
  bw_userId : string;
  bw_systemTime : Timestamp;
  bw_displayTime : Timestamp;
  bw_value : Z;
  bw_trend : string;
  bw_trendRate : OptNumber
}.

(** The document id of a reading. *)
Definition readingDocId (userId : string) (ms : Z) : string :=
  userId +:+ "_" +:+ Number_toString ms.

(** The body of the loop of [storeGlucoseReadings] for one reading. *)
Definition prepareWrite (userId : string) (reading : DexcomGlucoseReading) : Result BatchWrite :=
  let ms := parseDate E (systemTime reading) in
  let docId := match ms with
               | Some ms => readingDocId userId ms
               | None => userId +:+ "_NaN"
               end in
  st ← Timestamp_fromDate ms;
  dt ← Timestamp_fromDate (parseDate E (displayTime reading));
  match trendRate reading with
  | Undefined =>
      if ignoreUndefinedProperties E then mret tt
      else Threw (JsError "Cannot use undefined as a Firestore value (found in field trendRate)")
  | _ => mret tt
  end;;
  mret {| bw_docId := docId; bw_userId := userId; bw_systemTime := st;
          bw_displayTime := dt; bw_value := value reading;
          bw_trend := trend reading; bw_trendRate := trendRate reading |}.

Fixpoint prepareBatch (userId : string) (readings : list DexcomGlucoseReading)
  : Result (list BatchWrite) :=
  match readings with
  | [] => mret []
  | reading :: readings' =>
      bw ← prepareWrite userId reading;
      rest ← prepareBatch userId readings';
      mret (bw :: rest)
  end.

(** A merging [set]: the fields given replace the stored ones; a field
    left out (an [undefined] that the settings let through) keeps what
    the document had. *)
Definition mergeWrite (recordedAt : Z) (bw : BatchWrite)
    (store : gmap string StoredGlucoseReading) : gmap string StoredGlucoseReading :=
  let kept := match store !! bw_docId bw with
              | Some old => sr_trendRate old
              | None => Undefined
              end in
  <[bw_docId bw := {|
      sr_userId := bw_userId bw;
      sr_systemTime := bw_systemTime bw;
      sr_displayTime := bw_displayTime bw;
      sr_value := bw_value bw;
      sr_unit := "mg/dL";
      sr_trend := bw_trend bw;
      sr_trendRate := match bw_trendRate bw with
                      | Undefined => kept
                      | r => r
                      end;
      sr_recordedAt := recordedAt |}]> store.

(** [batch.commit()]: the writes are applied in order, all or none. *)
Definition commitBatch (recordedAt : Z) (batch : list BatchWrite)
    (store : gmap string StoredGlucoseReading) : gmap string StoredGlucoseReading :=
  fold_left (fun s bw => mergeWrite recordedAt bw s) batch store.

Definition storeGlucoseReadings (userId : string) (readings : list DexcomGlucoseReading) : M unit :=
  if (length readings =? 0)%nat then mret tt
  else
    batch ← try_catch
      (liftR (prepareBatch userId readings))
      (fun error => console_error "Error processing reading for storage:";; throw error);
    try_catch
      (firestore_op (fun k w =>
         (tt, set_glucoseReadings (commitBatch (serverTime E k) batch (glucoseReadings w)) w)))
      (fun error => console_error "Failed to commit batch to Firestore:";; throw error).

(** ** Sandbox data range *)

Definition getDexcomDataRange (accessToken baseUrl : string) : M (option DexcomDataRange) :=
  try_catch
    (response ← fetch {| req_method := "GET";
                         req_url := baseUrl +:+ "/v3/users/self/dataRange";
                         req_bearer := Some accessToken;
                         req_params := [] |};
     if negb (response_ok response)
     then console_error "Failed to fetch data range:";; mret None
     else
       body ← response_json response;
       mret (Some match body with
                  | DataRangeBody r => r
                  | _ => {| dr_egvs := None |}
                  end))
    (fun error => console_error "Error fetching data range:";; mret None).

Record DateAdjustment := {
  adj_startDate : option Z;
  adj_endDate : option Z;
  adjusted : bool
}.

(** [dataRange?.egvs?.start] and [dataRange?.egvs?.end], when both are
    there. *)
Definition egvsBounds (dataRange : option DexcomDataRange) : option (RangeBound * RangeBound) :=
  match dataRange with
  | Some {| dr_egvs := Some {| rg_start := Some s; rg_end := Some e |} |} => Some (s, e)
  | _ => None
  end.

Definition adjustDatesForSandbox (requestedStartDate requestedEndDate : option Z)
    (dataRange : option DexcomDataRange) (useSandbox : bool) : Result DateAdjustment :=
  match (if useSandbox then egvsBounds dataRange else None) with
  | None =>
      mret {| adj_startDate := requestedStartDate; adj_endDate := requestedEndDate;
              adjusted := false |}
  | Some (s, e) =>
      (* the log line prints the four dates with toISOString *)
      requestedStart ← toISOString_checked requestedStartDate;
      requestedEnd ← toISOString_checked requestedEndDate;
      availableStart ← toISOString_checked (parseDate E (rb_systemTime s));
      availableEnd ← toISOString_checked (parseDate E (rb_systemTime e));
      if (requestedStart >? availableEnd) || (requestedEnd <? availableStart)
      then
        let duration := Z.min (12 * 60 * 60 * 1000) (availableEnd - availableStart) in
        mret {| adj_startDate := Some (availableEnd - duration);
                adj_endDate := Some availableEnd;
                adjusted := true |}
      else
        let adjustedStart := Z.max requestedStart availableStart in
        let adjustedEnd := Z.min requestedEnd availableEnd in
        let wasAdjusted := negb (adjustedStart =? requestedStart) ||
                           negb (adjustedEnd =? requestedEnd) in
        mret {| adj_startDate := Some adjustedStart;
                adj_endDate := Some adjustedEnd;
                adjusted := wasAdjusted |}
  end.

(** ** Dexcom API utilities *)

Record DexcomConfig := {
  clientId : option string;
  clientSecret : option string;
  redirectUri : option string;
  useSandbox : bool;
  frontendUrl : string
}.

Definition or_default (s : option string) (d : string) : string :=
  if truthy_str s then default d s else d.

Definition getDexcomConfig : DexcomConfig :=
  let clientId := processEnv E "DEXCOM_CLIENT_ID" in
  let clientSecret := processEnv E "DEXCOM_CLIENT_SECRET" in
  let redirectUri := processEnv E "DEXCOM_REDIRECT_URI" in
  let useSandbox := bool_decide (processEnv E "DEXCOM_USE_SANDBOX" = Some "false") in
  let frontendUrl := or_default (processEnv E "DEXCOM_FRONTEND_URL")
                                "https://glucose-dashboard-409e6.web.app" in
  if truthy_str clientId && truthy_str clientSecret && truthy_str redirectUri
  then {| clientId := clientId; clientSecret := clientSecret; redirectUri := redirectUri;
          useSandbox := useSandbox; frontendUrl := frontendUrl |}
  else {| clientId := functionsConfig E "dexcom.client_id";
          clientSecret := functionsConfig E "dexcom.client_secret";
          redirectUri := functionsConfig E "dexcom.redirect_uri";
          useSandbox := bool_decide (functionsConfig E "dexcom.use_sandbox" = Some "false");
          frontendUrl := or_default (functionsConfig E "dexcom.frontend_url")
                                    "https://glucose-dashboard-409e6.web.app" |}.

Definition getDexcomBaseUrl (useSandbox : bool) : string :=
  if useSandbox then SANDBOX_BASE_URL (apiConfig E) else PRODUCTION_BASE_URL (apiConfig E).

(** A [client_id!] read into a template or a form: the text of the value,
    or of [undefined]. *)
Definition String_of (s : option string) : string := default "undefined" s.

Definition tokenFields_of (body : JsonBody) : M (string * string * Z) :=
  match body with
  | TokenBody a r x => mret (a, r, x)
  | _ => throw (JsError "token response without tokens")
  end.

(** The refresh-grant request of [refreshAccessToken]. *)
Definition refreshGrantRequest (refreshToken : string) : HttpRequest :=
  let config := getDexcomConfig in
  let baseUrl := getDexcomBaseUrl (useSandbox config) in
  {| req_method := "POST";
     req_url := baseUrl +:+ "/v2/oauth2/token";
     req_bearer := None;
     req_params := [("client_id", String_of (clientId config));
                    ("client_secret", String_of (clientSecret config));
                    ("refresh_token", refreshToken);
                    ("grant_type", "refresh_token")] |}.

Definition refreshAccessToken (userId refreshToken : string) : M DexcomTokens :=
  response ← fetch (refreshGrantRequest refreshToken);
  if negb (response_ok response)
  then
    let dexcomError := handleDexcomError response in
    console_error ("Token refresh failed: " +:+ err_message dexcomError);;
    throw (HttpsError internal (err_userMessage dexcomError))
  else
    body ← response_json response;
    '(access_token, refresh_token, expires_in) ← tokenFields_of body;
    t1 ← Date_now;
    t2 ← Date_now;
    t3 ← Date_now;
    let newTokens := {| tk_userId := userId;
                        accessToken := access_token;
                        refreshToken := refresh_token;
                        expiresAt := t1 + expires_in * 1000;
                        refreshTokenCreatedAt := t2;
                        lastRefresh := Some t3 |} in
    saveUserTokens (Some (JStr userId))
      {| tf_accessToken := access_token; tf_refreshToken := refresh_token;
         tf_expiresAt := t1 + expires_in * 1000; tf_refreshTokenCreatedAt := t2 |};;
    mret newTokens.

(** The test both fetch paths make before using a stored access token. *)
Definition tokenNeedsRefresh (now : Z) (tokens : DexcomTokens) : bool :=
  (now >=? expiresAt tokens) ||
  (now + TOKEN_EXPIRY_BUFFER_MS (apiConfig E) >=? expiresAt tokens).

(** Lines 768 to 773 and 1102 to 1107, the same steps in both fetch
    paths: read the clock, refresh when the test says so, and go on with
    the tokens obtained. *)
Definition ensureFresh (userId : string) (tokens : DexcomTokens) : M DexcomTokens :=
  now ← Date_now;
  if tokenNeedsRefresh now tokens
  then refreshAccessToken userId (refreshToken tokens)
  else mret tokens.

(** ** Cloud Functions *)

(** The query of the callback request. *)
Record CallbackQuery := {
  q_code : option string;
  q_state : option string;
  q_error : option string
}.

(** The authorization-code request of the callback. *)
Definition authorizationCodeRequest (code : string) : HttpRequest :=
  let config := getDexcomConfig in
  let baseUrl := getDexcomBaseUrl (useSandbox config) in
  {| req_method := "POST";
     req_url := baseUrl +:+ "/v2/oauth2/token";
     req_bearer := None;
     req_params := [("client_id", String_of (clientId config));
                    ("client_secret", String_of (clientSecret config));
                    ("code", code);
                    ("grant_type", "authorization_code");
                    ("redirect_uri", String_of (redirectUri config))] |}.

(** Lines 584 to 636 of the callback: exchange the code for tokens, store
    them, redirect. *)
Definition exchangeAndStore (code : string) (userId : option jsval) : M string :=
  let config := getDexcomConfig in
  tokenResponse ← fetch (authorizationCodeRequest code);
  if negb (response_ok tokenResponse)
  then
    let dexcomError := handleDexcomError tokenResponse in
    console_error ("Token exchange failed: " +:+ err_message dexcomError);;
    mret (frontendUrl config +:+ "/dexcom?error=token_exchange_failed")
  else
    body ← response_json tokenResponse;
    '(access_token, refresh_token, expires_in) ← tokenFields_of body;
    t1 ← Date_now;
    t2 ← Date_now;
    let tokens := {| tf_accessToken := access_token;
                     tf_refreshToken := refresh_token;
                     tf_expiresAt := t1 + expires_in * 1000;
                     tf_refreshTokenCreatedAt := t2 |} in
    try_catch
      (saveUserTokens userId tokens)
      (fun firestoreError => console_error "Firestore save failed:");;
    mret (frontendUrl config +:+ "/dexcom?success=true").

(** [dexcomOAuthCallback]: the URL it redirects to. *)
Definition dexcomOAuthCallback (query : CallbackQuery) : M string :=
  try_catch
    (let code := q_code query in
     let state := q_state query in
     let error := q_error query in
     let dexcomConfig := getDexcomConfig in
     if negb (truthy_str (clientId dexcomConfig)) ||
        negb (truthy_str (clientSecret dexcomConfig)) ||
        negb (truthy_str (redirectUri dexcomConfig))
     then
       console_error "Missing Dexcom configuration:";;
       mret (or_default (Some (frontendUrl dexcomConfig)) "http://localhost:5173"
             +:+ "/dexcom?error=configuration_error")
     else if truthy_str error
     then
       console_error "OAuth error:";;
       mret (frontendUrl dexcomConfig +:+ "/dexcom?error="
             +:+ encodeURIComponent E (default "" error))
     else if negb (truthy_str code) || negb (truthy_str state)
     then
       console_error "Missing code or state";;
       mret (frontendUrl getDexcomConfig +:+ "/dexcom?error=missing_parameters")
     else
       match JSON.parse (Base64.decode (default "" state)) with
       | None =>
           console_error "Invalid state parameter format";;
           mret (frontendUrl getDexcomConfig +:+ "/dexcom?error=invalid_state")
       | Some stateData =>
           userId ← liftR (get_property stateData "userId");
           if negb (truthy userId)
           then
             console_error "No userId in state";;
             mret (frontendUrl getDexcomConfig +:+ "/dexcom?error=invalid_state")
           else
             stateValidation ← validateState (default "" state) userId;
             if negb (valid stateValidation)
             then
               console_error "State validation failed:";;
               mret (frontendUrl getDexcomConfig +:+ "/dexcom?error=invalid_state")
             else exchangeAndStore (default "" code) userId
       end)
    (fun error =>
       console_error "Error in OAuth callback:";;
       console_error "Error details:";;
       mret (frontendUrl getDexcomConfig +:+ "/dexcom?error=internal_error")).

(** The formatter of the sweep: local wall-clock digits, no offset. *)
Definition formatLocalDate (date : Z) : string :=
  let f := localFields E date in
  Number_toString (lf_year f) +:+ "-" +:+ padStart2 (lf_month f + 1) +:+ "-" +:+
  padStart2 (lf_date f) +:+ "T" +:+ padStart2 (lf_hours f) +:+ ":" +:+
  padStart2 (lf_minutes f) +:+ ":" +:+ padStart2 (lf_seconds f).

(** The formatter of [dexcomFetchGlucoseData]: the same digits, and a log
    line that prints [date.toISOString()]. *)
Definition formatDexcomDate (date : option Z) : Result string :=
  ms ← toISOString_checked date;
  mret (formatLocalDate ms).

(** [new Date('2020-01-01')] *)
Definition minAllowedDate : Z := 1577836800000.

(** [responseData.records || responseData.egvs || []]: an array, even an
    empty one, is truthy. *)
Definition glucoseData_of (body : JsonBody) : list DexcomGlucoseReading :=
  match body with
  | EgvsBody (Some records) _ => records
  | EgvsBody None (Some egvs) => egvs
  | _ => []
  end.

Record AdjustedDateRange := {
  originalStart : option string;
  originalEnd : option string;
  adjustedStart : string;
  adjustedEnd : string
}.

Record FetchGlucoseResponse := {
  glucoseData : list DexcomGlucoseReading;
  rateLimitRemaining : Z;
  rateLimitResetTime : Z;
  sandbox : bool;
  datesAdjusted : bool;
  adjustedDateRange : option AdjustedDateRange;
  availableDataRange : option (option string * option string)
}.

(** Lines 819 to 832: the requested window, from the arguments or by
    default. *)
Definition requestedWindow (startDate endDate : option string) : M (option Z * option Z) :=
  if truthy_str startDate && truthy_str endDate
  then mret (parseDate E (default "" startDate), parseDate E (default "" endDate))
  else
    now ← Date_now;
    mret (Some (now - 12 * 60 * 60 * 1000), Some now).

(** Lines 834 to 864: the checks on the parsed window, in the order of
    the source; the window comes back as two valid instants. *)
Definition validateWindow (parsedStartDate parsedEndDate : option Z) : M (Z * Z) :=
  match parsedStartDate, parsedEndDate with
  | Some parsedStart, Some parsedEnd =>
      if parsedStart <? minAllowedDate
      then throw (HttpsError invalid_argument "Start date cannot be before 2020")
      else if parsedEnd <? minAllowedDate
      then throw (HttpsError invalid_argument "End date cannot be before 2020")
      else if parsedStart >=? parsedEnd
      then throw (HttpsError invalid_argument "Start date must be before end date")
      else if parsedEnd - parsedStart >? 365 * 24 * 60 * 60 * 1000
      then throw (HttpsError invalid_argument "Date range cannot exceed 1 year")
      else mret (parsedStart, parsedEnd)
  | _, _ =>
      console_error "Invalid date format detected:";;
      throw (HttpsError invalid_argument "Invalid date format provided")
  end.

(** Lines 792 to 801: in sandbox mode, the available data range. *)
Definition sandboxDataRange (config : DexcomConfig) (tokens : DexcomTokens)
  : M (option DexcomDataRange) :=
  if useSandbox config
  then
    dataRange ← getDexcomDataRange (accessToken tokens) (getDexcomBaseUrl (useSandbox config));
    match dataRange with
    | None => console_warn "Could not fetch data range for sandbox environment"
    | Some _ => mret tt
    end;;
    mret dataRange
  else mret None.

(** Lines 866 to 898: the window sent to the vendor, and whether the
    sandbox adjustment changed it. *)
Definition finalWindow (config : DexcomConfig) (dataRange : option DexcomDataRange)
    (parsedStartDate parsedEndDate : Z) : M (option Z * option Z * bool) :=
  match (if useSandbox config then dataRange else None) with
  | Some range =>
      adjustment ← liftR (adjustDatesForSandbox (Some parsedStartDate) (Some parsedEndDate)
                            (Some range) (useSandbox config));
      mret (adj_startDate adjustment, adj_endDate adjustment, adjusted adjustment)
  | None =>
      now ← Date_now;
      if parsedStartDate >? now
      then throw (HttpsError invalid_argument "Start date cannot be in the future")
      else if parsedEndDate >? now
      then mret (Some parsedStartDate, Some now, false)
      else mret (Some parsedStartDate, Some parsedEndDate, false)
  end.

(** Lines 900 to 1034: the vendor call, the storage of the readings and
    the response. *)
Definition fetchAndStore (userId : string) (tokens : DexcomTokens)
    (rateLimitCheck : RateLimitResult) (startTime : Z) (startDate endDate : option string)
    (config : DexcomConfig) (dataRange : option DexcomDataRange)
    (final : option Z * option Z * bool) : M FetchGlucoseResponse :=
  let '(finalStartDate, finalEndDate, datesWereAdjusted) := final in
  let baseUrl := getDexcomBaseUrl (useSandbox config) in
  formattedStartDate ← liftR (formatDexcomDate finalStartDate);
  formattedEndDate ← liftR (formatDexcomDate finalEndDate);
  response ← fetch {| req_method := "GET";
                      req_url := baseUrl +:+ "/v3/users/self/egvs";
                      req_bearer := Some (accessToken tokens);
                      req_params := [("startDate", formattedStartDate);
                                     ("endDate", formattedEndDate)] |};
  t ← Date_now;
  let responseTime := t - startTime in
  if negb (response_ok response)
  then
    let dexcomError := handleDexcomError response in
    let errorText := text response in
    console_error ("Dexcom API error: " +:+ err_message dexcomError);;
    (if status response =? 400
     then
       console_error "Dexcom API 400 error details:";;
       if includes "date" errorText
       then
         recordHealthMetric "dexcom_glucose_fetch" false (Some responseTime)
                            (Some "Invalid date parameters");;
         throw (HttpsError invalid_argument
                  ("Invalid date parameters sent to Dexcom API. Sent: " +:+
                   formattedStartDate +:+ " to " +:+ formattedEndDate +:+
                   ". API response: " +:+ errorText))
       else mret tt
     else mret tt);;
    recordHealthMetric "dexcom_glucose_fetch" false (Some responseTime)
                       (Some (err_message dexcomError));;
    throw (HttpsError failed_precondition (err_userMessage dexcomError))
  else
    responseData ← response_json response;
    let glucoseData := glucoseData_of responseData in
    try_catch
      (storeGlucoseReadings userId glucoseData)
      (fun error =>
         console_error "Failed to store glucose readings:";;
         throw (HttpsError internal "Failed to store glucose data"));;
    recordHealthMetric "dexcom_glucose_fetch" true (Some responseTime) None;;
    mret {| glucoseData := glucoseData;
            rateLimitRemaining := remaining rateLimitCheck;
            rateLimitResetTime := resetTime rateLimitCheck;
            sandbox := useSandbox config;
            datesAdjusted := datesWereAdjusted;
            adjustedDateRange :=
              if datesWereAdjusted
              then Some {| originalStart := startDate; originalEnd := endDate;
                           adjustedStart := formattedStartDate;
                           adjustedEnd := formattedEndDate |}
              else None;
            availableDataRange :=
              match (if useSandbox config then dataRange else None) with
              | Some range =>
                  Some (rb_systemTime <$> (dr_egvs range ≫= rg_start),
                        rb_systemTime <$> (dr_egvs range ≫= rg_end))
              | None => None
              end |}.

(** Lines 777 to 1035: the [try] block of [dexcomFetchGlucoseData]. *)
Definition fetchTryBlock (userId : string) (tokens : DexcomTokens)
    (rateLimitCheck : RateLimitResult) (startTime : Z) (startDate endDate : option string)
  : M FetchGlucoseResponse :=
  let config := getDexcomConfig in
  dataRange ← sandboxDataRange config tokens;
  parsed ← requestedWindow startDate endDate;
  '(parsedStartDate, parsedEndDate) ← validateWindow parsed.1 parsed.2;
  final ← finalWindow config dataRange parsedStartDate parsedEndDate;
  fetchAndStore userId tokens rateLimitCheck startTime startDate endDate config dataRange final.

(** Lines 1036 to 1049: its [catch] block. *)
Definition fetchCatchBlock (startTime : Z) (error : exn) : M FetchGlucoseResponse :=
  t ← Date_now;
  let responseTime := t - startTime in
  console_error "Error fetching Dexcom glucose data:";;
  match error with
  | HttpsError _ _ => throw error
  | JsError message =>
      recordHealthMetric "dexcom_glucose_fetch" false (Some responseTime) (Some message);;
      throw (HttpsError internal "Failed to fetch glucose data")
  end.

(** [dexcomFetchGlucoseData(data, context)]: [auth] is [context.auth?.uid],
    the two dates are the fields of [data]. *)
Definition dexcomFetchGlucoseData (auth : option string) (startDate endDate : option string)
  : M FetchGlucoseResponse :=
  match auth with
  | None => throw (HttpsError unauthenticated "User must be authenticated")
  | Some userId =>
    stored ← getUserTokens userId;
    match stored with
    | None => throw (HttpsError not_found "No Dexcom tokens found. Please connect to Dexcom first.")
    | Some tokens =>
      rateLimitCheck ← checkRateLimit;
      if negb (allowed rateLimitCheck)
      then
        recordHealthMetric "dexcom_glucose_fetch" false (Some 0) (Some "Rate limit exceeded");;
        throw (HttpsError resource_exhausted "API rate limit exceeded. Please try again later.")
      else
        tokens ← ensureFresh userId tokens;
        startTime ← Date_now;
        try_catch
          (fetchTryBlock userId tokens rateLimitCheck startTime startDate endDate)
          (fetchCatchBlock startTime)
    end
  end.

(** The request of the sweep for the last hour of readings: [t1] and
    [t2] are the two clock readings that give its bounds. *)
Definition lastHourRequest (accessToken : string) (t1 t2 : Z) : HttpRequest :=
  let config := getDexcomConfig in
  let baseUrl := getDexcomBaseUrl (useSandbox config) in
  let startDate := formatLocalDate (t1 - 60 * 60 * 1000) in
  let endDate := formatLocalDate t2 in
  {| req_method := "GET";
     req_url := baseUrl +:+ "/v3/users/self/egvs";
     req_bearer := Some accessToken;
     req_params := [("startDate", startDate); ("endDate", endDate)] |}.

(** The body of the sweep for one credential record. *)
Definition pullForUser (tokens : DexcomTokens) : M unit :=
  let userId := tk_userId tokens in
  try_catch
    (rateLimitCheck ← checkRateLimit;
     if negb (allowed rateLimitCheck)
     then console_warn "Rate limit exceeded, skipping user"
     else
       currentTokens ← ensureFresh userId tokens;
       t1 ← Date_now;
       t2 ← Date_now;
       response ← fetch (lastHourRequest (accessToken currentTokens) t1 t2);
       if response_ok response
       then
         responseData ← response_json response;
         let glucoseData := glucoseData_of responseData in
         if (0 <? length glucoseData)%nat
         then storeGlucoseReadings userId glucoseData
         else mret tt
       else console_error "Failed to fetch data for user")
    (fun error => console_error "Error pulling data for user").

(** The per-user bodies, one after the other in the order of the
    snapshot; how the event loop interleaves them is not modelled. *)
Fixpoint pullAll (docs : list DexcomTokens) : M unit :=
  match docs with
  | [] => mret tt
  | tokens :: docs' => pullForUser tokens;; pullAll docs'
  end.

Definition scheduledGlucoseDataPull : M unit :=
  try_catch
    (docs ← firestore_op (fun _ w => ((map_to_list (dexcomTokens w)).*2, w));
     match docs with
     | [] => mret tt
     | _ => pullAll docs
     end)
    (fun error => console_error "Error in scheduled glucose data pull:").

End Core.

(** ** The other Cloud Functions *)

Section Handlers.

Context (E : Env).

Definition deleteUserTokens (userId : string) : M unit :=
  try_catch
    (id ← liftR (doc_id (Some (JStr userId)));
     firestore_op E (fun _ w => (tt, set_dexcomTokens (delete id (dexcomTokens w)) w)))
    (fun error => console_error "Error deleting user tokens:";; throw error).

(** The login URL that [dexcomOAuthStart] builds around a state. *)
Definition authUrl (config : DexcomConfig) (state : string) : string :=
  getDexcomBaseUrl E (useSandbox config) +:+ "/v2/oauth2/login?" +:+
  "client_id=" +:+ String_of (clientId config) +:+ "&" +:+
  "redirect_uri=" +:+ encodeURIComponent E (String_of (redirectUri config)) +:+ "&" +:+
  "response_type=code&" +:+
  "scope=offline_access&" +:+
  "state=" +:+ state.

(** [dexcomOAuthStart(_, context)]: the [authUrl] of its answer. *)
Definition dexcomOAuthStart (auth : option string) : M string :=
  match auth with
  | None => throw (HttpsError unauthenticated "User must be authenticated")
  | Some userId =>
    let config := getDexcomConfig E in
    if negb (truthy_str (clientId config)) || negb (truthy_str (redirectUri config))
    then throw (HttpsError failed_precondition "Dexcom API credentials not configured")
    else
      state ← generateSecureState E userId;
      mret (authUrl config state)
  end.

(** The three shapes of the answer of [dexcomConnectionStatus]; a field
    an answer does not have is [None]. *)
Record ConnectionStatus := {
  connected : bool;
  tokenExpired : option bool;
  tokenExpiringSoon : option bool;
  refreshTokenExpiringSoon : option bool;
  cs_expiresAt : option Z;
  cs_refreshTokenCreatedAt : option Z;
  cs_error : option string
}.

Definition dexcomConnectionStatus (auth : option string) : M ConnectionStatus :=
  match auth with
  | None => throw (HttpsError unauthenticated "User must be authenticated")
  | Some userId =>
    try_catch
      (tokens ← getUserTokens E userId;
       match tokens with
       | None =>
           mret {| connected := false; tokenExpired := None; tokenExpiringSoon := None;
                   refreshTokenExpiringSoon := None; cs_expiresAt := None;
                   cs_refreshTokenCreatedAt := None; cs_error := None |}
       | Some tokens =>
           now ← Date_now E;
           let isExpired := now >=? expiresAt tokens in
           let willExpireSoon :=
             now + TOKEN_EXPIRY_BUFFER_MS (apiConfig E) >=? expiresAt tokens in
           let refreshTokenAge := now - refreshTokenCreatedAt tokens in
           let refreshTokenExpiringSoon :=
             refreshTokenAge >?
               REFRESH_TOKEN_EXPIRY_MS (apiConfig E) - 7 * 24 * 60 * 60 * 1000 in
           mret {| connected := true;
                   tokenExpired := Some isExpired;
                   tokenExpiringSoon := Some willExpireSoon;
                   refreshTokenExpiringSoon := Some refreshTokenExpiringSoon;
                   cs_expiresAt := Some (expiresAt tokens);
                   cs_refreshTokenCreatedAt := Some (refreshTokenCreatedAt tokens);
                   cs_error := None |}
       end)
      (fun error =>
         console_error "Error checking connection status for user";;
         mret {| connected := false; tokenExpired := None; tokenExpiringSoon := None;
                 refreshTokenExpiringSoon := None; cs_expiresAt := None;
                 cs_refreshTokenCreatedAt := None;
                 cs_error := Some "Database connection failed" |})
  end.

(** The answer [{ success: true }]. *)
Record SuccessResponse := { success : bool }.

Definition dexcomRefreshToken (auth : option string) : M SuccessResponse :=
  match auth with
  | None => throw (HttpsError unauthenticated "User must be authenticated")
  | Some userId =>
    tokens ← getUserTokens E userId;
    match tokens with
    | Some tokens =>
        if String.eqb (refreshToken tokens) ""
        then throw (HttpsError not_found
                      "No refresh token found. Please reconnect to Dexcom.")
        else
          try_catch
            (refreshAccessToken E userId (refreshToken tokens);;
             mret {| success := true |})
            (fun error => console_error "Error refreshing token:";; throw error)
    | None =>
        throw (HttpsError not_found "No refresh token found. Please reconnect to Dexcom.")
    end
  end.

Definition dexcomDisconnect (auth : option string) : M SuccessResponse :=
  match auth with
  | None => throw (HttpsError unauthenticated "User must be authenticated")
  | Some userId =>
    try_catch
      (deleteUserTokens userId;;
       mret {| success := true |})
      (fun error =>
         console_error "Error disconnecting from Dexcom:";;
         throw (HttpsError internal "Failed to disconnect from Dexcom"))
  end.

(** What [testFunction] and [testConfig] report of the configuration:
    which settings are there, never their values. *)
Record ProcessEnvReport := {
  pe_hasClientId : bool;
  pe_hasClientSecret : bool;
  pe_hasRedirectUri : bool
}.

Record EnvironmentReport := {
  hasClientId : bool;
  hasClientSecret : bool;
  hasRedirectUri : bool;
  er_useSandbox : bool;
  er_frontendUrl : string;
  (** only [testConfig] has this part *)
  er_processEnv : option ProcessEnvReport
}.

Record TestResponse := {
  t_success : bool;
  t_message : string;
  t_timestamp : Z;
  dexcomConfigured : bool;
  environment : EnvironmentReport
}.

Definition testFunction : M TestResponse :=
  let config := getDexcomConfig E in
  timestamp ← Date_now E;
  mret {| t_success := true;
          t_message := "Firebase Functions is working!";
          t_timestamp := timestamp;
          dexcomConfigured := truthy_str (clientId config) &&
                              truthy_str (clientSecret config) &&
                              truthy_str (redirectUri config);
          environment := {|
            hasClientId := truthy_str (clientId config);
            hasClientSecret := truthy_str (clientSecret config);
            hasRedirectUri := truthy_str (redirectUri config);
            er_useSandbox := useSandbox config;
            er_frontendUrl := frontendUrl config;
            er_processEnv := None |} |}.

(** The reply of an HTTP handler: status, headers set, JSON body. *)
Record HttpReply (A : Type) := {
  rp_status : Z;
  rp_headers : list (string * string);
  rp_body : A
}.
Arguments rp_status {A} _.
Arguments rp_headers {A} _.
Arguments rp_body {A} _.

(** [testConfig]: reading the configuration does not throw, so the reply
    is always the one of the [try] block. *)
Definition testConfig : M (HttpReply TestResponse) :=
  let headers := [("Access-Control-Allow-Origin", "*");
                  ("Access-Control-Allow-Methods", "GET, POST");
                  ("Access-Control-Allow-Headers", "Content-Type")] in
  let config := getDexcomConfig E in
  timestamp ← Date_now E;
  mret {| rp_status := 200;
          rp_headers := headers;
          rp_body := {|
            t_success := true;
            t_message := "Configuration test";
            t_timestamp := timestamp;
            dexcomConfigured := truthy_str (clientId config) &&
                                truthy_str (clientSecret config) &&
                                truthy_str (redirectUri config);
            environment := {|
              hasClientId := truthy_str (clientId config);
              hasClientSecret := truthy_str (clientSecret config);
              hasRedirectUri := truthy_str (redirectUri config);
              er_useSandbox := useSandbox config;
              er_frontendUrl := frontendUrl config;
              er_processEnv := Some {|
                pe_hasClientId := truthy_str (processEnv E "DEXCOM_CLIENT_ID");
                pe_hasClientSecret := truthy_str (processEnv E "DEXCOM_CLIENT_SECRET");
                pe_hasRedirectUri := truthy_str (processEnv E "DEXCOM_REDIRECT_URI") |} |} |} |}.

(** The formatter of [dexcomTestRawData]: it prints no ISO string, so an
    Invalid Date goes through, every field a [NaN]. *)
Definition formatRawDate (date : option Z) : string :=
  match date with
  | Some ms => formatLocalDate E ms
  | None => "NaN-NaN-NaNTNaN:NaN:NaN"
  end.

Record RawDataResponse := {
  rd_success : bool;
  statusCode : Z;
  rd_responseTime : Z;
  rawResponse : JsonBody;
  parsedGlucoseData : list DexcomGlucoseReading;
  dataLength : Z;
  rd_sandbox : bool;
  dateRange : string * string;
  apiFormat : string
}.

(** [responseData.records ? 'NEW (records)' : responseData.egvs ? 'OLD
    (egvs)' : 'UNKNOWN'] *)
Definition apiFormat_of (body : JsonBody) : string :=
  match body with
  | EgvsBody (Some _) _ => "NEW (records)"
  | EgvsBody None (Some _) => "OLD (egvs)"
  | _ => "UNKNOWN"
  end.

(** The request of [dexcomTestRawData] for a parsed window. *)
Definition rawDataRequest (accessToken : string) (parsed : option Z * option Z) : HttpRequest :=
  let config := getDexcomConfig E in
  let baseUrl := getDexcomBaseUrl E (useSandbox config) in
  {| req_method := "GET";
     req_url := baseUrl +:+ "/v3/users/self/egvs";
     req_bearer := Some accessToken;
     req_params := [("startDate", formatRawDate parsed.1);
                    ("endDate", formatRawDate parsed.2)] |}.

(** Lines 1211 to 1293: the [try] block of [dexcomTestRawData]. *)
Definition rawDataTryBlock (tokens : DexcomTokens) (startTime : Z)
    (startDate endDate : option string) : M RawDataResponse :=
  let config := getDexcomConfig E in
  parsed ← requestedWindow E startDate endDate;
  response ← fetch E (rawDataRequest (accessToken tokens) parsed);
  t ← Date_now E;
  let responseTime := t - startTime in
  if negb (response_ok response)
  then
    console_error ("API Error: " +:+ Number_toString (status response) +:+ " - " +:+
                   text response);;
    throw (HttpsError failed_precondition
             ("API Error: " +:+ Number_toString (status response)))
  else
    responseData ← response_json response;
    let glucoseData := glucoseData_of responseData in
    mret {| rd_success := true;
            statusCode := status response;
            rd_responseTime := responseTime;
            rawResponse := responseData;
            parsedGlucoseData := glucoseData;
            dataLength := Z.of_nat (length glucoseData);
            rd_sandbox := useSandbox config;
            dateRange := (formatRawDate parsed.1, formatRawDate parsed.2);
            apiFormat := apiFormat_of responseData |}.

Definition dexcomTestRawData (auth : option string) (startDate endDate : option string)
  : M RawDataResponse :=
  match auth with
  | None => throw (HttpsError unauthenticated "User must be authenticated")
  | Some userId =>
    stored ← getUserTokens E userId;
    match stored with
    | None => throw (HttpsError not_found "No Dexcom tokens found. Please connect to Dexcom first.")
    | Some tokens =>
      tokens ← ensureFresh E userId tokens;
      startTime ← Date_now E;
      try_catch
        (rawDataTryBlock tokens startTime startDate endDate)
        (fun error =>
           Date_now E;;
           console_error "Error in test function:";;
           console_error "Response time:";;
           throw (HttpsError internal "Failed to fetch test data"))
    end
  end.

End Handlers.

Arguments rp_status {A} _.
Arguments rp_headers {A} _.
Arguments rp_body {A} _.

(** ** A concrete environment, for evaluating the functions *)

Module Demo.

Definition w0 : World := {|
  step := 0;
  dexcomTokens := ∅;
  glucoseReadings := ∅;
  rateLimits := None;
  healthMetrics := [];
  console := [];
  network := []
|}.

Fixpoint assoc {A} (key : string) (l : list (string * A)) : option A :=
  match l with
  | [] => None
  | (k, v) :: l' => if String.eqb k key then Some v else assoc key l'
  end.

(** The dates the examples use. *)
Definition dates : list (string * Z) :=
  [("2019-12-31T00:00:00Z", 1577750400000);
   ("2020-01-01T00:00:00Z", 1577836800000);
   ("2024-01-01T00:00:00Z", 1704067200000);
   ("2024-01-01T00:05:00Z", 1704067500000);
   ("2024-01-01T06:00:00Z", 1704088800000);
   ("2024-01-02T00:00:00Z", 1704153600000);
   ("2024-01-03T00:00:00Z", 1704240000000)].

Definition settings : list (string * string) :=
  [("DEXCOM_CLIENT_ID", "client");
   ("DEXCOM_CLIENT_SECRET", "secret");
   ("DEXCOM_REDIRECT_URI", "https://example.test/callback");
   ("DEXCOM_FRONTEND_URL", "https://app.example.test")].

Definition env (config : ApiConfig) (time : nat -> Z)
    (vendor : nat -> HttpRequest -> FetchResult) (faults : nat -> bool) : Env := {|
  apiConfig := config;
  clock := time;
  serverTime := time;
  parseDate := fun s => assoc s dates;
  localFields := fun _ => {| lf_year := 2024; lf_month := 0; lf_date := 1;
                             lf_hours := 0; lf_minutes := 0; lf_seconds := 0 |};
  encodeURIComponent := fun s => s;
  ToNumber := fun _ => None;
  processEnv := fun k => assoc k settings;
  functionsConfig := fun _ => None;
  httpFetch := vendor;
  dbFails := faults;
  ignoreUndefinedProperties := false;
  randomByte := fun _ i => ascii_of_nat i
|}.

Definition offline : nat -> HttpRequest -> FetchResult := fun _ _ => NetworkError.
Definition healthy : nat -> bool := fun _ => false.

(** Clock readings given one by one; the last one stays. *)
Fixpoint readings (l : list Z) (k : nat) : Z :=
  match l, k with
  | [], _ => 0
  | [t], _ => t
  | t :: _, O => t
  | _ :: l', S k' => readings l' k'
  end.

(** Ceiling 3, window 1000 ms; five calls of [checkRateLimit], each
    reading the clock once before its transaction. *)
Definition smallConfig : ApiConfig := {|
  SANDBOX_BASE_URL := SANDBOX_BASE_URL DEXCOM_API_CONFIG;
  PRODUCTION_BASE_URL := PRODUCTION_BASE_URL DEXCOM_API_CONFIG;
  TOKEN_EXPIRY_BUFFER_MS := TOKEN_EXPIRY_BUFFER_MS DEXCOM_API_CONFIG;
  REFRESH_TOKEN_EXPIRY_MS := REFRESH_TOKEN_EXPIRY_MS DEXCOM_API_CONFIG;
  RATE_LIMIT_MAX_CALLS := 3;
  RATE_LIMIT_WINDOW_MS := 1000
|}.

Definition fiveCalls : Env :=
  env smallConfig (readings [0; 0; 100; 100; 200; 200; 300; 300; 1100; 1100]) offline healthy.

(** Run [m] [n] times in a row, keeping the results. *)
Fixpoint repeatM {A} (n : nat) (m : M A) : M (list A) :=
  match n with
  | O => mret []
  | S n' => a ← m; l ← repeatM n' m; mret (a :: l)
  end.

(** One connected user, whose access token expires at [expiry]. *)
Definition userTokens (expiry : Z) : DexcomTokens := {|
  tk_userId := "u1";
  accessToken := "access-1";
  refreshToken := "refresh-1";
  expiresAt := expiry;
  refreshTokenCreatedAt := 1704000000000;
  lastRefresh := None
|}.

Definition connected (expiry : Z) : World :=
  set_dexcomTokens {[ "u1" := userTokens expiry ]} w0.

(** A clock that stands at noon, 2 January 2024. *)
Definition noon : nat -> Z := fun _ => 1704196800000.

(** A state token as [generateSecureState] builds it for user [u1]. *)
Definition stateToken : string :=
  Base64.encode (JSON.stringify_state "u1" 1704196800000 "000102030405060708090a0b0c0d0e0f").

(** A vendor that answers every request with a pair of tokens. *)
Definition granting : nat -> HttpRequest -> FetchResult := fun _ _ =>
  Responded {| status := 200; text := "";
               json := Some (TokenBody "access-2" "refresh-2" 7200) |}.

Definition failing : nat -> bool := fun _ => true.

(** Two readings of the same instant that differ in value and trend. *)
Definition firstReading : DexcomGlucoseReading := {|
  systemTime := "2024-01-01T00:00:00Z";
  displayTime := "2024-01-01T00:00:00Z";
  value := 100;
  trend := "flat";
  trendRate := Num 0
|}.

Definition secondReading : DexcomGlucoseReading := {|
  systemTime := "2024-01-01T00:00:00Z";
  displayTime := "2024-01-01T00:00:00Z";
  value := 140;
  trend := "singleUp";
  trendRate := Num 2
|}.

(** Three connected users, swept in the order [u3], [u1], [u2]; the vendor
    drops the connection of the second one, [u1], and answers the others
    with one reading. *)
Definition tokensOf (userId token : string) : DexcomTokens := {|
  tk_userId := userId;
  accessToken := token;
  refreshToken := "refresh-" +:+ userId;
  expiresAt := 1704240000000;
  refreshTokenCreatedAt := 1704000000000;
  lastRefresh := None
|}.

Definition threeUsers : World :=
  set_dexcomTokens
    (<["u1" := tokensOf "u1" "access-1"]>
       (<["u2" := tokensOf "u2" "access-2"]>
          (<["u3" := tokensOf "u3" "access-3"]> ∅))) w0.

Definition secondFails : nat -> HttpRequest -> FetchResult := fun _ req =>
  if bool_decide (req_bearer req = Some "access-1") then NetworkError
  else Responded {| status := 200; text := "";
                    json := Some (EgvsBody (Some [firstReading]) None) |}.

End Demo.

(** ** Notions the statements use *)

(** The entries of a ledger that are inside the window ending at [now]. *)
Definition freshEntries (E : Env) (now : Z) (ledger : option RateLimitDoc) : list Z :=
  filter (fun timestamp => timestamp > now - RATE_LIMIT_WINDOW_MS (apiConfig E))
         (default [] (ledger ≫= calls)).



(** A relation between the world before and after a computation that the
    bookkeeping of a run (the step counter, the console, the health
    metrics, the rate ledger) never breaks. *)
Class Frame (R : World -> World -> Prop) := {
  frame_refl w : R w w;
  frame_trans w1 w2 w3 : R w1 w2 -> R w2 w3 -> R w1 w3;
  frame_step n w : R w (set_step n w);
  frame_console c w : R w (set_console c w);
  frame_health h w : R w (set_healthMetrics h w);
  frame_rate r w : R w (set_rateLimits r w)
}.

(** Every run of [m] relates the world it starts in to the one it ends
    in. *)
Definition Preserves (R : World -> World -> Prop) {A} (m : M A) : Prop :=
  forall w r w', m w = (r, w') -> R w w'.

(** A request that exchanges a refresh token. *)
Definition isRefreshGrant (req : HttpRequest) : bool :=
  String.eqb (req_method req) "POST" &&
  bool_decide (("grant_type", "refresh_token") ∈ req_params req).

Definition refreshExchanges (w : World) : list HttpRequest :=
  filter (fun req => isRefreshGrant req = true) (network w).

(** Between two worlds the credential records are the same and the only
    requests sent are GETs bearing the access token [a]. *)
Definition quietFor (a : string) (w w' : World) : Prop :=
  dexcomTokens w' = dexcomTokens w /\
  exists l, network w' = network w ++ l /\
            Forall (fun req => req_method req = "GET" /\ req_bearer req = Some a) l.

(** Between two worlds no request was sent. *)
Definition sameNetwork (w w' : World) : Prop := network w' = network w.

(** Between two worlds the credential records are the same. *)
Definition sameTokens (w w' : World) : Prop := dexcomTokens w' = dexcomTokens w.

(** Every stored reading sits under the identifier derived from its own
    user and instant. *)
Definition keyedByIdentity (store : gmap string StoredGlucoseReading) : Prop :=
  forall k d, store !! k = Some d ->
    exists ms, sr_systemTime d = Timestamp_fromMillis ms /\
               k = readingDocId (sr_userId d) ms.

(** A pending write that goes under the identifier of its own user and
    instant. *)
Definition identified (bw : BatchWrite) : Prop :=
  exists ms, bw_systemTime bw = Timestamp_fromMillis ms /\
             bw_docId bw = readingDocId (bw_userId bw) ms.

(** A sequence of calls of [storeGlucoseReadings], whatever each one
    answers. *)
Definition ingestAll (E : Env) (calls : list (string * list DexcomGlucoseReading))
    (w : World) : World :=
  fold_left (fun w call => (storeGlucoseReadings E call.1 call.2 w).2) calls w.

(** No stored reading is lost between two worlds. *)
Definition keepsReadings (w w' : World) : Prop :=
  dom (glucoseReadings w) ⊆ dom (glucoseReadings w').

(** The six-bit groups of a byte string, three bytes to four groups. *)
Fixpoint sextet_groups (s : string) : list N :=
  match s with
  | "" => []
  | String a "" =>
      let a := N_of_ascii a in
      [a / 4; (a mod 4) * 16]
  | String a (String b "") =>
      let a := N_of_ascii a in
      let b := N_of_ascii b in
      [a / 4; (a mod 4) * 16 + b / 16; (b mod 16) * 4]
  | String a (String b (String c s')) =>
      let a := N_of_ascii a in
      let b := N_of_ascii b in
      let c := N_of_ascii c in
      a / 4 :: (a mod 4) * 16 + b / 16 :: (b mod 16) * 4 + c / 64 :: c mod 64
        :: sextet_groups s'
  end%N.

(** The value of a digit sequence read from the left, starting from
    [acc]. *)
Fixpoint horner (acc : N) (d : Decimal.uint) : N :=
  match d with
  | Decimal.Nil => acc
  | Decimal.D0 d => horner (acc * 10 + 0) d
  | Decimal.D1 d => horner (acc * 10 + 1) d
  | Decimal.D2 d => horner (acc * 10 + 2) d
  | Decimal.D3 d => horner (acc * 10 + 3) d
  | Decimal.D4 d => horner (acc * 10 + 4) d
  | Decimal.D5 d => horner (acc * 10 + 5) d
  | Decimal.D6 d => horner (acc * 10 + 6) d
  | Decimal.D7 d => horner (acc * 10 + 7) d
  | Decimal.D8 d => horner (acc * 10 + 8) d
  | Decimal.D9 d => horner (acc * 10 + 9) d
  end%N.

(** The answer [{ connected: false }]. *)
Definition notConnected : ConnectionStatus :=
  {| connected := false; tokenExpired := None; tokenExpiringSoon := None;
     refreshTokenExpiringSoon := None; cs_expiresAt := None;
     cs_refreshTokenCreatedAt := None; cs_error := None |}.


(** Whether the character [c] occurs in [s]. *)
Fixpoint occurs (c : ascii) (s : string) : bool :=
  match s with
  | "" => false
  | String a s' => Ascii.eqb a c || occurs c s'
  end.

(** Between two worlds at most [n] requests were sent. *)
Definition sentAtMost (n : nat) (w w' : World) : Prop :=
  exists sent, network w' = network w ++ sent /\ (length sent <= n)%nat.

(** An observation of the world that the step counter, the console, the
    request trace and the credential records do not enter. *)
Class DataView {X} (f : World -> X) := {
  view_step n w : f (set_step n w) = f w;
  view_console c w : f (set_console c w) = f w;
  view_network n w : f (set_network n w) = f w;
  view_tokens t w : f (set_dexcomTokens t w) = f w
}.

(** Every run of [m] leaves the observation [f] as it was. *)
Definition Leaves {X A} (f : World -> X) (m : M A) : Prop :=
  forall w r w', m w = (r, w') -> f w' = f w.

(** A lower-case hexadecimal digit. *)
Definition is_hex (c : ascii) : bool :=
  let n := N_of_ascii c in
  ((48 <=? n) && (n <=? 57) || (97 <=? n) && (n <=? 102))%N.

(** Every character of [s] satisfies [p]. *)
Fixpoint all_chars (p : ascii -> bool) (s : string) : bool :=
  match s with
  | "" => true
  | String c s' => p c && all_chars p s'
  end.

(** Each credential record sits under its own user id. *)
Definition ownKeys (tokens : gmap string DexcomTokens) : Prop :=
  forall k d, tokens !! k = Some d -> tk_userId d = k.

(** Between two worlds that property is not lost. *)
Definition keepsOwnKeys (w w' : World) : Prop :=
  ownKeys (dexcomTokens w) -> ownKeys (dexcomTokens w').

(** * Properties *)

(** ** Reasoning about [M] *)

Lemma bind_ok {A B} (m : M A) (f : A -> M B) w a w' :
  m w = (Ok a, w') -> (m ≫= f) w = f a w'.
Proof. intros H. unfold mbind, M_bind. by rewrite H. Qed.

Lemma bind_threw {A B} (m : M A) (f : A -> M B) w e w' :
  m w = (Threw e, w') -> (m ≫= f) w = (Threw e, w').
Proof. intros H. unfold mbind, M_bind. by rewrite H. Qed.

Lemma try_catch_ok {A} (m : M A) h w a w' :
  m w = (Ok a, w') -> try_catch m h w = (Ok a, w').
Proof. intros H. unfold try_catch. by rewrite H. Qed.

Lemma try_catch_threw {A} (m : M A) h w e w' :
  m w = (Threw e, w') -> try_catch m h w = h e w'.
Proof. intros H. unfold try_catch. by rewrite H. Qed.

Lemma bind_ok_fst {A B} (m : M A) (f : A -> M B) w a :
  (m w).1 = Ok a -> (m ≫= f) w = f a (m w).2.
Proof. intros H. unfold mbind, M_bind. destruct (m w) as [r w']. simpl in *. by subst. Qed.

Lemma outcome_eta {A} (out : Result A * World) (r : Result A) :
  out.1 = r -> out = (r, out.2).
Proof. destruct out. simpl. by intros ->. Qed.

Ltac unfold_M :=
  unfold mbind, mret, M_bind, M_ret, try_catch, throw, liftR, tick, modify, gets in *.

(** ** The rate limiter *)

Section RateLimiter.

Context (E : Env).

Lemma checkRateLimit_healthy w :
  dbFails E (S (step w)) = false ->
  checkRateLimit E w =
    let now := clock E (step w) in
    let (r, write) := rateLimitTransaction E now (rateLimits w) in
    (Ok r, match write with
           | Some d => set_rateLimits (Some d) (set_step (S (S (step w))) w)
           | None => set_step (S (S (step w))) w
           end).
Proof.
  intros H. unfold checkRateLimit, Date_now, runTransaction, firestore_op.
  unfold_M. simpl. rewrite H. simpl.
  destruct (rateLimitTransaction E (clock E (step w)) (rateLimits w)) as [r [d|]]; done.
Qed.

Lemma rateLimitTransaction_recent now ledger :
  filter (fun timestamp => timestamp > now - RATE_LIMIT_WINDOW_MS (apiConfig E))
    (default [] (calls (match ledger with
                        | Some d => d
                        | None => {| calls := Some []; lastReset := now; lastCall := None |}
                        end)))
  = freshEntries E now ledger.
Proof. unfold freshEntries. by destruct ledger as [[[l|] ? ?]|]. Qed.

Lemma checkRateLimit_faulty w :
  dbFails E (S (step w)) = true ->
  checkRateLimit E w =
    (Ok {| allowed := true;
           remaining := RATE_LIMIT_MAX_CALLS (apiConfig E);
           resetTime := clock E (step w) + RATE_LIMIT_WINDOW_MS (apiConfig E) |},
     set_console (console w ++ [(LError, "Rate limit check failed:")])
       (set_step (S (S (step w))) w)).
Proof.
  intros H. unfold checkRateLimit, Date_now, runTransaction, firestore_op, console_error.
  unfold_M. simpl. by rewrite H.
Qed.

End RateLimiter.

(** C1.  In a transaction that goes through, [checkRateLimit] admits the
    call exactly when fewer than the ceiling of recorded timestamps are
    strictly newer than [now] minus the window; when it admits, the ledger
    written is those fresh entries followed by [now]; when it denies, the
    ledger is left as it was.  With ceiling 3 and window 1000 ms, calls at
    0, 100 and 200 are admitted, one at 300 is denied and one at 1100 is
    admitted again. *)
Theorem checkRateLimit_window :
  (forall (E : Env) (w : World),
      dbFails E (S (step w)) = false ->
      let now := clock E (step w) in
      let fresh := freshEntries E now (rateLimits w) in
      exists r w',
        checkRateLimit E w = (Ok r, w') /\
        (allowed r = true <->
           Z.of_nat (length fresh) < RATE_LIMIT_MAX_CALLS (apiConfig E)) /\
        (allowed r = true ->
           rateLimits w' = Some {| calls := Some (fresh ++ [now]);
                                   lastReset := now; lastCall := Some now |}) /\
        (allowed r = false -> rateLimits w' = rateLimits w)) /\
  (exists results w',
      Demo.repeatM 5 (checkRateLimit Demo.fiveCalls) Demo.w0 = (Ok results, w') /\
      map allowed results = [true; true; true; false; true] /\
      rateLimits w' = Some {| calls := Some [200; 1100];
                              lastReset := 1100; lastCall := Some 1100 |}).
Proof.
  split.
  - intros E w H now fresh.
    rewrite (checkRateLimit_healthy E w H). fold now.
    unfold rateLimitTransaction. rewrite rateLimitTransaction_recent. fold fresh.
    set (rem := RATE_LIMIT_MAX_CALLS (apiConfig E) - Z.of_nat (length fresh)).
    destruct (bool_decide (rem > 0)) eqn:Hd.
    + apply bool_decide_eq_true in Hd.
      eexists _, _. split; [reflexivity|]. simpl.
      split; [|split]; [| done | done ].
      split; intros; [unfold rem in Hd; lia | done].
    + apply bool_decide_eq_false in Hd.
      eexists _, _. split; [reflexivity|]. simpl.
      split; [|split]; [| done | done ].
      split; intros; [done | unfold rem in Hd; lia].
  - eexists _, _. split; [vm_compute; reflexivity|]. split; reflexivity.
Qed.

Lemma checkRateLimit_window_witness :
  dbFails Demo.fiveCalls (S (step Demo.w0)) = false /\
  exists r w',
    checkRateLimit Demo.fiveCalls Demo.w0 = (Ok r, w') /\
    allowed r = true /\
    rateLimits w' = Some {| calls := Some [0]; lastReset := 0; lastCall := Some 0 |}.
Proof.
  split; [reflexivity|].
  destruct (proj1 checkRateLimit_window Demo.fiveCalls Demo.w0 eq_refl)
    as (r & w' & Hrun & Hiff & Hadm & _).
  exists r, w'. split; [exact Hrun|].
  assert (Ha : allowed r = true) by (apply Hiff; vm_compute; reflexivity).
  split; [exact Ha|]. rewrite (Hadm Ha). reflexivity.
Defined.

(** C8.  When the transaction itself fails, [checkRateLimit] fails open:
    it returns [allowed = true], the full ceiling as [remaining] (60,000
    in the deployed configuration) and [now] plus the window as
    [resetTime]; the error goes to the console, not to the caller, and
    the ledger is not written. *)
Theorem checkRateLimit_fails_open (E : Env) (w : World) :
  dbFails E (S (step w)) = true ->
  let out := checkRateLimit E w in
  out.1 = Ok {| allowed := true;
                remaining := RATE_LIMIT_MAX_CALLS (apiConfig E);
                resetTime := clock E (step w) + RATE_LIMIT_WINDOW_MS (apiConfig E) |} /\
  rateLimits out.2 = rateLimits w /\
  console out.2 = console w ++ [(LError, "Rate limit check failed:")] /\
  RATE_LIMIT_MAX_CALLS DEXCOM_API_CONFIG = 60000.
Proof.
  intros H out. unfold out. rewrite (checkRateLimit_faulty E w H). done.
Qed.

Lemma checkRateLimit_fails_open_witness :
  let E := Demo.env DEXCOM_API_CONFIG (fun _ => 1700000000000) Demo.offline (fun _ => true) in
  (checkRateLimit E Demo.w0).1 =
    Ok {| allowed := true; remaining := 60000; resetTime := 1700003600000 |}.
Proof.
  intros E.
  exact (proj1 (checkRateLimit_fails_open E Demo.w0 eq_refl)).
Defined.

(** ** The sandbox clamp *)

(** Case analysis on the integer comparisons of a goal. *)
Ltac case_compare :=
  repeat match goal with
         | |- context [?a >? ?b] => destruct (Z.gtb_spec a b)
         | |- context [?a <? ?b] => destruct (Z.ltb_spec a b)
         | |- context [?a >=? ?b] => destruct (Z.geb_spec a b)
         | |- context [?a <=? ?b] => destruct (Z.leb_spec a b)
         | |- context [?a =? ?b] => destruct (Z.eqb_spec a b)
         end; simpl.

(** C3.  In sandbox mode, with an available EGV range from [D1] to [D2]:
    a requested window entirely outside it becomes the last
    [min (12 h, D2 - D1)] of the range, adjusted; a window that overlaps
    it without lying inside becomes its intersection with the range,
    adjusted (so [D1 - 1h, D1 + 1h] becomes [D1, D1 + 1h] when the range is
    at least that long); a window inside the range comes back unchanged,
    not adjusted. *)
Theorem adjustDatesForSandbox_clamp (E : Env) (dataRange : option DexcomDataRange)
    (s e : RangeBound) (D1 D2 rs re : Z) :
  egvsBounds dataRange = Some (s, e) ->
  parseDate E (rb_systemTime s) = Some D1 ->
  parseDate E (rb_systemTime e) = Some D2 ->
  let result := adjustDatesForSandbox E (Some rs) (Some re) dataRange true in
  let outside := rs > D2 \/ re < D1 in
  let inside := (D1 <= rs /\ rs <= D2) /\ (D1 <= re /\ re <= D2) in
  (outside ->
     result = Ok {| adj_startDate := Some (D2 - Z.min (12 * 60 * 60 * 1000) (D2 - D1));
                    adj_endDate := Some D2; adjusted := true |}) /\
  (~ outside -> ~ inside ->
     result = Ok {| adj_startDate := Some (Z.max rs D1);
                    adj_endDate := Some (Z.min re D2); adjusted := true |}) /\
  (rs = D1 - 60 * 60 * 1000 -> re = D1 + 60 * 60 * 1000 -> D1 + 60 * 60 * 1000 <= D2 ->
     result = Ok {| adj_startDate := Some D1;
                    adj_endDate := Some (D1 + 60 * 60 * 1000); adjusted := true |}) /\
  (inside ->
     result = Ok {| adj_startDate := Some rs; adj_endDate := Some re; adjusted := false |}).
Proof.
  intros Hb H1 H2 result outside inside.
  unfold result, outside, inside, adjustDatesForSandbox.
  rewrite Hb, H1, H2. cbn [toISOString_checked mbind Result_bind mret Result_ret].
  repeat split; intros; case_compare;
    try lia; repeat f_equal; lia.
Qed.

Lemma adjustDatesForSandbox_clamp_witness :
  let E := Demo.env DEXCOM_API_CONFIG (fun _ => 0) Demo.offline Demo.healthy in
  let range := Some {| dr_egvs := Some {|
      rg_start := Some {| rb_systemTime := "2024-01-01T00:00:00Z"; rb_displayTime := "" |};
      rg_end := Some {| rb_systemTime := "2024-01-03T00:00:00Z"; rb_displayTime := "" |} |} |} in
  adjustDatesForSandbox E (Some 1577836800000) (Some 1577923200000) range true
    = Ok {| adj_startDate := Some 1704196800000;
            adj_endDate := Some 1704240000000; adjusted := true |} /\
  adjustDatesForSandbox E (Some 1704063600000) (Some 1704070800000) range true
    = Ok {| adj_startDate := Some 1704067200000;
            adj_endDate := Some 1704070800000; adjusted := true |} /\
  adjustDatesForSandbox E (Some 1704088800000) (Some 1704153600000) range true
    = Ok {| adj_startDate := Some 1704088800000;
            adj_endDate := Some 1704153600000; adjusted := false |}.
Proof.
  intros E range.
  pose proof (fun rs re =>
    adjustDatesForSandbox_clamp E range _ _ 1704067200000 1704240000000 rs re
      eq_refl eq_refl eq_refl) as H.
  split; [|split].
  - apply (H 1577836800000 1577923200000). right. reflexivity.
  - apply (H 1704063600000 1704070800000); [reflexivity | reflexivity | discriminate].
  - apply (H 1704088800000 1704153600000). repeat split; discriminate.
Defined.

(** ** The default window *)




Section DefaultWindow.

Context (E : Env).




End DefaultWindow.



(** ** Framing *)

Section Frames.

Context (E : Env) (R : World -> World -> Prop) `{!Frame R}.

Lemma preserves_ret {A} (a : A) : Preserves R (mret a).
Proof. intros w r w' [= <- <-]. apply frame_refl. Qed.

Lemma preserves_throw {A} e : Preserves R (@throw A e).
Proof. intros w r w' [= <- <-]. apply frame_refl. Qed.

Lemma preserves_liftR {A} (x : Result A) : Preserves R (liftR x).
Proof. intros w r w' [= <- <-]. apply frame_refl. Qed.

Lemma preserves_bind {A B} (m : M A) (k : A -> M B) :
  Preserves R m -> (forall a, Preserves R (k a)) -> Preserves R (m ≫= k).
Proof.
  intros Hm Hk w r w'. unfold mbind, M_bind.
  destruct (m w) as [[a|e] w1] eqn:Hmw; intros Hr.
  - eapply frame_trans; [by eapply Hm | by eapply Hk].
  - injection Hr as <- <-. by eapply Hm.
Qed.

Lemma preserves_try_catch {A} (m : M A) h :
  Preserves R m -> (forall e, Preserves R (h e)) -> Preserves R (try_catch m h).
Proof.
  intros Hm Hh w r w'. unfold try_catch.
  destruct (m w) as [[a|e] w1] eqn:Hmw; intros Hr.
  - injection Hr as <- <-. by eapply Hm.
  - eapply frame_trans; [by eapply Hm | by eapply Hh].
Qed.

Lemma preserves_tick : Preserves R tick.
Proof. intros w r w' [= <- <-]. apply frame_step. Qed.

Lemma preserves_Date_now : Preserves R (Date_now E).
Proof. apply preserves_bind; [apply preserves_tick | intros; apply preserves_ret]. Qed.

Lemma preserves_console_error msg : Preserves R (console_error msg).
Proof. intros w r w' [= <- <-]. apply frame_console. Qed.

Lemma preserves_console_warn msg : Preserves R (console_warn msg).
Proof. intros w r w' [= <- <-]. apply frame_console. Qed.

Lemma preserves_firestore_op {A} (f : nat -> World -> A * World) :
  (forall k w, R w (f k w).2) -> Preserves R (firestore_op E f).
Proof.
  intros Hf. unfold firestore_op. apply preserves_bind; [apply preserves_tick|].
  intros k. destruct (dbFails E k); [apply preserves_throw|].
  intros w r w'. specialize (Hf k w). destruct (f k w) as [a w1].
  intros [= <- <-]. exact Hf.
Qed.

Lemma preserves_response_json r : Preserves R (response_json r).
Proof. unfold response_json. destruct (json r); [apply preserves_ret | apply preserves_throw]. Qed.

Lemma preserves_tokenFields_of body : Preserves R (tokenFields_of body).
Proof. destruct body; simpl; first [apply preserves_ret | apply preserves_throw]. Qed.

Lemma preserves_fetch req :
  (forall w, R w (set_network (network w ++ [req]) w)) -> Preserves R (fetch E req).
Proof.
  intros Hn. unfold fetch.
  apply preserves_bind; [apply preserves_tick|]. intros k.
  apply preserves_bind.
  - intros w r w' [= <- <-]. apply Hn.
  - intros _. destruct (httpFetch E k req); [apply preserves_throw | apply preserves_ret].
Qed.

End Frames.

Create HintDb preserves.

#[local] Hint Resolve preserves_ret preserves_throw preserves_liftR preserves_tick
  preserves_Date_now preserves_console_error preserves_console_warn
  preserves_response_json preserves_tokenFields_of : preserves.

#[local] Hint Extern 0 (Frame _) => exact _ : preserves.

(** Walks a computation, leaving what the hints do not close. *)
Ltac preserves_step :=
  lazymatch goal with
  | |- Preserves _ (mbind _ _) => apply preserves_bind; [exact _| |intro]
  | |- Preserves _ (try_catch _ _) => apply preserves_try_catch; [exact _| |intro]
  | |- Preserves _ (if ?b then _ else _) => destruct b
  | |- Preserves _ (match ?x with _ => _ end) => destruct x
  | |- Preserves _ _ => solve [auto with preserves]
  end.
Ltac preserves := repeat preserves_step.

Section FrameLemmas.

Context (E : Env) (R : World -> World -> Prop) `{!Frame R}.

Lemma preserves_getUserTokens userId : Preserves R (getUserTokens E userId).
Proof.
  unfold getUserTokens. preserves.
  apply preserves_firestore_op; [exact _|]. intros. apply frame_refl.
Qed.

Lemma preserves_checkRateLimit : Preserves R (checkRateLimit E).
Proof.
  unfold checkRateLimit, runTransaction. preserves.
  apply preserves_firestore_op; [exact _|]. intros k w.
  destruct (rateLimitTransaction E a (rateLimits w)) as [r [d|]]; simpl;
    [apply frame_rate | apply frame_refl].
Qed.

Lemma preserves_recordHealthMetric op ok rt err :
  Preserves R (recordHealthMetric E op ok rt err).
Proof.
  unfold recordHealthMetric. preserves.
  apply preserves_firestore_op; [exact _|]. intros. apply frame_health.
Qed.

Lemma preserves_storeGlucoseReadings userId readings :
  (forall g w, R w (set_glucoseReadings g w)) ->
  Preserves R (storeGlucoseReadings E userId readings).
Proof.
  intros Hg. unfold storeGlucoseReadings. preserves.
  apply preserves_firestore_op; [exact _|]. intros. apply Hg.
Qed.

Lemma preserves_saveUserTokens userId tokens :
  (forall t w, R w (set_dexcomTokens t w)) ->
  Preserves R (saveUserTokens E userId tokens).
Proof.
  intros Ht. unfold saveUserTokens. preserves.
  apply preserves_firestore_op; [exact _|]. intros. apply Ht.
Qed.

End FrameLemmas.

(** ** Token freshness *)

#[local] Instance quietFor_frame a : Frame (quietFor a).
Proof.
  split; intros; unfold quietFor in *; simpl;
    try (split; [done|]; exists []; by rewrite app_nil_r).
  destruct H as (Ht1 & l1 & Hn1 & Hl1), H0 as (Ht2 & l2 & Hn2 & Hl2).
  split; [congruence|]. exists (l1 ++ l2).
  split; [by rewrite Hn2, Hn1, app_assoc | by apply Forall_app].
Qed.

#[local] Instance sameNetwork_frame : Frame sameNetwork.
Proof. split; intros; unfold sameNetwork in *; simpl; congruence. Qed.

Lemma filter_none {A} (P : A -> Prop) `{!forall x, Decision (P x)} (l : list A) :
  Forall (fun x => ~ P x) l -> filter P l = [].
Proof.
  induction 1 as [|x l Hx _ IH]; [done|].
  rewrite filter_cons. by destruct (decide (P x)).
Qed.

Lemma quietFor_refreshExchanges a w w' :
  quietFor a w w' -> refreshExchanges w' = refreshExchanges w.
Proof.
  intros (_ & l & Hn & Hl). unfold refreshExchanges. rewrite Hn, filter_app.
  rewrite (filter_none _ l); [by rewrite app_nil_r|].
  eapply Forall_impl; [exact Hl|]. intros req [Hm _]. unfold isRefreshGrant.
  rewrite Hm. simpl. discriminate.
Qed.

Lemma Date_now_run E w :
  Date_now E w = (Ok (clock E (step w)), set_step (S (step w)) w).
Proof. reflexivity. Qed.

Section Freshness.

Context (E : Env).

Lemma isRefreshGrant_refreshGrantRequest rt :
  isRefreshGrant (refreshGrantRequest E rt) = true.
Proof.
  unfold isRefreshGrant, refreshGrantRequest. simpl.
  try apply andb_true_intro; try (apply bool_decide_eq_true; set_solver); done.
Qed.

Lemma quiet_fetch a url params :
  Preserves (quietFor a)
    (fetch E {| req_method := "GET"; req_url := url; req_bearer := Some a;
                req_params := params |}).
Proof.
  apply preserves_fetch; [exact _|]. intros w. split; [done|].
  eexists [_]. split; [done|]. by constructor.
Qed.

Lemma quiet_storeGlucoseReadings a userId readings :
  Preserves (quietFor a) (storeGlucoseReadings E userId readings).
Proof.
  apply preserves_storeGlucoseReadings; [exact _|]. intros. split; [done|].
  exists []. by rewrite app_nil_r.
Qed.

Hint Resolve quiet_fetch quiet_storeGlucoseReadings : preserves.
Hint Extern 1 (Preserves _ (getUserTokens _ _)) =>
  apply preserves_getUserTokens; exact _ : preserves.
Hint Extern 1 (Preserves _ (checkRateLimit _)) =>
  apply preserves_checkRateLimit; exact _ : preserves.
Hint Extern 1 (Preserves _ (recordHealthMetric _ _ _ _ _)) =>
  apply preserves_recordHealthMetric; exact _ : preserves.

Lemma quiet_getDexcomDataRange a baseUrl :
  Preserves (quietFor a) (getDexcomDataRange E a baseUrl).
Proof. unfold getDexcomDataRange. preserves. Qed.

Lemma quiet_sandboxDataRange config tokens :
  Preserves (quietFor (accessToken tokens)) (sandboxDataRange E config tokens).
Proof.
  unfold sandboxDataRange. preserves. apply quiet_getDexcomDataRange.
Qed.

Lemma quiet_requestedWindow a startDate endDate :
  Preserves (quietFor a) (requestedWindow E startDate endDate).
Proof. unfold requestedWindow. preserves. Qed.

Lemma quiet_validateWindow a ps pe : Preserves (quietFor a) (validateWindow ps pe).
Proof. unfold validateWindow. preserves. Qed.

Lemma quiet_finalWindow a config dataRange ps pe :
  Preserves (quietFor a) (finalWindow E config dataRange ps pe).
Proof. unfold finalWindow. preserves. Qed.

Lemma quiet_fetchAndStore userId tokens rl startTime startDate endDate config dataRange final :
  Preserves (quietFor (accessToken tokens))
    (fetchAndStore E userId tokens rl startTime startDate endDate config dataRange final).
Proof. unfold fetchAndStore. destruct final as [[fs fe] adj]. preserves. Qed.

Lemma quiet_fetchTryBlock userId tokens rl startTime startDate endDate :
  Preserves (quietFor (accessToken tokens))
    (fetchTryBlock E userId tokens rl startTime startDate endDate).
Proof.
  unfold fetchTryBlock.
  apply preserves_bind; [exact _ | apply quiet_sandboxDataRange | intros dataRange].
  apply preserves_bind; [exact _ | apply quiet_requestedWindow | intros parsed].
  apply preserves_bind; [exact _ | apply quiet_validateWindow | intros [ps pe]].
  apply preserves_bind; [exact _ | apply quiet_finalWindow | intros final].
  apply quiet_fetchAndStore.
Qed.

Lemma quiet_fetchCatchBlock a startTime error :
  Preserves (quietFor a) (fetchCatchBlock E startTime error).
Proof. unfold fetchCatchBlock. preserves. Qed.

End Freshness.

Lemma bind_inv {A B} (m : M A) (k : A -> M B) w r w' :
  (m ≫= k) w = (r, w') ->
  (exists e, m w = (Threw e, w') /\ r = Threw e) \/
  (exists a w1, m w = (Ok a, w1) /\ k a w1 = (r, w')).
Proof.
  unfold mbind, M_bind. destruct (m w) as [[a|e] w1]; intros H.
  - right. by exists a, w1.
  - left. exists e. by simplify_eq.
Qed.

Lemma fetch_run E req w :
  fetch E req w =
    (match httpFetch E (step w) req with
     | Responded r => Ok r
     | NetworkError => Threw (JsError "fetch failed")
     end,
     set_network (network w ++ [req]) (set_step (S (step w)) w)).
Proof.
  unfold fetch. unfold_M. simpl. by destruct (httpFetch E (step w) req).
Qed.

Section Refresh.

Context (E : Env).

Hint Extern 1 (Preserves _ (saveUserTokens _ _ _)) =>
  apply preserves_saveUserTokens; [exact _ | done] : preserves.

Lemma refreshAccessToken_network userId rt w r w' :
  refreshAccessToken E userId rt w = (r, w') ->
  network w' = network w ++ [refreshGrantRequest E rt].
Proof.
  unfold refreshAccessToken. intros H.
  apply bind_inv in H as [(e & H & _)|(resp & w1 & H & Hk)];
    rewrite fetch_run in H; injection H as _ Hw; subst; [done|].
  match type of Hk with
  | ?m _ = _ => assert (Hp : Preserves sameNetwork m)
  end.
  { destruct (negb (response_ok resp)); preserves. }
  apply Hp in Hk. by rewrite Hk.
Qed.

End Refresh.

Section RefreshRule.

Context (E : Env).

Hint Resolve quiet_fetch quiet_storeGlucoseReadings quiet_fetchTryBlock
  quiet_fetchCatchBlock : preserves.
Hint Extern 1 (Preserves _ (getUserTokens _ _)) =>
  apply preserves_getUserTokens; exact _ : preserves.
Hint Extern 1 (Preserves _ (checkRateLimit _)) =>
  apply preserves_checkRateLimit; exact _ : preserves.

Lemma refreshExchanges_snoc w w' rt :
  network w' = network w ++ [refreshGrantRequest E rt] ->
  refreshExchanges w' = refreshExchanges w ++ [refreshGrantRequest E rt].
Proof.
  intros H. unfold refreshExchanges. rewrite H, filter_app. by f_equal.
Qed.

(** [ensureFresh] followed by steps that only read from the vendor with
    the token they are given. *)
Lemma ensureFresh_then {B} userId tokens (k : DexcomTokens -> M B) w r w' :
  (forall t, Preserves (quietFor (accessToken t)) (k t)) ->
  (ensureFresh E userId tokens ≫= k) w = (r, w') ->
  refreshExchanges w' =
    refreshExchanges w ++
    (if tokenNeedsRefresh E (clock E (step w)) tokens
     then [refreshGrantRequest E (refreshToken tokens)] else []) /\
  (tokenNeedsRefresh E (clock E (step w)) tokens = false ->
   quietFor (accessToken tokens) w w').
Proof.
  intros Hk H. unfold ensureFresh in H.
  apply bind_inv in H as [(e & H & _)|(t & w1 & H & Hrun)].
  { apply bind_inv in H as [(? & H & _)|(now & w0 & H & Hf)];
      [by rewrite Date_now_run in H|].
    rewrite Date_now_run in H. injection H as <- <-.
    destruct (tokenNeedsRefresh E _ tokens) eqn:Hn; [|done].
    match goal with H : refreshAccessToken _ _ _ _ = _ |- _ =>
      apply refreshAccessToken_network in H; simpl in H end.
    split; [by apply refreshExchanges_snoc | done]. }
  apply bind_inv in H as [(? & H & _)|(now & w0 & H & Hf)];
    [by rewrite Date_now_run in H|].
  rewrite Date_now_run in H. injection H as <- <-.
  apply Hk in Hrun.
  destruct (tokenNeedsRefresh E _ tokens) eqn:Hn.
  - apply refreshAccessToken_network in Hf. simpl in Hf.
    split; [|done].
    rewrite (quietFor_refreshExchanges _ _ _ Hrun). by apply refreshExchanges_snoc.
  - injection Hf as <- <-.
    assert (Hq : quietFor (accessToken tokens) w w').
    { eapply frame_trans; [apply frame_step | exact Hrun]. }
    split; [|done]. rewrite (quietFor_refreshExchanges _ _ _ Hq). by rewrite app_nil_r.
Qed.

Lemma tokenNeedsRefresh_spec now tokens :
  tokenNeedsRefresh E now tokens = true <->
  now >= expiresAt tokens \/ now + TOKEN_EXPIRY_BUFFER_MS (apiConfig E) >= expiresAt tokens.
Proof. unfold tokenNeedsRefresh. rewrite orb_true_iff, !Z.geb_le. lia. Qed.

End RefreshRule.

(** C5.  Both fetch paths refresh exactly when [now >= expiresAt] or
    [now + 30 min >= expiresAt], [now] being the clock reading taken for
    the test: with 29 minutes left a refresh is made, with exactly 30
    minutes left too, with 31 minutes left none is made.  A run of
    [dexcomFetchGlucoseData] that finds the credential record and is
    admitted by the rate limiter, and a run of the sweep's per-user body
    that is admitted, send the refresh-grant request for the stored
    refresh token once when the test holds and never otherwise; when it
    does not hold the credential records stay as they were and every
    request bears the stored access token. *)
Theorem refresh_when_near_expiry (E : Env) :
  (forall now tokens,
      tokenNeedsRefresh E now tokens = true <->
      now >= expiresAt tokens \/
      now + TOKEN_EXPIRY_BUFFER_MS (apiConfig E) >= expiresAt tokens) /\
  TOKEN_EXPIRY_BUFFER_MS DEXCOM_API_CONFIG = 30 * 60 * 1000 /\
  (TOKEN_EXPIRY_BUFFER_MS (apiConfig E) = 30 * 60 * 1000 ->
   forall now tokens,
     (expiresAt tokens = now + 29 * 60 * 1000 -> tokenNeedsRefresh E now tokens = true) /\
     (expiresAt tokens = now + 30 * 60 * 1000 -> tokenNeedsRefresh E now tokens = true) /\
     (expiresAt tokens = now + 31 * 60 * 1000 -> tokenNeedsRefresh E now tokens = false)) /\
  (forall userId startDate endDate w tokens w1 rl w2,
      getUserTokens E userId w = (Ok (Some tokens), w1) ->
      checkRateLimit E w1 = (Ok rl, w2) ->
      allowed rl = true ->
      let now := clock E (step w2) in
      let w' := (dexcomFetchGlucoseData E (Some userId) startDate endDate w).2 in
      refreshExchanges w' =
        refreshExchanges w ++
        (if tokenNeedsRefresh E now tokens
         then [refreshGrantRequest E (refreshToken tokens)] else []) /\
      (tokenNeedsRefresh E now tokens = false -> quietFor (accessToken tokens) w w')) /\
  (forall tokens w rl w1,
      checkRateLimit E w = (Ok rl, w1) ->
      allowed rl = true ->
      let now := clock E (step w1) in
      let w' := (pullForUser E tokens w).2 in
      refreshExchanges w' =
        refreshExchanges w ++
        (if tokenNeedsRefresh E now tokens
         then [refreshGrantRequest E (refreshToken tokens)] else []) /\
      (tokenNeedsRefresh E now tokens = false -> quietFor (accessToken tokens) w w')).
Proof.
  split; [apply tokenNeedsRefresh_spec|].
  split; [reflexivity|].
  split.
  { intros Hb now tokens. unfold tokenNeedsRefresh. rewrite Hb.
    repeat split; intros ->; case_compare; lia. }
  split.
  - intros userId startDate endDate w tokens w1 rl w2 Hget Hrl Hadm now w'.
    assert (Hpre : forall a, quietFor a w w2).
    { intros a. eapply frame_trans.
      - eapply (preserves_getUserTokens E (quietFor a)), Hget.
      - eapply (preserves_checkRateLimit E (quietFor a)), Hrl. }
    unfold w', dexcomFetchGlucoseData.
    rewrite (bind_ok _ _ _ _ _ Hget). cbv beta iota.
    rewrite (bind_ok _ _ _ _ _ Hrl), Hadm. cbv beta iota. simpl negb. cbv iota.
    match goal with |- context [(?m w2).2] => destruct (m w2) as [r wf] eqn:Hrun end.
    apply ensureFresh_then in Hrun as [Hx Hq].
    + simpl. rewrite Hx, (quietFor_refreshExchanges _ _ _ (Hpre "")).
      split; [done|]. intros Hn. eapply frame_trans; [apply Hpre | by apply Hq].
    + intros t. preserves.
      * apply quiet_fetchTryBlock.
      * apply quiet_fetchCatchBlock.
  - intros tokens w rl w1 Hrl Hadm now w'.
    assert (Hpre : forall a, quietFor a w w1).
    { intros a. eapply (preserves_checkRateLimit E (quietFor a)), Hrl. }
    unfold w', pullForUser, try_catch.
    rewrite (bind_ok _ _ _ _ _ Hrl), Hadm. cbv beta iota. simpl negb. cbv iota.
    match goal with |- context [?m w1] => destruct (m w1) as [r wf] eqn:Hrun end.
    apply ensureFresh_then in Hrun as [Hx Hq].
    + assert (Hend : forall a, quietFor a wf (match r with
                       | Ok a => (Ok a, wf)
                       | Threw e => console_error "Error pulling data for user" wf
                       end).2).
      { intros a. destruct r; [apply frame_refl | apply frame_console]. }
      rewrite (quietFor_refreshExchanges _ _ _ (Hend "")), Hx,
        (quietFor_refreshExchanges _ _ _ (Hpre "")).
      split; [done|]. intros Hn.
      eapply frame_trans; [apply Hpre|]. eapply frame_trans; [by apply Hq | apply Hend].
    + intros t. preserves.
      * apply quiet_fetch.
      * apply quiet_storeGlucoseReadings.
Qed.

Lemma refresh_when_near_expiry_witness :
  let E := Demo.env DEXCOM_API_CONFIG Demo.noon Demo.offline Demo.healthy in
  let now := 1704196800000 in
  refreshExchanges
    (dexcomFetchGlucoseData E (Some "u1") None None
       (Demo.connected (now + 29 * 60 * 1000))).2
    = [refreshGrantRequest E "refresh-1"] /\
  refreshExchanges
    (dexcomFetchGlucoseData E (Some "u1") None None
       (Demo.connected (now + 31 * 60 * 1000))).2
    = [].
Proof.
  intros E now.
  assert (H1 : forall expiry,
    getUserTokens E "u1" (Demo.connected expiry) =
      (Ok (Some (Demo.userTokens expiry)), (getUserTokens E "u1" (Demo.connected expiry)).2))
    by (intros; apply outcome_eta; reflexivity).
  assert (H2 : forall expiry,
    checkRateLimit E (getUserTokens E "u1" (Demo.connected expiry)).2 =
      (Ok {| allowed := true; remaining := 60000; resetTime := now + 3600000 |},
       (checkRateLimit E (getUserTokens E "u1" (Demo.connected expiry)).2).2))
    by (intros; apply outcome_eta; reflexivity).
  pose proof (fun expiry =>
    proj1 (proj1 (proj2 (proj2 (proj2 (refresh_when_near_expiry E))))
             "u1" None None _ _ _ _ _ (H1 expiry) (H2 expiry) eq_refl)) as H.
  split.
  - exact (H (now + 29 * 60 * 1000)).
  - exact (H (now + 31 * 60 * 1000)).
Defined.

(** ** The order of the checks *)

Section ValidationOrder.

Context (E : Env).

Lemma recordHealthMetric_total op ok rt err w :
  (recordHealthMetric E op ok rt err w).1 = Ok tt.
Proof.
  unfold recordHealthMetric, firestore_op, console_error. unfold_M. simpl.
  by destruct (dbFails E (step w)).
Qed.

Lemma fetchCatchBlock_rethrows startTime code message w :
  (fetchCatchBlock E startTime (HttpsError code message) w).1 =
    Threw (HttpsError code message).
Proof. reflexivity. Qed.

(** What [validateWindow] answers, as a function of the parsed dates. *)
Lemma validateWindow_run parsedStart parsedEnd w :
  (validateWindow parsedStart parsedEnd w).1 =
    match parsedStart, parsedEnd with
    | Some s, Some e =>
        if s <? minAllowedDate
        then Threw (HttpsError invalid_argument "Start date cannot be before 2020")
        else if e <? minAllowedDate
        then Threw (HttpsError invalid_argument "End date cannot be before 2020")
        else if s >=? e
        then Threw (HttpsError invalid_argument "Start date must be before end date")
        else if e - s >? 365 * 24 * 60 * 60 * 1000
        then Threw (HttpsError invalid_argument "Date range cannot exceed 1 year")
        else Ok (s, e)
    | _, _ => Threw (HttpsError invalid_argument "Invalid date format provided")
    end.
Proof.
  unfold validateWindow.
  destruct parsedStart as [s|], parsedEnd as [e|]; try reflexivity.
  by repeat case_match.
Qed.

(** A window that [validateWindow] rejects ends the whole call with that
    error. *)
Lemma fetch_rejected_window userId tokens rl startTime startDate endDate
    dataRange parsed w w4 w5 code message :
  sandboxDataRange E (getDexcomConfig E) tokens w = (Ok dataRange, w4) ->
  requestedWindow E startDate endDate w4 = (Ok parsed, w5) ->
  (validateWindow parsed.1 parsed.2 w5).1 = Threw (HttpsError code message) ->
  (try_catch (fetchTryBlock E userId tokens rl startTime startDate endDate)
             (fetchCatchBlock E startTime) w).1 = Threw (HttpsError code message).
Proof.
  intros Hrange Hwin Hval.
  destruct (validateWindow parsed.1 parsed.2 w5) as [r w6] eqn:Hv. simpl in Hval. subst r.
  erewrite try_catch_threw; [apply fetchCatchBlock_rethrows|].
  unfold fetchTryBlock.
  rewrite (bind_ok _ _ _ _ _ Hrange), (bind_ok _ _ _ _ _ Hwin).
  by rewrite (bind_threw _ _ _ _ _ Hv).
Qed.

End ValidationOrder.

(** C7.  [dexcomFetchGlucoseData] checks, in this order and stopping at
    the first failure: the credential record, the rate limiter, the token
    refresh, that both dates parse, that the start is not before 1 January
    2020, that the end is not, that the start is before the end, that the
    range is at most 365 days.  So a start date before the floor that is
    also not before its end date fails with the floor error. *)
Theorem fetch_validation_order (E : Env) (userId : string)
    (startDate endDate : option string) (w : World) :
  forall stored w1,
  getUserTokens E userId w = (Ok stored, w1) ->
  let out := (dexcomFetchGlucoseData E (Some userId) startDate endDate w).1 in
  (stored = None ->
   out = Threw (HttpsError not_found
                  "No Dexcom tokens found. Please connect to Dexcom first.")) /\
  forall tokens, stored = Some tokens ->
  forall rl w2, checkRateLimit E w1 = (Ok rl, w2) ->
  (allowed rl = false ->
   out = Threw (HttpsError resource_exhausted
                  "API rate limit exceeded. Please try again later.")) /\
  (allowed rl = true ->
   forall fresh w3, ensureFresh E userId tokens w2 = (fresh, w3) ->
   (forall e, fresh = Threw e -> out = Threw e) /\
   forall tokens', fresh = Ok tokens' ->
   forall dataRange w4,
   sandboxDataRange E (getDexcomConfig E) tokens' (set_step (S (step w3)) w3)
     = (Ok dataRange, w4) ->
   forall parsedStart parsedEnd w5,
   requestedWindow E startDate endDate w4 = (Ok (parsedStart, parsedEnd), w5) ->
   (parsedStart = None \/ parsedEnd = None ->
    out = Threw (HttpsError invalid_argument "Invalid date format provided")) /\
   forall s e, parsedStart = Some s -> parsedEnd = Some e ->
   (s < minAllowedDate ->
    out = Threw (HttpsError invalid_argument "Start date cannot be before 2020")) /\
   (minAllowedDate <= s -> e < minAllowedDate ->
    out = Threw (HttpsError invalid_argument "End date cannot be before 2020")) /\
   (minAllowedDate <= s -> minAllowedDate <= e -> s >= e ->
    out = Threw (HttpsError invalid_argument "Start date must be before end date")) /\
   (minAllowedDate <= s -> s < e -> e - s > 365 * 24 * 60 * 60 * 1000 ->
    out = Threw (HttpsError invalid_argument "Date range cannot exceed 1 year"))).
Proof.
  intros stored w1 Hget out. unfold out, dexcomFetchGlucoseData.
  rewrite (bind_ok _ _ _ _ _ Hget). split; [by intros ->|].
  intros tokens -> rl w2 Hrl. rewrite (bind_ok _ _ _ _ _ Hrl). split.
  { intros ->. cbn [negb].
    by rewrite (bind_ok_fst _ _ _ _ (recordHealthMetric_total E _ _ _ _ w2)). }
  intros -> fresh w3 Hfresh. cbn [negb]. split.
  { intros e ->. by rewrite (bind_threw _ _ _ _ _ Hfresh). }
  intros tokens' -> dataRange w4 Hrange parsedStart parsedEnd w5 Hwin.
  rewrite (bind_ok _ _ _ _ _ Hfresh), (bind_ok _ _ _ _ _ (Date_now_run E w3)).
  pose proof (fun code message =>
    fetch_rejected_window E userId tokens' rl (clock E (step w3)) startDate endDate
      dataRange (parsedStart, parsedEnd) _ w4 w5 code message Hrange Hwin) as Hrej.
  rewrite validateWindow_run in Hrej. simpl in Hrej. split.
  { intros [-> | ->]; [|destruct parsedStart]; by apply Hrej. }
  intros s e -> ->.
  repeat split; intros; apply Hrej; case_compare; first [lia | reflexivity].
Qed.

Lemma fetch_validation_order_witness :
  let E := Demo.env DEXCOM_API_CONFIG Demo.noon Demo.offline Demo.healthy in
  (dexcomFetchGlucoseData E (Some "u1")
     (Some "2019-12-31T00:00:00Z") (Some "2019-12-31T00:00:00Z")
     (Demo.connected 1704240000000)).1
  = Threw (HttpsError invalid_argument "Start date cannot be before 2020").
Proof.
  intros E.
  set (day := Some "2019-12-31T00:00:00Z").
  set (w := Demo.connected 1704240000000).
  set (tokens := Demo.userTokens 1704240000000).
  set (w1 := (getUserTokens E "u1" w).2).
  set (w2 := (checkRateLimit E w1).2).
  set (w3 := (ensureFresh E "u1" tokens w2).2).
  set (w4 := set_step (S (step w3)) w3).
  pose proof (fetch_validation_order E "u1" day day w (Some tokens) w1
                (outcome_eta _ _ eq_refl)) as [_ H].
  specialize (H tokens eq_refl
                {| allowed := true; remaining := 60000; resetTime := 1704200400000 |} w2
                (outcome_eta _ _ eq_refl)) as [_ H].
  specialize (H eq_refl (Ok tokens) w3 (outcome_eta _ _ eq_refl)) as [_ H].
  specialize (H tokens eq_refl None w4 eq_refl
                (Some 1577750400000) (Some 1577750400000) w4 eq_refl) as [_ H].
  specialize (H 1577750400000 1577750400000 eq_refl eq_refl) as [H _].
  apply H. reflexivity.
Defined.

(** ** The callback *)

#[local] Instance sameTokens_frame : Frame sameTokens.
Proof. split; intros; unfold sameTokens in *; simpl; congruence. Qed.

Section Callback.

Context (E : Env).

Lemma preserves_validateState (R : World -> World -> Prop) `{!Frame R} state expected :
  Preserves R (validateState E state expected).
Proof. unfold validateState. preserves. Qed.

Lemma saveUserTokens_threw userId tokens w e w' :
  saveUserTokens E userId tokens w = (Threw e, w') ->
  dexcomTokens w' = dexcomTokens w.
Proof.
  unfold saveUserTokens, firestore_op, Date_now, console_error. unfold_M.
  destruct (tf_refreshTokenCreatedAt tokens =? 0); simpl;
    destruct (doc_id userId); simpl;
    repeat match goal with
           | |- context [dbFails E ?k] => destruct (dbFails E k); simpl
           end;
    intros [= <- <-] || intros [=]; reflexivity.
Qed.

Lemma exchangeAndStore_save_fails code userId w resp w1 a r x e w2 :
  fetch E (authorizationCodeRequest E code) w = (Ok resp, w1) ->
  response_ok resp = true ->
  json resp = Some (TokenBody a r x) ->
  saveUserTokens E userId
    {| tf_accessToken := a; tf_refreshToken := r;
       tf_expiresAt := clock E (step w1) + x * 1000;
       tf_refreshTokenCreatedAt := clock E (S (step w1)) |}
    (set_step (S (S (step w1))) w1) = (Threw e, w2) ->
  exchangeAndStore E code userId w =
    (Ok (frontendUrl (getDexcomConfig E) +:+ "/dexcom?success=true"),
     set_console (console w2 ++ [(LError, "Firestore save failed:")]) w2).
Proof.
  intros Hfetch Hok Hjson Hsave. unfold exchangeAndStore.
  rewrite (bind_ok _ _ _ _ _ Hfetch), Hok. cbn [negb].
  unfold response_json. rewrite Hjson.
  unfold mbind at 1, M_bind at 1, mret at 1, M_ret at 1. cbn [tokenFields_of].
  unfold mbind at 1, M_bind at 1, mret at 1, M_ret at 1.
  rewrite (bind_ok _ _ _ _ _ (Date_now_run E w1)).
  rewrite (bind_ok _ _ _ _ _ (Date_now_run E _)). cbn [step set_step].
  erewrite bind_ok; [reflexivity|].
  by erewrite try_catch_threw by exact Hsave.
Qed.

End Callback.

(** C6.  When the callback reaches the exchange (the configuration is
    complete, no error parameter, a code and a state that validates), the
    vendor answers the exchange with tokens, and storing the credential
    record fails, the callback still redirects to the front end with
    [success=true]: the failure goes to the console only, and no
    credential record is written. *)
Theorem callback_success_despite_save_failure (E : Env) (query : CallbackQuery) (w : World) :
  let config := getDexcomConfig E in
  truthy_str (clientId config) && truthy_str (clientSecret config)
    && truthy_str (redirectUri config) = true ->
  truthy_str (q_error query) = false ->
  forall code state,
  q_code query = Some code -> code <> "" ->
  q_state query = Some state -> state <> "" ->
  forall stateData userId,
  JSON.parse (Base64.decode state) = Some stateData ->
  get_property stateData "userId" = Ok userId ->
  truthy userId = true ->
  forall validation w1,
  validateState E state userId w = (Ok validation, w1) ->
  valid validation = true ->
  forall tokenResponse w2 access_token refresh_token expires_in,
  fetch E (authorizationCodeRequest E code) w1 = (Ok tokenResponse, w2) ->
  response_ok tokenResponse = true ->
  json tokenResponse = Some (TokenBody access_token refresh_token expires_in) ->
  forall firestoreError w3,
  saveUserTokens E userId
    {| tf_accessToken := access_token; tf_refreshToken := refresh_token;
       tf_expiresAt := clock E (step w2) + expires_in * 1000;
       tf_refreshTokenCreatedAt := clock E (S (step w2)) |}
    (set_step (S (S (step w2))) w2) = (Threw firestoreError, w3) ->
  let out := dexcomOAuthCallback E query w in
  out.1 = Ok (frontendUrl config +:+ "/dexcom?success=true") /\
  console out.2 = console w3 ++ [(LError, "Firestore save failed:")] /\
  dexcomTokens out.2 = dexcomTokens w.
Proof.
  intros config Hconfig Herror code state Hcode Hcode' Hstate Hstate'
    stateData userId Hparse Huser Htruthy validation w1 Hvalid Hvalid'
    tokenResponse w2 access_token refresh_token expires_in Hfetch Hok Hjson
    firestoreError w3 Hsave out.
  assert (Hrun : out =
    (Ok (frontendUrl config +:+ "/dexcom?success=true"),
     set_console (console w3 ++ [(LError, "Firestore save failed:")]) w3)).
  { unfold out, dexcomOAuthCallback.
    apply andb_true_iff in Hconfig as [Hconfig H3].
    apply andb_true_iff in Hconfig as [H1 H2].
    apply try_catch_ok. fold config. rewrite H1, H2, H3, Herror, Hcode, Hstate.
    cbn [negb orb truthy_str default].
    apply String.eqb_neq in Hcode', Hstate'. rewrite Hcode', Hstate'.
    cbn [negb orb]. unfold default; cbn [from_option id]. rewrite Hparse, Huser.
    unfold liftR at 1. unfold mbind at 1, M_bind at 1. rewrite Htruthy. cbn [negb].
    rewrite (bind_ok _ _ _ _ _ Hvalid), Hvalid'. cbn [negb].
    by eapply exchangeAndStore_save_fails. }
  rewrite Hrun. cbn [fst snd console dexcomTokens set_console].
  repeat split.
  apply saveUserTokens_threw in Hsave.
  rewrite fetch_run in Hfetch. injection Hfetch as _ <-.
  simpl in Hsave. rewrite Hsave.
  exact (preserves_validateState E sameTokens _ _ _ _ _ Hvalid).
Qed.

Lemma callback_success_despite_save_failure_witness :
  let E := Demo.env DEXCOM_API_CONFIG Demo.noon Demo.granting Demo.failing in
  let query := {| q_code := Some "code-1"; q_state := Some Demo.stateToken;
                  q_error := None |} in
  (dexcomOAuthCallback E query Demo.w0).1 =
    Ok "https://app.example.test/dexcom?success=true" /\
  dexcomTokens (dexcomOAuthCallback E query Demo.w0).2 = ∅.
Proof.
  intros E query.
  set (userId := Some (JStr "u1")).
  set (w1 := (validateState E Demo.stateToken userId Demo.w0).2).
  set (w2 := (fetch E (authorizationCodeRequest E "code-1") w1).2).
  assert (Hparse : JSON.parse (Base64.decode Demo.stateToken) =
            Some (JObj [("userId", JStr "u1"); ("timestamp", JNum 1704196800000 0);
                        ("nonce", JStr "000102030405060708090a0b0c0d0e0f")]))
    by (vm_compute; reflexivity).
  assert (Hvalid : validateState E Demo.stateToken userId Demo.w0 =
            (Ok {| valid := true; reason := None |}, w1))
    by (apply outcome_eta; vm_compute; reflexivity).
  assert (Hstate : Demo.stateToken <> "") by (vm_compute; discriminate).
  pose proof (callback_success_despite_save_failure E query Demo.w0
                eq_refl eq_refl "code-1" Demo.stateToken eq_refl
                ltac:(discriminate) eq_refl Hstate _ userId Hparse eq_refl eq_refl
                _ w1 Hvalid eq_refl _ w2 "access-2" "refresh-2" 7200
                (outcome_eta _ _ eq_refl) eq_refl eq_refl
                (JsError "Firestore operation failed") _
                (outcome_eta _ _ eq_refl)) as (H1 & _ & H3).
  split; [exact H1 | exact H3].
Defined.

(** ** Stored readings *)

Lemma Timestamp_fromMillis_inj ms1 ms2 :
  Timestamp_fromMillis ms1 = Timestamp_fromMillis ms2 -> ms1 = ms2.
Proof.
  unfold Timestamp_fromMillis. intros [= Hs Hn]. rewrite Hs in Hn. lia.
Qed.

Section Store.

Context (E : Env).

(** What a reading that can be written becomes. *)
Lemma prepareWrite_ok userId reading bw :
  prepareWrite E userId reading = Ok bw ->
  exists ms,
    parseDate E (systemTime reading) = Some ms /\
    bw_docId bw = readingDocId userId ms /\
    bw_userId bw = userId /\
    bw_systemTime bw = Timestamp_fromMillis ms /\
    Timestamp_fromDate (parseDate E (displayTime reading)) = Ok (bw_displayTime bw) /\
    bw_value bw = value reading /\
    bw_trend bw = trend reading /\
    bw_trendRate bw = trendRate reading.
Proof.
  unfold prepareWrite.
  destruct (parseDate E (systemTime reading)) as [ms|]; [|done].
  destruct (Timestamp_fromDate (Some ms)) as [st|] eqn:Hst; [|done].
  assert (st = Timestamp_fromMillis ms) as ->.
  { unfold Timestamp_fromDate in Hst. by case_match; simplify_eq. }
  cbn [mbind Result_bind].
  destruct (Timestamp_fromDate (parseDate E (displayTime reading))) as [dt|]; [|done].
  cbn [mbind Result_bind].
  destruct (trendRate reading) eqn:Hrate;
    try destruct (ignoreUndefinedProperties E); cbn [mbind mret Result_bind Result_ret];
    intros [= <-]; exists ms; by rewrite ?Hrate.
Qed.

Lemma prepareBatch_identified userId readings batch :
  prepareBatch E userId readings = Ok batch -> Forall identified batch.
Proof.
  revert batch. induction readings as [|r rs IH]; intros batch.
  - intros [= <-]. constructor.
  - cbn [prepareBatch]. destruct (prepareWrite E userId r) as [bw|] eqn:Hbw; [|done].
    cbn [mbind Result_bind].
    destruct (prepareBatch E userId rs) as [rest|]; [|done].
    intros [= <-]. constructor; [|by apply IH].
    apply prepareWrite_ok in Hbw as (ms & _ & Hid & Hu & Hst & _).
    exists ms. by rewrite Hu.
Qed.

Lemma mergeWrite_keyed recordedAt bw store :
  identified bw -> keyedByIdentity store ->
  keyedByIdentity (mergeWrite recordedAt bw store).
Proof.
  intros (ms & Hst & Hid) Hstore k d. unfold mergeWrite.
  destruct (decide (bw_docId bw = k)) as [<-|Hne].
  - rewrite lookup_insert_eq. intros [= <-]. by exists ms.
  - rewrite lookup_insert_ne by done. apply Hstore.
Qed.

Lemma commitBatch_keyed recordedAt batch store :
  Forall identified batch -> keyedByIdentity store ->
  keyedByIdentity (commitBatch recordedAt batch store).
Proof.
  unfold commitBatch. intros Hb. revert store.
  induction Hb as [|bw batch Hbw _ IH]; intros store Hs; [done|].
  cbn [fold_left]. apply IH. by apply mergeWrite_keyed.
Qed.

(** The store after a call: as before, or with the whole batch merged
    in. *)
Lemma storeGlucoseReadings_store userId readings w :
  let w' := (storeGlucoseReadings E userId readings w).2 in
  glucoseReadings w' = glucoseReadings w \/
  exists batch,
    prepareBatch E userId readings = Ok batch /\
    glucoseReadings w' =
      commitBatch (serverTime E (step w)) batch (glucoseReadings w).
Proof.
  unfold storeGlucoseReadings.
  destruct (length readings =? 0)%nat; [by left|].
  unfold firestore_op, console_error. unfold_M.
  destruct (prepareBatch E userId readings) as [batch|]; cbn; [|by left].
  destruct (dbFails E (step w)); cbn; [by left|].
  right. by exists batch.
Qed.

Lemma storeGlucoseReadings_keyed userId readings w :
  keyedByIdentity (glucoseReadings w) ->
  keyedByIdentity (glucoseReadings (storeGlucoseReadings E userId readings w).2).
Proof.
  intros Hk.
  destruct (storeGlucoseReadings_store userId readings w) as [->|(batch & Hb & ->)];
    [done|].
  apply commitBatch_keyed; [by eapply prepareBatch_identified | done].
Qed.

Lemma ingestAll_keyed calls w :
  keyedByIdentity (glucoseReadings w) ->
  keyedByIdentity (glucoseReadings (ingestAll E calls w)).
Proof.
  unfold ingestAll. revert w. induction calls as [|[u rs] calls IH]; intros w Hk; [done|].
  cbn [fold_left]. apply IH. by apply storeGlucoseReadings_keyed.
Qed.

(** A call with one reading that returns has merged that reading. *)
Lemma storeGlucoseReadings_one userId reading w w' :
  storeGlucoseReadings E userId [reading] w = (Ok tt, w') ->
  exists bw,
    prepareWrite E userId reading = Ok bw /\
    glucoseReadings w' = mergeWrite (serverTime E (step w)) bw (glucoseReadings w).
Proof.
  unfold storeGlucoseReadings. cbn [length Nat.eqb prepareBatch].
  unfold firestore_op, console_error. unfold_M.
  destruct (prepareWrite E userId reading) as [bw|]; cbn; [|done].
  destruct (dbFails E (step w)); cbn; [done|].
  intros [= <-]. by exists bw.
Qed.

End Store.

Lemma keyedByIdentity_unique store k1 k2 d1 d2 :
  keyedByIdentity store ->
  store !! k1 = Some d1 -> store !! k2 = Some d2 ->
  sr_userId d1 = sr_userId d2 -> sr_systemTime d1 = sr_systemTime d2 ->
  k1 = k2.
Proof.
  intros Hk H1 H2 Hu Ht.
  apply Hk in H1 as (ms1 & Hs1 & ->). apply Hk in H2 as (ms2 & Hs2 & ->).
  rewrite Hu. f_equal. apply Timestamp_fromMillis_inj. congruence.
Qed.

(** C2.  Starting from an empty collection, after any sequence of calls
    of [storeGlucoseReadings] no two documents hold the same user and
    system time, because each sits under the identifier built from its
    user and the epoch milliseconds of its system time.  Storing a
    reading and then another one of the same user and instant, whatever
    its value and trend, leaves exactly one document for that user and
    instant, and it carries the fields of the second reading. *)
Theorem one_record_per_reading (E : Env)
    (history : list (string * list DexcomGlucoseReading)) (w0 : World) :
  glucoseReadings w0 = ∅ ->
  let w := ingestAll E history w0 in
  (forall k1 k2 d1 d2,
      glucoseReadings w !! k1 = Some d1 ->
      glucoseReadings w !! k2 = Some d2 ->
      sr_userId d1 = sr_userId d2 ->
      sr_systemTime d1 = sr_systemTime d2 ->
      k1 = k2) /\
  (forall userId first second ms w1 w2,
      parseDate E (systemTime first) = Some ms ->
      parseDate E (systemTime second) = Some ms ->
      storeGlucoseReadings E userId [first] w = (Ok tt, w1) ->
      storeGlucoseReadings E userId [second] w1 = (Ok tt, w2) ->
      exists d,
        glucoseReadings w2 !! readingDocId userId ms = Some d /\
        (forall k d',
            glucoseReadings w2 !! k = Some d' ->
            sr_userId d' = userId ->
            sr_systemTime d' = Timestamp_fromMillis ms ->
            k = readingDocId userId ms) /\
        sr_userId d = userId /\
        sr_systemTime d = Timestamp_fromMillis ms /\
        Timestamp_fromDate (parseDate E (displayTime second)) = Ok (sr_displayTime d) /\
        sr_value d = value second /\
        sr_unit d = "mg/dL" /\
        sr_trend d = trend second /\
        (trendRate second <> Undefined -> sr_trendRate d = trendRate second)).
Proof.
  intros Hempty w.
  assert (Hw : keyedByIdentity (glucoseReadings w)).
  { apply ingestAll_keyed. rewrite Hempty. intros k d. by rewrite lookup_empty. }
  split; [intros; by eapply keyedByIdentity_unique|].
  intros userId first second ms w1 w2 Hfirst Hsecond Hrun1 Hrun2.
  assert (Hw2 : keyedByIdentity (glucoseReadings w2)).
  { pose proof (storeGlucoseReadings_keyed E userId [second] w1) as H2.
    rewrite Hrun2 in H2. apply H2.
    pose proof (storeGlucoseReadings_keyed E userId [first] w Hw) as H1.
    by rewrite Hrun1 in H1. }
  apply storeGlucoseReadings_one in Hrun2 as (bw & Hbw & Hstore).
  apply prepareWrite_ok in Hbw as (ms' & Hms & Hid & Hu & Hst & Hdt & Hv & Htr & Hrate).
  assert (ms' = ms) as -> by congruence.
  eexists. split.
  { rewrite Hstore. unfold mergeWrite. rewrite Hid. apply lookup_insert_eq. }
  cbn [sr_userId sr_systemTime sr_displayTime sr_value sr_unit sr_trend sr_trendRate].
  split.
  { intros k d' Hk Hku Hkt. apply Hw2 in Hk as (ms' & Hms' & ->).
    rewrite Hku. f_equal. apply Timestamp_fromMillis_inj. congruence. }
  repeat split; try done.
  rewrite Hrate. by destruct (trendRate second).
Qed.

Lemma one_record_per_reading_witness :
  let E := Demo.env DEXCOM_API_CONFIG Demo.noon Demo.offline Demo.healthy in
  let w1 := (storeGlucoseReadings E "u1" [Demo.firstReading] Demo.w0).2 in
  let w2 := (storeGlucoseReadings E "u1" [Demo.secondReading] w1).2 in
  exists d,
    glucoseReadings w2 !! readingDocId "u1" 1704067200000 = Some d /\
    sr_value d = 140 /\ sr_trend d = "singleUp" /\ sr_trendRate d = Num 2.
Proof.
  intros E w1 w2.
  destruct (proj2 (one_record_per_reading E [] Demo.w0 eq_refl)
              "u1" Demo.firstReading Demo.secondReading 1704067200000 w1 w2
              eq_refl eq_refl (outcome_eta _ _ eq_refl) (outcome_eta _ _ eq_refl))
    as (d & Hd & _ & _ & _ & _ & Hv & _ & Ht & Hr).
  exists d. split; [exact Hd|]. split; [exact Hv|]. split; [exact Ht|].
  apply Hr. discriminate.
Defined.

(** ** The sweep *)

#[local] Instance keepsReadings_frame : Frame keepsReadings.
Proof.
  split; intros; unfold keepsReadings in *; simpl; try done.
  by etrans.
Qed.

Section Sweep.

Context (E : Env).

Lemma mergeWrite_dom recordedAt bw store :
  dom (mergeWrite recordedAt bw store) = {[bw_docId bw]} ∪ dom store.
Proof. unfold mergeWrite. by rewrite dom_insert_L. Qed.

Lemma commitBatch_dom recordedAt batch store :
  dom (commitBatch recordedAt batch store) =
    list_to_set (bw_docId <$> batch) ∪ dom store.
Proof.
  unfold commitBatch. revert store.
  induction batch as [|bw batch IH]; intros store; cbn [fold_left fmap list_fmap].
  - by rewrite list_to_set_nil, (left_id_L ∅ (∪)).
  - rewrite IH, mergeWrite_dom, list_to_set_cons.
    by rewrite (assoc_L (∪)), (comm_L (∪) (list_to_set _) {[bw_docId bw]}).
Qed.

Lemma keeps_storeGlucoseReadings userId readings :
  Preserves keepsReadings (storeGlucoseReadings E userId readings).
Proof.
  intros w r w' Hrun. unfold keepsReadings.
  pose proof (storeGlucoseReadings_store E userId readings w) as Hs.
  rewrite Hrun in Hs. cbn [snd] in Hs.
  destruct Hs as [->|(batch & _ & ->)]; [done|].
  rewrite commitBatch_dom. apply union_subseteq_r.
Qed.

Hint Resolve keeps_storeGlucoseReadings : preserves.
Hint Extern 1 (Preserves _ (checkRateLimit _)) =>
  apply preserves_checkRateLimit; exact _ : preserves.
Hint Extern 1 (Preserves keepsReadings (saveUserTokens _ _ _)) =>
  apply preserves_saveUserTokens; [exact _ | intros; unfold keepsReadings; simpl; done]
  : preserves.
Hint Extern 1 (Preserves keepsReadings (fetch _ _)) =>
  apply preserves_fetch; [exact _ | intros; unfold keepsReadings; simpl; done]
  : preserves.

Lemma keeps_refreshAccessToken userId rt :
  Preserves keepsReadings (refreshAccessToken E userId rt).
Proof. unfold refreshAccessToken. preserves. Qed.

Lemma keeps_ensureFresh userId tokens :
  Preserves keepsReadings (ensureFresh E userId tokens).
Proof. unfold ensureFresh. preserves. apply keeps_refreshAccessToken. Qed.

Lemma keeps_pullForUser tokens : Preserves keepsReadings (pullForUser E tokens).
Proof. unfold pullForUser. preserves. apply keeps_ensureFresh. Qed.

(** The body for one user never throws. *)
Lemma pullForUser_total tokens w : (pullForUser E tokens w).1 = Ok tt.
Proof.
  unfold pullForUser, try_catch.
  match goal with |- context [?m w] => destruct (m w) as [[[]|e] w'] end; reflexivity.
Qed.

Lemma keeps_pullAll docs : Preserves keepsReadings (pullAll E docs).
Proof.
  induction docs as [|tokens docs IH]; cbn [pullAll].
  - apply preserves_ret. exact _.
  - apply preserves_bind; [exact _ | apply keeps_pullForUser | intros _; apply IH].
Qed.

Lemma pullAll_total docs w : (pullAll E docs w).1 = Ok tt.
Proof.
  revert w. induction docs as [|tokens docs IH]; intros w; [done|].
  cbn [pullAll]. rewrite (bind_ok_fst _ _ _ _ (pullForUser_total tokens w)). apply IH.
Qed.

(** Whatever the users before did, the body for the next user runs, and
    the users after it follow. *)
Lemma pullAll_app before after w :
  pullAll E (before ++ after) w = pullAll E after (pullAll E before w).2.
Proof.
  revert w. induction before as [|tokens before IH]; intros w; [done|].
  cbn [pullAll app]. rewrite !(bind_ok_fst _ _ _ _ (pullForUser_total tokens w)). apply IH.
Qed.

(** A reading that was prepared is in the store after the commit. *)
Lemma prepareBatch_docIds userId readings batch reading ms :
  prepareBatch E userId readings = Ok batch ->
  reading ∈ readings ->
  parseDate E (systemTime reading) = Some ms ->
  readingDocId userId ms ∈ bw_docId <$> batch.
Proof.
  revert batch. induction readings as [|r rs IH]; intros batch Hb Hin Hms.
  - by apply elem_of_nil in Hin.
  - cbn [prepareBatch] in Hb.
    destruct (prepareWrite E userId r) as [bw|] eqn:Hbw; [|done].
    cbn [mbind Result_bind] in Hb.
    destruct (prepareBatch E userId rs) as [rest|]; [|done].
    injection Hb as <-. cbn [fmap list_fmap].
    apply elem_of_cons in Hin as [->|Hin].
    + apply prepareWrite_ok in Hbw as (ms' & Hms' & Hid & _).
      rewrite Hid. assert (ms' = ms) as -> by congruence. apply elem_of_cons. by left.
    + apply elem_of_cons. right. by apply IH.
Qed.

(** The body for a user whose own steps go through stores what the vendor
    sent. *)
Lemma pullForUser_synced tokens w rl w1 current w2 response w3 body w4 :
  checkRateLimit E w = (Ok rl, w1) ->
  allowed rl = true ->
  ensureFresh E (tk_userId tokens) tokens w1 = (Ok current, w2) ->
  fetch E (lastHourRequest E (accessToken current) (clock E (step w2)) (clock E (S (step w2))))
        (set_step (S (S (step w2))) w2) = (Ok response, w3) ->
  response_ok response = true ->
  json response = Some body ->
  glucoseData_of body <> [] ->
  storeGlucoseReadings E (tk_userId tokens) (glucoseData_of body) w3 = (Ok tt, w4) ->
  pullForUser E tokens w = (Ok tt, w4) /\
  forall reading ms,
    reading ∈ glucoseData_of body ->
    parseDate E (systemTime reading) = Some ms ->
    readingDocId (tk_userId tokens) ms ∈ dom (glucoseReadings w4).
Proof.
  intros Hrl Hadm Hfresh Hfetch Hok Hjson Hne Hstore. split.
  - unfold pullForUser. apply try_catch_ok.
    rewrite (bind_ok _ _ _ _ _ Hrl), Hadm. cbn [negb].
    rewrite (bind_ok _ _ _ _ _ Hfresh).
    rewrite (bind_ok _ _ _ _ _ (Date_now_run E w2)).
    rewrite (bind_ok _ _ _ _ _ (Date_now_run E _)). cbn [step set_step].
    rewrite (bind_ok _ _ _ _ _ Hfetch), Hok.
    unfold response_json. rewrite Hjson.
    unfold mbind at 1, M_bind at 1, mret at 1, M_ret at 1.
    destruct (glucoseData_of body) as [|r rs]; [done|]. exact Hstore.
  - intros reading ms Hin Hms.
    pose proof (storeGlucoseReadings_store E (tk_userId tokens) (glucoseData_of body) w3) as Hs.
    rewrite Hstore in Hs. cbn [snd] in Hs.
    assert (exists batch,
      prepareBatch E (tk_userId tokens) (glucoseData_of body) = Ok batch /\
      glucoseReadings w4 = commitBatch (serverTime E (step w3)) batch (glucoseReadings w3))
      as (batch & Hb & ->).
    { destruct Hs as [_|Hs]; [|exact Hs].
      revert Hstore. unfold storeGlucoseReadings.
      destruct (glucoseData_of body) as [|r rs]; [done|]. cbn [length Nat.eqb].
      unfold firestore_op, console_error. unfold_M.
      destruct (prepareBatch E (tk_userId tokens) (r :: rs)) as [batch|]; cbn; [|done].
      destruct (dbFails E (step w3)); cbn; [done|]. intros [= <-]. by exists batch. }
    rewrite commitBatch_dom. apply elem_of_union_l, elem_of_list_to_set.
    by eapply prepareBatch_docIds.
Qed.

Lemma scheduledGlucoseDataPull_run w :
  dbFails E (step w) = false ->
  scheduledGlucoseDataPull E w =
    pullAll E (map_to_list (dexcomTokens w)).*2 (set_step (S (step w)) w).
Proof.
  intros Hdb. unfold scheduledGlucoseDataPull, try_catch, firestore_op. unfold_M.
  cbn. rewrite Hdb. cbn [dexcomTokens set_step].
  pose proof (pullAll_total (map_to_list (dexcomTokens w)).*2 (set_step (S (step w)) w)) as Ht.
  destruct ((map_to_list (dexcomTokens w)).*2) as [|tokens docs]; [done|].
  destruct (pullAll E (tokens :: docs) _) as [[[]|e] w']; [done|]. by cbn in Ht.
Qed.

Lemma scheduledGlucoseDataPull_total w : (scheduledGlucoseDataPull E w).1 = Ok tt.
Proof.
  unfold scheduledGlucoseDataPull, try_catch.
  match goal with |- context [?m w] => destruct (m w) as [[[]|e] w'] end; reflexivity.
Qed.

End Sweep.

(** C9.  The sweep never throws and returns nothing.  The body for each
    credential record catches whatever fails in it, so the bodies of the
    records after it still run; and a user whose own steps go through
    (admitted by the rate limiter, tokens fresh or refreshed, vendor
    answer received, batch committed) has a document for every reading
    sent when the sweep ends, whatever happened to the users before and
    after. *)
Theorem sweep_isolation (E : Env) (w : World) :
  (scheduledGlucoseDataPull E w).1 = Ok tt /\
  (forall tokens w', (pullForUser E tokens w').1 = Ok tt) /\
  (dbFails E (step w) = false ->
   forall before tokens after,
   (map_to_list (dexcomTokens w)).*2 = before ++ tokens :: after ->
   let start := (pullAll E before (set_step (S (step w)) w)).2 in
   let final := (scheduledGlucoseDataPull E w).2 in
   final = (pullAll E after (pullForUser E tokens start).2).2 /\
   forall rl w1 current w2 response w3 body w4,
   checkRateLimit E start = (Ok rl, w1) ->
   allowed rl = true ->
   ensureFresh E (tk_userId tokens) tokens w1 = (Ok current, w2) ->
   fetch E (lastHourRequest E (accessToken current)
              (clock E (step w2)) (clock E (S (step w2))))
         (set_step (S (S (step w2))) w2) = (Ok response, w3) ->
   response_ok response = true ->
   json response = Some body ->
   glucoseData_of body <> [] ->
   storeGlucoseReadings E (tk_userId tokens) (glucoseData_of body) w3 = (Ok tt, w4) ->
   forall reading ms,
   reading ∈ glucoseData_of body ->
   parseDate E (systemTime reading) = Some ms ->
   readingDocId (tk_userId tokens) ms ∈ dom (glucoseReadings final)).
Proof.
  split; [apply scheduledGlucoseDataPull_total|].
  split; [intros; apply pullForUser_total|].
  intros Hdb before tokens after Hdocs start final.
  assert (Hfinal : final = (pullAll E after (pullForUser E tokens start).2).2).
  { unfold final. rewrite (scheduledGlucoseDataPull_run E w Hdb), Hdocs, pullAll_app.
    cbn [pullAll]. fold start.
    by rewrite (bind_ok_fst _ _ _ _ (pullForUser_total E tokens start)). }
  split; [exact Hfinal|].
  intros rl w1 current w2 response w3 body w4 Hrl Hadm Hfresh Hfetch Hok Hjson Hne Hstore
    reading ms Hin Hms.
  destruct (pullForUser_synced E tokens start rl w1 current w2 response w3 body w4
              Hrl Hadm Hfresh Hfetch Hok Hjson Hne Hstore) as [Hrun Hdom].
  rewrite Hfinal, Hrun. cbn [snd].
  eapply (keeps_pullAll E after w4); [apply surjective_pairing|].
  by eapply Hdom.
Qed.

Lemma sweep_isolation_witness :
  let E := Demo.env DEXCOM_API_CONFIG Demo.noon Demo.secondFails Demo.healthy in
  let final := (scheduledGlucoseDataPull E Demo.threeUsers).2 in
  (readingDocId "u2" 1704067200000 ∈ dom (glucoseReadings final)) /\
  console final = [(LError, "Error pulling data for user")].
Proof.
  intros E final. split; [|by vm_compute].
  set (u1 := Demo.tokensOf "u1" "access-1").
  set (u2 := Demo.tokensOf "u2" "access-2").
  set (u3 := Demo.tokensOf "u3" "access-3").
  set (start := (pullAll E [u3; u1] (set_step 1 Demo.threeUsers)).2).
  set (w1 := (checkRateLimit E start).2).
  set (w2 := (ensureFresh E "u2" u2 w1).2).
  set (request := lastHourRequest E "access-2" (clock E (step w2)) (clock E (S (step w2)))).
  set (w3 := (fetch E request (set_step (S (S (step w2))) w2)).2).
  set (w4 := (storeGlucoseReadings E "u2" [Demo.firstReading] w3).2).
  assert (Hdocs : (map_to_list (dexcomTokens Demo.threeUsers)).*2 = [u3; u1] ++ u2 :: [])
    by (vm_compute; reflexivity).
  assert (Hrl : checkRateLimit E start =
            (Ok {| allowed := true; remaining := 59998; resetTime := 1704200400000 |}, w1))
    by (apply outcome_eta; vm_compute; reflexivity).
  assert (Hfresh : ensureFresh E "u2" u2 w1 = (Ok u2, w2))
    by (apply outcome_eta; vm_compute; reflexivity).
  assert (Hfetch : fetch E request (set_step (S (S (step w2))) w2) =
            (Ok {| status := 200; text := "";
                   json := Some (EgvsBody (Some [Demo.firstReading]) None) |}, w3))
    by (apply outcome_eta; vm_compute; reflexivity).
  assert (Hstore : storeGlucoseReadings E "u2" [Demo.firstReading] w3 = (Ok tt, w4))
    by (apply outcome_eta; vm_compute; reflexivity).
  refine (proj2 (proj2 (proj2 (sweep_isolation E Demo.threeUsers)) eq_refl
            [u3; u1] u2 [] Hdocs) _ w1 u2 w2 _ w3 _ w4 Hrl eq_refl Hfresh Hfetch
            eq_refl eq_refl _ Hstore Demo.firstReading 1704067200000 _ eq_refl).
  - discriminate.
  - apply list_elem_of_here.
Defined.

(** ** Base64 round trip *)

(** Division and remainder by a constant, for [lia]. *)
Ltac div_lia := Z.to_euclidean_division_equations; lia.

Lemma string_ind3 (P : string -> Prop) :
  P "" ->
  (forall a, P (String a "")) ->
  (forall a b, P (String a (String b ""))) ->
  (forall a b c s, P s -> P (String a (String b (String c s)))) ->
  forall s, P s.
Proof.
  intros H0 H1 H2 H3 s.
  assert (H : P s /\ (forall a, P (String a s)) /\ (forall a b, P (String a (String b s)))).
  { induction s as [|c s (IH0 & IH1 & IH2)]; [by auto|].
    split; [apply IH1|]. split; [intros a; apply IH2|]. intros a b. by apply H3. }
  apply H.
Qed.

Lemma N_of_ascii_lt a : (N_of_ascii a < 256)%N.
Proof. apply N_ascii_bounded. Qed.

Lemma sextet_char_roundtrip n :
  (n < 64)%N ->
  Base64.sextet_of_char (Base64.char_of_sextet n) = Some n /\
  Ascii.eqb (Base64.char_of_sextet n) "="%char = false.
Proof.
  intros Hn.
  assert (Hk : n = N.of_nat (N.to_nat n)) by (by rewrite N2Nat.id).
  assert (Hlt : (N.to_nat n < 64)%nat) by lia.
  rewrite Hk. generalize dependent (N.to_nat n). intros k _ Hlt.
  do 64 (destruct k as [|k]; [by vm_compute|]). lia.
Qed.

Lemma sextets_cons n s :
  (n < 64)%N ->
  Base64.sextets (String (Base64.char_of_sextet n) s) = n :: Base64.sextets s.
Proof.
  intros Hn. destruct (sextet_char_roundtrip n Hn) as [H1 H2].
  cbn [Base64.sextets]. by rewrite H2, H1.
Qed.

Ltac sextet_bound :=
  match goal with
  | |- (_ < 64)%N =>
      repeat match goal with
             | a : ascii |- _ =>
                 lazymatch goal with
                 | H : (N_of_ascii a < 256)%N |- _ => fail
                 | _ => pose proof (N_of_ascii_lt a)
                 end
             end;
      repeat match goal with
             | |- context [N_of_ascii ?a] => generalize dependent (N_of_ascii a); intros
             end;
      zify; div_lia
  end.

Lemma sextets_encode s : Base64.sextets (Base64.encode s) = sextet_groups s.
Proof.
  induction s as [|a|a b|a b c s IH] using string_ind3;
    cbn [Base64.encode sextet_groups].
  - reflexivity.
  - rewrite !sextets_cons by sextet_bound. reflexivity.
  - rewrite !sextets_cons by sextet_bound. reflexivity.
  - rewrite !sextets_cons by sextet_bound. by rewrite IH.
Qed.

Lemma ascii_of_N_eq a n : n = N_of_ascii a -> ascii_of_N n = a.
Proof. intros ->. apply ascii_N_embedding. Qed.

Lemma bytes_of_sextet_groups s : Base64.bytes_of_sextets (sextet_groups s) = s.
Proof.
  induction s as [|a|a b|a b c s IH] using string_ind3;
    cbn [Base64.bytes_of_sextets sextet_groups].
  - reflexivity.
  - f_equal. apply ascii_of_N_eq. pose proof (N_of_ascii_lt a).
    generalize dependent (N_of_ascii a). intros. zify; div_lia.
  - pose proof (N_of_ascii_lt a). pose proof (N_of_ascii_lt b).
    f_equal; [|f_equal]; apply ascii_of_N_eq;
      generalize dependent (N_of_ascii a); generalize dependent (N_of_ascii b);
      intros; zify; div_lia.
  - pose proof (N_of_ascii_lt a). pose proof (N_of_ascii_lt b). pose proof (N_of_ascii_lt c).
    rewrite IH.
    f_equal; [|f_equal; [|f_equal]]; apply ascii_of_N_eq;
      generalize dependent (N_of_ascii a); generalize dependent (N_of_ascii b);
      generalize dependent (N_of_ascii c); intros; zify; div_lia.
Qed.

(** Decoding what [toString('base64')] produced gives the bytes back. *)
Lemma base64_roundtrip s : Base64.decode (Base64.encode s) = s.
Proof. unfold Base64.decode. by rewrite sextets_encode, bytes_of_sextet_groups. Qed.

(** ** JSON round trip of the state object *)

Lemma append_String c s t : String c s +:+ t = String c (s +:+ t).
Proof. reflexivity. Qed.

Lemma append_empty s : "" +:+ s = s.
Proof. reflexivity. Qed.

Lemma append_assoc' (s t u : string) : (s +:+ t) +:+ u = s +:+ (t +:+ u).
Proof. induction s as [|c s IH]; [done|]. rewrite !append_String. by f_equal. Qed.

(** Reading back one quoted character. *)
Lemma parse_quote_char c tl :
  JSON.parse_chars (JSON.quote_char c +:+ tl) =
  JSON.cons_chars (String c "") (JSON.parse_chars tl).
Proof.
  destruct c as [[] [] [] [] [] [] [] []]; reflexivity.
Qed.

Lemma parse_quote_chars s rest :
  JSON.parse_chars (JSON.quote_chars s +:+ String JSON.dquote rest) = Some (s, rest).
Proof.
  induction s as [|c s IH]; [reflexivity|].
  cbn [JSON.quote_chars]. rewrite append_assoc', parse_quote_char, IH. reflexivity.
Qed.

(** A quoted string is read back as a string value. *)
Lemma parse_value_quote fuel s rest :
  JSON.parse_value (S fuel) (JSON.quote s +:+ rest) = Some (JStr s, rest).
Proof.
  unfold JSON.quote. rewrite append_String, append_assoc', append_String.
  cbn -[JSON.parse_chars String.append]. by rewrite parse_quote_chars.
Qed.

(** *** Numbers *)

Lemma take_digits_uint d acc count rest :
  JSON.take_digits acc count (NilEmpty.string_of_uint d +:+ String "," rest) =
  (horner acc d, (count + Decimal.nb_digits d)%nat, String "," rest).
Proof.
  revert acc count.
  induction d as [|d IH|d IH|d IH|d IH|d IH|d IH|d IH|d IH|d IH|d IH]; intros acc count;
    cbn [NilEmpty.string_of_uint Decimal.nb_digits horner];
    rewrite ?append_String, ?append_empty; cbn [JSON.take_digits];
    match goal with
    | |- context [JSON.digit_value ?c] =>
        let v := eval vm_compute in (JSON.digit_value c) in
        change (JSON.digit_value c) with v
    end; cbn iota;
    [by rewrite Nat.add_0_r | rewrite IH; by rewrite Nat.add_succ_r ..].
Qed.

Lemma horner_of_uint_acc d acc :
  horner (N.pos acc) d = N.pos (Pos.of_uint_acc d acc).
Proof.
  revert acc.
  induction d as [|d IH|d IH|d IH|d IH|d IH|d IH|d IH|d IH|d IH|d IH]; intros acc;
    cbn [horner Pos.of_uint_acc]; [done|..];
    rewrite <- IH; f_equal; lia.
Qed.

Lemma horner_of_uint d : horner 0 d = Pos.of_uint d.
Proof.
  induction d as [|d IH|d IH|d IH|d IH|d IH|d IH|d IH|d IH|d IH|d IH];
    cbn [horner Pos.of_uint]; [done | exact IH | ..];
    rewrite <- horner_of_uint_acc; reflexivity.
Qed.

Lemma to_uint_no_leading_zero p d : Pos.to_uint p <> Decimal.D0 d.
Proof.
  intros H.
  pose proof (DecimalPos.Unsigned.to_of (Pos.to_uint p)) as Hn.
  rewrite DecimalPos.Unsigned.of_to in Hn. cbn [N.to_uint] in Hn.
  rewrite H in Hn. unfold Decimal.unorm in Hn.
  pose proof (DecimalFacts.nzhead_nonzero (Decimal.D0 d)) as Hz.
  destruct (Decimal.nzhead (Decimal.D0 d)) eqn:Hh; try discriminate.
  - injection Hn as ->. by apply (DecimalPos.Unsigned.to_uint_nonzero p).
  - by eapply Hz.
Qed.

(** The text of an integer is read back as that integer. *)
Lemma parse_number_toString z rest :
  JSON.parse_number (Number_toString z +:+ String "," rest) =
  Some (JNum z 0, String "," rest).
Proof.
  assert (Hpos : forall p,
    JSON.parse_int_part (NilEmpty.string_of_uint (Pos.to_uint p) +:+ String "," rest) =
    Some (N.pos p, String "," rest)).
  { intros p. unfold JSON.parse_int_part.
    pose proof (take_digits_uint (Pos.to_uint p) 0 0 rest) as Ht.
    rewrite horner_of_uint, DecimalPos.Unsigned.of_to in Ht.
    pose proof (to_uint_no_leading_zero p) as Hz.
    pose proof (DecimalPos.Unsigned.to_uint_nonnil p) as Hn.
    destruct (Pos.to_uint p) as [|d|d|d|d|d|d|d|d|d|d]; try done;
      [by destruct (Hz d)|..];
      cbn [NilEmpty.string_of_uint] in *; rewrite append_String in *;
      cbn [Ascii.eqb Bool.eqb]; by rewrite Ht. }
  assert (Hnz : forall p,
    NilZero.string_of_uint (Pos.to_uint p) = NilEmpty.string_of_uint (Pos.to_uint p)).
  { intros p. pose proof (DecimalPos.Unsigned.to_uint_nonnil p).
    by destruct (Pos.to_uint p). }
  assert (Hhead : forall p, exists c s,
    NilEmpty.string_of_uint (Pos.to_uint p) = String c s /\ Ascii.eqb c "-" = false).
  { intros p. pose proof (DecimalPos.Unsigned.to_uint_nonnil p).
    destruct (Pos.to_uint p); try done; eexists _, _; split; reflexivity. }
  unfold JSON.parse_number, Number_toString.
  destruct z as [|p|p]; cbn [Z.to_int NilZero.string_of_int].
  - reflexivity.
  - rewrite Hnz. destruct (Hhead p) as (c & s & Hs & Hc).
    pose proof (Hpos p) as Hp. rewrite Hs, append_String in Hp |- *.
    rewrite Hc, Hp. reflexivity.
  - rewrite Hnz, append_String. cbn [Ascii.eqb Bool.eqb]. rewrite Hpos. reflexivity.
Qed.

(** The text of an integer starts a number, not another kind of value. *)
Lemma parse_value_number fuel z rest :
  JSON.parse_value (S fuel) (Number_toString z +:+ String "," rest) =
  Some (JNum z 0, String "," rest).
Proof.
  rewrite <- parse_number_toString.
  assert (Hhead : exists c s,
    Number_toString z +:+ String "," rest = String c s /\
    (c = "-"%char \/ JSON.digit_value c <> None)).
  { unfold Number_toString. destruct z as [|p|p]; cbn [Z.to_int NilZero.string_of_int].
    - eexists _, _. split; [reflexivity|]. by right.
    - pose proof (DecimalPos.Unsigned.to_uint_nonnil p).
      destruct (Pos.to_uint p); try done; eexists _, _; (split; [reflexivity|]); by right.
    - eexists _, _. split; [reflexivity|]. by left. }
  destruct Hhead as (c & s & Hs & Hc). rewrite Hs. cbn [JSON.parse_value].
  assert (Hno : Ascii.eqb c "{" = false /\ Ascii.eqb c "[" = false /\
                Ascii.eqb c JSON.dquote = false /\ Ascii.eqb c "t" = false /\
                Ascii.eqb c "f" = false /\ Ascii.eqb c "n" = false).
  { destruct Hc as [->|Hc]; [by vm_compute|].
    destruct c as [[] [] [] [] [] [] [] []]; try done; by vm_compute. }
  destruct Hno as (-> & -> & -> & -> & -> & ->). reflexivity.
Qed.

(** *** The object *)

Lemma quote_head s rest :
  JSON.quote s +:+ rest =
  String JSON.dquote (JSON.quote_chars s +:+ String JSON.dquote rest).
Proof.
  unfold JSON.quote. by rewrite append_String, append_assoc', append_String.
Qed.

Lemma skip_ws_quote s rest : JSON.skip_ws (JSON.quote s +:+ rest) = JSON.quote s +:+ rest.
Proof. by rewrite quote_head. Qed.

Lemma skip_ws_number z rest :
  JSON.skip_ws (Number_toString z +:+ rest) = Number_toString z +:+ rest.
Proof.
  unfold Number_toString. destruct z as [|p|p]; cbn [Z.to_int NilZero.string_of_int];
    try reflexivity.
  pose proof (DecimalPos.Unsigned.to_uint_nonnil p).
  unfold NilZero.string_of_uint. by destruct (Pos.to_uint p).
Qed.

(** A member whose value is a string, followed by another member. *)
Lemma parse_members_string fuel key s rest :
  JSON.parse_members (S (S fuel))
    (JSON.quote key +:+ String ":" (JSON.quote s +:+ String "," rest)) =
  match JSON.parse_members (S fuel) (JSON.skip_ws rest) with
  | Some (fields, rest') => Some ((key, JStr s) :: fields, rest')
  | None => None
  end.
Proof.
  rewrite quote_head. cbn [JSON.parse_members].
  change (Ascii.eqb JSON.dquote JSON.dquote) with true. cbn iota.
  rewrite parse_quote_chars.
  cbn -[JSON.parse_value JSON.parse_members JSON.skip_ws String.append].
  change (JSON.skip_ws (String ":" ?x)) with (String ":" x).
  cbn -[JSON.parse_value JSON.parse_members JSON.skip_ws String.append].
  rewrite skip_ws_quote, parse_value_quote. reflexivity.
Qed.

(** A member whose value is an integer, followed by another member. *)
Lemma parse_members_number fuel key z rest :
  JSON.parse_members (S (S fuel))
    (JSON.quote key +:+ String ":" (Number_toString z +:+ String "," rest)) =
  match JSON.parse_members (S fuel) (JSON.skip_ws rest) with
  | Some (fields, rest') => Some ((key, JNum z 0) :: fields, rest')
  | None => None
  end.
Proof.
  rewrite quote_head. cbn [JSON.parse_members].
  change (Ascii.eqb JSON.dquote JSON.dquote) with true. cbn iota.
  rewrite parse_quote_chars.
  cbn -[JSON.parse_value JSON.parse_members JSON.skip_ws String.append].
  change (JSON.skip_ws (String ":" ?x)) with (String ":" x).
  cbn -[JSON.parse_value JSON.parse_members JSON.skip_ws String.append].
  rewrite skip_ws_number, parse_value_number. reflexivity.
Qed.

(** The last member, with a string value. *)
Lemma parse_members_last fuel key s :
  JSON.parse_members (S (S fuel))
    (JSON.quote key +:+ String ":" (JSON.quote s +:+ String "}" "")) =
  Some ([(key, JStr s)], "").
Proof.
  rewrite quote_head. cbn [JSON.parse_members].
  change (Ascii.eqb JSON.dquote JSON.dquote) with true. cbn iota.
  rewrite parse_quote_chars.
  cbn -[JSON.parse_value JSON.parse_members JSON.skip_ws String.append].
  change (JSON.skip_ws (String ":" ?x)) with (String ":" x).
  cbn -[JSON.parse_value JSON.parse_members JSON.skip_ws String.append].
  rewrite skip_ws_quote, parse_value_quote. reflexivity.
Qed.

Lemma stringify_state_shape userId timestamp nonce :
  JSON.stringify_state userId timestamp nonce =
  String "{" (JSON.quote "userId" +:+ String ":" (JSON.quote userId +:+ String ","
    (JSON.quote "timestamp" +:+ String ":" (Number_toString timestamp +:+ String ","
    (JSON.quote "nonce" +:+ String ":" (JSON.quote nonce +:+ String "}" "")))))).
Proof. reflexivity. Qed.

(** [JSON.parse] undoes [JSON.stringify] on the state object. *)
Lemma parse_stringify_state userId timestamp nonce :
  JSON.parse (JSON.stringify_state userId timestamp nonce) =
  Some (JObj [("userId", JStr userId); ("timestamp", JNum timestamp 0);
              ("nonce", JStr nonce)]).
Proof.
  unfold JSON.parse. rewrite stringify_state_shape.
  set (members := JSON.quote "userId" +:+ _).
  assert (Hlen : exists k, String.length (String "{" members) = S (S (S (S k)))).
  { unfold members. rewrite quote_head. cbn [JSON.quote_chars].
    cbn -[String.append]. eauto. }
  destruct Hlen as [k ->].
  change (JSON.skip_ws (String "{" members)) with (String "{" members).
  cbn [JSON.parse_value]. change (Ascii.eqb "{" "{") with true. cbn iota.
  unfold members. rewrite skip_ws_quote.
  rewrite quote_head at 1.
  change (Ascii.eqb JSON.dquote "}") with false. cbn iota.
  rewrite <- quote_head.
  rewrite parse_members_string, skip_ws_quote.
  rewrite parse_members_number, skip_ws_quote.
  rewrite parse_members_last. reflexivity.
Qed.

(** The token [generateSecureState] issues decodes to its state object. *)
Lemma decode_state_token userId timestamp nonce :
  JSON.parse (Base64.decode (Base64.encode (JSON.stringify_state userId timestamp nonce))) =
  Some (JObj [("userId", JStr userId); ("timestamp", JNum timestamp 0);
              ("nonce", JStr nonce)]).
Proof. by rewrite base64_roundtrip, parse_stringify_state. Qed.

(** ** State tokens *)

Section StateToken.

Context (E : Env).

Lemma generateSecureState_run userId w :
  generateSecureState E userId w =
    (Ok (Base64.encode
           (JSON.stringify_state userId (clock E (S (step w)))
              (hex_of_bytes (map (randomByte E (step w)) (seq 0 16))))),
     set_step (S (S (step w))) w).
Proof. reflexivity. Qed.

(** What [validateState] answers once the state has been decoded to an
    object. *)
Lemma validateState_object state expected fields w :
  JSON.parse (Base64.decode state) = Some (JObj fields) ->
  (validateState E state expected w).1 =
    let userId := lookup_field "userId" fields in
    let timestamp := lookup_field "timestamp" fields in
    let nonce := lookup_field "nonce" fields in
    if negb (truthy userId) || negb (truthy timestamp) || negb (truthy nonce)
    then Ok {| valid := false; reason := Some "Missing required state fields" |}
    else if negb (strict_eq userId expected)
    then Ok {| valid := false; reason := Some "User ID mismatch" |}
    else if stateAge_exceeds E (clock E (step w)) timestamp
    then Ok {| valid := false; reason := Some "State parameter expired" |}
    else Ok {| valid := true; reason := None |}.
Proof.
  intros Hparse. unfold validateState, Date_now. rewrite Hparse.
  unfold_M. cbn [get_property]. cbn zeta.
  destruct (negb _ || negb _ || negb _); [reflexivity|].
  destruct (negb (strict_eq _ _)); [reflexivity|].
  cbn [step]. by destruct (stateAge_exceeds _ _ _).
Qed.



End StateToken.




(** * Further properties of the back end *)

(** ** Vendor errors and configuration *)

(** X1.  [handleDexcomError] keeps the status of the response; it calls
    an error retryable exactly for the statuses 429, 500, 502, 503 and
    504; for a status outside its table of ten it answers with the
    message "HTTP <status> - Unknown error" and the user message "An
    unexpected error occurred"; the user message is never empty. *)
Theorem handleDexcomError_retryable (response : HttpResponse) :
  let e := handleDexcomError response in
  err_status e = status response /\
  (err_isRetryable e = true <-> status response ∈ [429; 500; 502; 503; 504]) /\
  (status response ∉ [400; 401; 403; 404; 409; 429; 500; 502; 503; 504] ->
   err_message e = "HTTP " +:+ Number_toString (status response) +:+ " - Unknown error" /\
   err_userMessage e = "An unexpected error occurred") /\
  err_userMessage e <> "".
Proof.
  unfold handleDexcomError, DEXCOM_ERROR_CODES.
  set (s := status response). clearbody s.
  rewrite !elem_of_cons, !elem_of_nil.
  repeat match goal with
         | |- context [?a =? ?b] => destruct (Z.eqb_spec a b) as [->|?]
         end; cbn [default]; cbv zeta; cbn [err_status err_message err_userMessage err_isRetryable];
    (split; [reflexivity|]); (split; [|split]); try discriminate;
    try (split; [discriminate | intros H; exfalso; lia]);
    try (split; [intros _; lia | reflexivity]);
    try (intros H; exfalso; lia).
  intros _. split; reflexivity.
Qed.

Lemma handleDexcomError_retryable_witness :
  let e := handleDexcomError {| status := 418; text := ""; json := None |} in
  err_message e = "HTTP 418 - Unknown error" /\
  err_userMessage e = "An unexpected error occurred".
Proof.
  intros e.
  apply (proj1 (proj2 (proj2 (handleDexcomError_retryable
                                {| status := 418; text := ""; json := None |})))).
  intros H. repeat (apply elem_of_cons in H as [H|H]; [discriminate|]).
  by apply elem_of_nil in H.
Defined.

(** X2.  [getDexcomConfig] takes the environment variables only when
    the client id, the client secret and the redirect URI are all three
    set and not empty there; otherwise every field, the sandbox flag and
    the front-end URL included, comes from the legacy Functions
    configuration.  In both cases the sandbox is selected exactly when
    the use-sandbox setting read is the string "false" (so the value
    "true" selects production), and the front-end URL is never empty. *)
Theorem getDexcomConfig_precedence (E : Env) :
  let config := getDexcomConfig E in
  let complete :=
    truthy_str (processEnv E "DEXCOM_CLIENT_ID") &&
    truthy_str (processEnv E "DEXCOM_CLIENT_SECRET") &&
    truthy_str (processEnv E "DEXCOM_REDIRECT_URI") in
  (complete = true ->
   clientId config = processEnv E "DEXCOM_CLIENT_ID" /\
   clientSecret config = processEnv E "DEXCOM_CLIENT_SECRET" /\
   redirectUri config = processEnv E "DEXCOM_REDIRECT_URI" /\
   (useSandbox config = true <-> processEnv E "DEXCOM_USE_SANDBOX" = Some "false") /\
   (processEnv E "DEXCOM_USE_SANDBOX" = Some "true" ->
    getDexcomBaseUrl E (useSandbox config) = PRODUCTION_BASE_URL (apiConfig E))) /\
  (complete = false ->
   clientId config = functionsConfig E "dexcom.client_id" /\
   clientSecret config = functionsConfig E "dexcom.client_secret" /\
   redirectUri config = functionsConfig E "dexcom.redirect_uri" /\
   (useSandbox config = true <-> functionsConfig E "dexcom.use_sandbox" = Some "false") /\
   frontendUrl config =
     or_default (functionsConfig E "dexcom.frontend_url")
                "https://glucose-dashboard-409e6.web.app") /\
  frontendUrl config <> "".
Proof.
  intros config complete. subst config. unfold getDexcomConfig. fold complete.
  assert (Hurl : forall s d, d <> "" -> or_default s d <> "").
  { intros [s|] d Hd; unfold or_default; cbn; [|done].
    destruct (String.eqb_spec s ""); cbn; done. }
  destruct complete; cbn [clientId clientSecret redirectUri useSandbox frontendUrl].
  - split; [intros _|split; [discriminate|by apply Hurl]].
    repeat split; try (by intros ?%bool_decide_eq_true); try (by apply bool_decide_eq_true).
    intros Hs. rewrite Hs. reflexivity.
  - split; [discriminate|split; [intros _|by apply Hurl]].
    repeat split; try (by intros ?%bool_decide_eq_true); by apply bool_decide_eq_true.
Qed.

Lemma getDexcomConfig_precedence_witness :
  let E := Demo.env DEXCOM_API_CONFIG Demo.noon Demo.offline Demo.healthy in
  clientId (getDexcomConfig E) = Some "client" /\
  clientSecret (getDexcomConfig E) = Some "secret" /\
  redirectUri (getDexcomConfig E) = Some "https://example.test/callback".
Proof.
  intros E.
  destruct (proj1 (getDexcomConfig_precedence E) eq_refl) as (H1 & H2 & H3 & _).
  rewrite H1, H2, H3. repeat split.
Defined.

(** ** The sandbox data range *)

Section DataRange.

Context (E : Env).


End DataRange.


(** ** The credential store *)

Section TokenStore.

Context (E : Env).

Lemma firestore_op_run {A} (f : nat -> World -> A * World) w :
  firestore_op E f w =
    if dbFails E (step w)
    then (Threw (JsError "Firestore operation failed"), set_step (S (step w)) w)
    else (Ok (f (step w) (set_step (S (step w)) w)).1,
          (f (step w) (set_step (S (step w)) w)).2).
Proof.
  unfold firestore_op. unfold_M. cbn [step].
  destruct (dbFails E (step w)); [reflexivity|].
  by destruct (f (step w) (set_step (S (step w)) w)).
Qed.

Lemma doc_id_string u : doc_id (Some (JStr u)) = if String.eqb u "" then
    Threw (JsError "Path must be a non-empty string") else Ok u.
Proof. reflexivity. Qed.

Lemma getUserTokens_run userId w :
  getUserTokens E userId w =
    if String.eqb userId ""
    then (Ok None, set_console (console w ++ [(LError, "Error getting user tokens:")]) w)
    else if dbFails E (step w)
    then (Ok None,
          set_console (console w ++ [(LError, "Error getting user tokens:")])
            (set_step (S (step w)) w))
    else (Ok (dexcomTokens w !! userId), set_step (S (step w)) w).
Proof.
  unfold getUserTokens, try_catch, mbind at 1, M_bind at 1, liftR.
  rewrite doc_id_string. destruct (String.eqb userId ""); [reflexivity|].
  rewrite firestore_op_run. by destruct (dbFails E (step w)).
Qed.

Lemma getUserTokens_total userId w : exists r, (getUserTokens E userId w).1 = Ok r.
Proof.
  rewrite getUserTokens_run.
  destruct (String.eqb userId ""); [by eexists|].
  destruct (dbFails E (step w)); by eexists.
Qed.

(** What a save that goes through has written. *)
Lemma saveUserTokens_ok u tokens w w' :
  saveUserTokens E (Some (JStr u)) tokens w = (Ok tt, w') ->
  u <> "" /\
  exists created refreshed,
    (tf_refreshTokenCreatedAt tokens <> 0 -> created = tf_refreshTokenCreatedAt tokens) /\
    (tf_refreshTokenCreatedAt tokens = 0 -> created = clock E (step w)) /\
    dexcomTokens w' =
      <[u := {| tk_userId := u;
                accessToken := tf_accessToken tokens;
                refreshToken := tf_refreshToken tokens;
                expiresAt := tf_expiresAt tokens;
                refreshTokenCreatedAt := created;
                lastRefresh := Some refreshed |}]> (dexcomTokens w) /\
    glucoseReadings w' = glucoseReadings w /\
    rateLimits w' = rateLimits w /\
    healthMetrics w' = healthMetrics w /\
    network w' = network w /\
    console w' = console w.
Proof.
  unfold saveUserTokens, try_catch.
  destruct (Z.eqb_spec (tf_refreshTokenCreatedAt tokens) 0) as [Hz|Hz].
  - rewrite (bind_ok _ _ _ _ _ (Date_now_run E w)).
    rewrite (bind_ok _ _ _ _ _ (Date_now_run E _)).
    unfold mbind at 1, M_bind at 1, liftR. rewrite doc_id_string.
    destruct (String.eqb_spec u ""); [intros [=]|].
    rewrite firestore_op_run. cbn [step set_step].
    destruct (dbFails E _); [intros [=]|]. cbn [fst snd]. intros [= <-].
    split; [done|]. exists (clock E (step w)), (clock E (S (step w))).
    repeat split; done.
  - unfold mbind at 1, M_bind at 1, mret at 1, M_ret at 1.
    rewrite (bind_ok _ _ _ _ _ (Date_now_run E _)).
    unfold mbind at 1, M_bind at 1, liftR. rewrite doc_id_string.
    destruct (String.eqb_spec u ""); [intros [=]|].
    rewrite firestore_op_run. cbn [step set_step].
    destruct (dbFails E _); [intros [=]|]. cbn [fst snd]. intros [= <-].
    split; [done|]. exists (tf_refreshTokenCreatedAt tokens), (clock E (step w)).
    repeat split; done.
Qed.

Lemma deleteUserTokens_run userId w :
  deleteUserTokens E userId w =
    if String.eqb userId ""
    then (Threw (JsError "Path must be a non-empty string"),
          set_console (console w ++ [(LError, "Error deleting user tokens:")]) w)
    else if dbFails E (step w)
    then (Threw (JsError "Firestore operation failed"),
          set_console (console w ++ [(LError, "Error deleting user tokens:")])
            (set_step (S (step w)) w))
    else (Ok tt, set_dexcomTokens (delete userId (dexcomTokens w)) (set_step (S (step w)) w)).
Proof.
  unfold deleteUserTokens, try_catch, mbind at 1, M_bind at 1, liftR.
  rewrite doc_id_string. destruct (String.eqb userId ""); [reflexivity|].
  rewrite firestore_op_run. by destruct (dbFails E (step w)).
Qed.

End TokenStore.

(** X4.  A credential record saved with [saveUserTokens] is read back by
    [getUserTokens] under the same user id, once the read goes through:
    it carries that id, the access token, the refresh token and the
    expiry given, and the creation time of the refresh token given, or
    the clock reading of the save when that was 0 or missing.  The save
    replaces the whole record of that user and touches no other user's
    record. *)
Theorem saved_tokens_read_back (E : Env) (u : string) (tokens : TokenFields)
    (w w1 : World) :
  saveUserTokens E (Some (JStr u)) tokens w = (Ok tt, w1) ->
  (forall w2,
      dexcomTokens w2 = dexcomTokens w1 ->
      dbFails E (step w2) = false ->
      exists d,
        (getUserTokens E u w2).1 = Ok (Some d) /\
        tk_userId d = u /\
        accessToken d = tf_accessToken tokens /\
        refreshToken d = tf_refreshToken tokens /\
        expiresAt d = tf_expiresAt tokens /\
        (tf_refreshTokenCreatedAt tokens <> 0 ->
         refreshTokenCreatedAt d = tf_refreshTokenCreatedAt tokens) /\
        (tf_refreshTokenCreatedAt tokens = 0 ->
         refreshTokenCreatedAt d = clock E (step w)) /\
        lastRefresh d <> None) /\
  (forall v, v <> u -> dexcomTokens w1 !! v = dexcomTokens w !! v).
Proof.
  intros Hsave.
  destruct (saveUserTokens_ok E u tokens w w1 Hsave)
    as (Hu & created & refreshed & Hc1 & Hc0 & Hstore & _).
  split.
  - intros w2 Hsame Hdb. eexists. rewrite getUserTokens_run.
    apply String.eqb_neq in Hu. rewrite Hu, Hdb, Hsame, Hstore, lookup_insert_eq.
    cbn. repeat split; done.
  - intros v Hv. rewrite Hstore. by apply lookup_insert_ne.
Qed.

Lemma saved_tokens_read_back_witness :
  let E := Demo.env DEXCOM_API_CONFIG Demo.noon Demo.offline Demo.healthy in
  let tokens := {| tf_accessToken := "access-9"; tf_refreshToken := "refresh-9";
                   tf_expiresAt := 1704200400000; tf_refreshTokenCreatedAt := 0 |} in
  let w1 := (saveUserTokens E (Some (JStr "u1")) tokens Demo.w0).2 in
  exists d,
    (getUserTokens E "u1" w1).1 = Ok (Some d) /\
    accessToken d = "access-9" /\
    refreshTokenCreatedAt d = 1704196800000.
Proof.
  intros E tokens w1.
  destruct (proj1 (saved_tokens_read_back E "u1" tokens Demo.w0 w1
                     (outcome_eta _ _ eq_refl)) w1 eq_refl eq_refl)
    as (d & Hget & _ & Ha & _ & _ & _ & Hc & _).
  exists d. split; [exact Hget|]. split; [exact Ha|]. exact (Hc eq_refl).
Defined.

(** ** Connection status and disconnection *)

Section Connection.

Context (E : Env).

Lemma getUserTokens_missing u w :
  u = "" \/ dbFails E (step w) = true \/ dexcomTokens w !! u = None ->
  exists w', getUserTokens E u w = (Ok None, w') /\
             dexcomTokens w' = dexcomTokens w /\ network w' = network w /\
             glucoseReadings w' = glucoseReadings w.
Proof.
  intros H. rewrite getUserTokens_run.
  destruct (String.eqb_spec u ""); [by eexists|].
  destruct (dbFails E (step w)); [by eexists|].
  destruct H as [?|[?| ->]]; [done|done|by eexists].
Qed.

Lemma getUserTokens_found u w d :
  u <> "" -> dbFails E (step w) = false -> dexcomTokens w !! u = Some d ->
  getUserTokens E u w = (Ok (Some d), set_step (S (step w)) w).
Proof.
  intros Hu Hdb Hd. rewrite getUserTokens_run.
  apply String.eqb_neq in Hu. by rewrite Hu, Hdb, Hd.
Qed.

Lemma dexcomConnectionStatus_missing u w w' :
  getUserTokens E u w = (Ok None, w') ->
  dexcomConnectionStatus E (Some u) w = (Ok notConnected, w').
Proof.
  intros H. unfold dexcomConnectionStatus, try_catch.
  by rewrite (bind_ok _ _ _ _ _ H).
Qed.

Lemma dexcomConnectionStatus_found u w d w' :
  getUserTokens E u w = (Ok (Some d), w') ->
  dexcomConnectionStatus E (Some u) w =
    (let now := clock E (step w') in
     Ok {| connected := true;
           tokenExpired := Some (now >=? expiresAt d);
           tokenExpiringSoon :=
             Some (now + TOKEN_EXPIRY_BUFFER_MS (apiConfig E) >=? expiresAt d);
           refreshTokenExpiringSoon :=
             Some (now - refreshTokenCreatedAt d >?
                   REFRESH_TOKEN_EXPIRY_MS (apiConfig E) - 7 * 24 * 60 * 60 * 1000);
           cs_expiresAt := Some (expiresAt d);
           cs_refreshTokenCreatedAt := Some (refreshTokenCreatedAt d);
           cs_error := None |},
     set_step (S (step w')) w').
Proof.
  intros H. unfold dexcomConnectionStatus, try_catch.
  rewrite (bind_ok _ _ _ _ _ H).
  by rewrite (bind_ok _ _ _ _ _ (Date_now_run E w')).
Qed.

End Connection.

(** X5.  A failing read of the credential record is not told apart from
    a missing record: [getUserTokens] logs and returns [null], so
    [dexcomConnectionStatus] answers [connected: false] without an
    error, and [dexcomFetchGlucoseData], [dexcomRefreshToken] and
    [dexcomTestRawData] throw [not-found] as for a user who never
    connected, and send no request. *)
Theorem credential_read_failure_looks_disconnected (E : Env) (u : string) (w : World) :
  dbFails E (step w) = true ->
  (getUserTokens E u w).1 = Ok None /\
  (dexcomConnectionStatus E (Some u) w).1 = Ok notConnected /\
  (forall startDate endDate,
      let out := dexcomFetchGlucoseData E (Some u) startDate endDate w in
      out.1 = Threw (HttpsError not_found
                       "No Dexcom tokens found. Please connect to Dexcom first.") /\
      network out.2 = network w) /\
  (let out := dexcomRefreshToken E (Some u) w in
   out.1 = Threw (HttpsError not_found
                    "No refresh token found. Please reconnect to Dexcom.") /\
   network out.2 = network w) /\
  (forall startDate endDate,
      let out := dexcomTestRawData E (Some u) startDate endDate w in
      out.1 = Threw (HttpsError not_found
                       "No Dexcom tokens found. Please connect to Dexcom first.") /\
      network out.2 = network w).
Proof.
  intros Hdb.
  destruct (getUserTokens_missing E u w (or_intror (or_introl Hdb)))
    as (w' & Hget & _ & Hnet & _).
  split; [by rewrite Hget|].
  split; [by rewrite (dexcomConnectionStatus_missing E u w w' Hget)|].
  split; [|split].
  - intros startDate endDate. unfold dexcomFetchGlucoseData.
    by rewrite (bind_ok _ _ _ _ _ Hget).
  - unfold dexcomRefreshToken. by rewrite (bind_ok _ _ _ _ _ Hget).
  - intros startDate endDate. unfold dexcomTestRawData.
    by rewrite (bind_ok _ _ _ _ _ Hget).
Qed.

Lemma credential_read_failure_looks_disconnected_witness :
  let E := Demo.env DEXCOM_API_CONFIG Demo.noon Demo.granting Demo.failing in
  let w := Demo.connected 1704240000000 in
  dexcomTokens w !! "u1" = Some (Demo.userTokens 1704240000000) /\
  (dexcomConnectionStatus E (Some "u1") w).1 = Ok notConnected /\
  (dexcomFetchGlucoseData E (Some "u1") None None w).1 =
    Threw (HttpsError not_found "No Dexcom tokens found. Please connect to Dexcom first.").
Proof.
  intros E w. split; [reflexivity|].
  destruct (credential_read_failure_looks_disconnected E "u1" w eq_refl)
    as (_ & Hstatus & Hfetch & _).
  split; [exact Hstatus|]. exact (proj1 (Hfetch None None)).
Defined.

(** X6.  For an authenticated caller [dexcomConnectionStatus] never
    throws and never answers with the error "Database connection
    failed": whatever goes wrong while reading is absorbed by
    [getUserTokens].  It answers [connected: true] exactly when the
    caller's record is there and the read goes through, sends no
    request and writes nothing. *)
Theorem connection_status_never_fails (E : Env) (u : string) (w : World) :
  let out := dexcomConnectionStatus E (Some u) w in
  exists s,
    out.1 = Ok s /\
    cs_error s = None /\
    (connected s = true <->
     u <> "" /\ dbFails E (step w) = false /\ is_Some (dexcomTokens w !! u)) /\
    (connected s = false -> s = notConnected) /\
    dexcomTokens out.2 = dexcomTokens w /\
    glucoseReadings out.2 = glucoseReadings w /\
    rateLimits out.2 = rateLimits w /\
    healthMetrics out.2 = healthMetrics w /\
    network out.2 = network w.
Proof.
  intros out. subst out.
  destruct (String.eqb_spec u "") as [Hu|Hu];
    [|destruct (dbFails E (step w)) eqn:Hdb;
      [|destruct (dexcomTokens w !! u) as [d|] eqn:Hd]].
  - pose proof (getUserTokens_run E u w) as Hget.
    apply String.eqb_eq in Hu. rewrite Hu in Hget.
    rewrite (dexcomConnectionStatus_missing E u w _ Hget).
    exists notConnected. repeat split; try done.
    intros (Hne & _). by apply String.eqb_eq in Hu.
  - pose proof (getUserTokens_run E u w) as Hget.
    apply String.eqb_neq in Hu. rewrite Hu, Hdb in Hget.
    rewrite (dexcomConnectionStatus_missing E u w _ Hget).
    exists notConnected. repeat split; try done. by intros (_ & ? & _).
  - rewrite (dexcomConnectionStatus_found E u w d _ (getUserTokens_found E u w d Hu Hdb Hd)).
    eexists. split; [reflexivity|]. repeat split; done.
  - pose proof (getUserTokens_run E u w) as Hget.
    apply String.eqb_neq in Hu. rewrite Hu, Hdb, Hd in Hget.
    rewrite (dexcomConnectionStatus_missing E u w _ Hget).
    exists notConnected. repeat split; try done. by intros (_ & _ & [? ?]).
Qed.

(** X7.  For a caller whose record is read, with [now] the clock reading
    taken after the read: [tokenExpired] says whether [now] has reached
    the expiry, [tokenExpiringSoon] whether [now] plus the buffer has,
    which is the test the fetch paths refresh on, so an expired token is
    always also expiring soon; [refreshTokenExpiringSoon] says whether
    the refresh token is older than its lifetime less seven days (358
    days in the deployed configuration); the two instants stored are
    echoed. *)
Theorem connection_status_flags (E : Env) (u : string) (w : World) (d : DexcomTokens) :
  u <> "" ->
  dbFails E (step w) = false ->
  dexcomTokens w !! u = Some d ->
  0 <= TOKEN_EXPIRY_BUFFER_MS (apiConfig E) ->
  let now := clock E (S (step w)) in
  exists s,
    (dexcomConnectionStatus E (Some u) w).1 = Ok s /\
    connected s = true /\
    tokenExpired s = Some (bool_decide (expiresAt d <= now)) /\
    tokenExpiringSoon s =
      Some (bool_decide (expiresAt d <= now + TOKEN_EXPIRY_BUFFER_MS (apiConfig E))) /\
    tokenExpiringSoon s = Some (tokenNeedsRefresh E now d) /\
    (tokenExpired s = Some true -> tokenExpiringSoon s = Some true) /\
    refreshTokenExpiringSoon s =
      Some (bool_decide (now - refreshTokenCreatedAt d >
                         REFRESH_TOKEN_EXPIRY_MS (apiConfig E) - 7 * 24 * 60 * 60 * 1000)) /\
    (REFRESH_TOKEN_EXPIRY_MS (apiConfig E) = REFRESH_TOKEN_EXPIRY_MS DEXCOM_API_CONFIG ->
     (refreshTokenExpiringSoon s = Some true <->
      now - refreshTokenCreatedAt d > 358 * 24 * 60 * 60 * 1000)) /\
    cs_expiresAt s = Some (expiresAt d) /\
    cs_refreshTokenCreatedAt s = Some (refreshTokenCreatedAt d).
Proof.
  intros Hu Hdb Hd Hbuf now.
  rewrite (dexcomConnectionStatus_found E u w d _ (getUserTokens_found E u w d Hu Hdb Hd)).
  cbn [step set_step]. fold now. eexists. split; [reflexivity|].
  cbn [connected tokenExpired tokenExpiringSoon refreshTokenExpiringSoon
       cs_expiresAt cs_refreshTokenCreatedAt].
  unfold tokenNeedsRefresh.
  split; [done|].
  split; [f_equal; case_compare; by (rewrite bool_decide_eq_true_2 by lia)
                                  || (rewrite bool_decide_eq_false_2 by lia)|].
  split; [f_equal; case_compare; by (rewrite bool_decide_eq_true_2 by lia)
                                  || (rewrite bool_decide_eq_false_2 by lia)|].
  split; [f_equal; case_compare; try reflexivity; lia|].
  split; [intros [= H]; f_equal; revert H; case_compare; intros; try done; lia|].
  split; [f_equal; case_compare; by (rewrite bool_decide_eq_true_2 by lia)
                                  || (rewrite bool_decide_eq_false_2 by lia)|].
  split; [|done].
  intros ->. cbn [REFRESH_TOKEN_EXPIRY_MS DEXCOM_API_CONFIG].
  split; [intros [= H]; revert H; case_compare; intros; try done; lia|].
  intros H. f_equal. case_compare; [done|lia].
Qed.

Lemma connection_status_flags_witness :
  let E := Demo.env DEXCOM_API_CONFIG Demo.noon Demo.offline Demo.healthy in
  exists s,
    (dexcomConnectionStatus E (Some "u1") (Demo.connected 1704197100000)).1 = Ok s /\
    tokenExpired s = Some false /\
    tokenExpiringSoon s = Some true /\
    refreshTokenExpiringSoon s = Some false.
Proof.
  intros E.
  destruct (connection_status_flags E "u1" (Demo.connected 1704197100000)
              (Demo.userTokens 1704197100000) ltac:(discriminate) eq_refl eq_refl
              ltac:(discriminate))
    as (s & Hrun & _ & Hexp & Hsoon & _ & _ & Hrefresh & _).
  exists s. split; [exact Hrun|].
  rewrite Hexp, Hsoon, Hrefresh. repeat split.
Defined.

Lemma dexcomDisconnect_run (E : Env) (u : string) (w : World) :
  dexcomDisconnect E (Some u) w =
    if String.eqb u ""
    then (Threw (HttpsError internal "Failed to disconnect from Dexcom"),
          set_console
            ((console w ++ [(LError, "Error deleting user tokens:")]) ++
             [(LError, "Error disconnecting from Dexcom:")]) w)
    else if dbFails E (step w)
    then (Threw (HttpsError internal "Failed to disconnect from Dexcom"),
          set_console
            ((console w ++ [(LError, "Error deleting user tokens:")]) ++
             [(LError, "Error disconnecting from Dexcom:")])
            (set_step (S (step w)) w))
    else (Ok {| success := true |},
          set_dexcomTokens (delete u (dexcomTokens w)) (set_step (S (step w)) w)).
Proof.
  unfold dexcomDisconnect, try_catch. unfold mbind at 1, M_bind at 1.
  rewrite deleteUserTokens_run.
  destruct (String.eqb u ""); [reflexivity|].
  destruct (dbFails E (step w)); reflexivity.
Qed.

(** X8.  [dexcomDisconnect] deletes the caller's credential record and
    nothing else: the other users' records, every stored glucose
    reading, the rate ledger and the health metrics stay as they were,
    and no request is sent.  It succeeds exactly when the delete goes
    through, also when there was no record to delete; when the delete
    fails it throws [internal] "Failed to disconnect from Dexcom" and
    the record is still there. *)
Theorem disconnect_removes_only_credentials (E : Env) (u : string) (w : World) :
  let out := dexcomDisconnect E (Some u) w in
  (out.1 = Ok {| success := true |} /\ dexcomTokens out.2 = delete u (dexcomTokens w) \/
   out.1 = Threw (HttpsError internal "Failed to disconnect from Dexcom") /\
   dexcomTokens out.2 = dexcomTokens w) /\
  (out.1 = Ok {| success := true |} <-> u <> "" /\ dbFails E (step w) = false) /\
  (dexcomTokens w !! u = None -> dexcomTokens out.2 = dexcomTokens w) /\
  (forall v, v <> u -> dexcomTokens out.2 !! v = dexcomTokens w !! v) /\
  glucoseReadings out.2 = glucoseReadings w /\
  rateLimits out.2 = rateLimits w /\
  healthMetrics out.2 = healthMetrics w /\
  network out.2 = network w.
Proof.
  intros out. subst out. rewrite dexcomDisconnect_run.
  destruct (String.eqb_spec u "") as [Hu|Hu]; [|destruct (dbFails E (step w))].
  - cbn. split; [by right|]. split; [|done]. split; [done|]. by intros [? _].
  - cbn. split; [by right|]. split; [|done]. split; [done|]. by intros [_ ?].
  - cbn. split; [by left|]. split; [done|].
    split; [intros Hnone; by apply delete_id|].
    split; [|done]. intros v Hv. by apply lookup_delete_ne.
Qed.

(** X9.  Once [dexcomDisconnect] has succeeded, and until a record is
    stored for the user again, the user is treated as never connected:
    [dexcomConnectionStatus] answers [connected: false],
    [dexcomFetchGlucoseData], [dexcomRefreshToken] and
    [dexcomTestRawData] throw [not-found], and the records the scheduled
    sweep goes through no longer include the user's. *)
Theorem disconnected_user_is_refused (E : Env) (u : string) (w w1 : World)
    (r : SuccessResponse) :
  dexcomDisconnect E (Some u) w = (Ok r, w1) ->
  forall w2,
  dexcomTokens w2 = dexcomTokens w1 ->
  (dexcomConnectionStatus E (Some u) w2).1 = Ok notConnected /\
  (forall startDate endDate,
      (dexcomFetchGlucoseData E (Some u) startDate endDate w2).1 =
        Threw (HttpsError not_found
                 "No Dexcom tokens found. Please connect to Dexcom first.")) /\
  (dexcomRefreshToken E (Some u) w2).1 =
    Threw (HttpsError not_found "No refresh token found. Please reconnect to Dexcom.") /\
  (forall startDate endDate,
      (dexcomTestRawData E (Some u) startDate endDate w2).1 =
        Threw (HttpsError not_found
                 "No Dexcom tokens found. Please connect to Dexcom first.")) /\
  (forall d, (u, d) ∉ map_to_list (dexcomTokens w2)).
Proof.
  intros Hrun w2 Hsame.
  assert (Hdel : dexcomTokens w1 = delete u (dexcomTokens w)).
  { rewrite dexcomDisconnect_run in Hrun.
    destruct (String.eqb u ""); [done|].
    destruct (dbFails E (step w)); [done|]. by injection Hrun as _ <-. }
  assert (Hnone : dexcomTokens w2 !! u = None).
  { rewrite Hsame, Hdel. apply lookup_delete_eq. }
  destruct (getUserTokens_missing E u w2 (or_intror (or_intror Hnone)))
    as (w' & Hget & _).
  split; [by rewrite (dexcomConnectionStatus_missing E u w2 w' Hget)|].
  split; [intros; unfold dexcomFetchGlucoseData; by rewrite (bind_ok _ _ _ _ _ Hget)|].
  split; [unfold dexcomRefreshToken; by rewrite (bind_ok _ _ _ _ _ Hget)|].
  split; [intros; unfold dexcomTestRawData; by rewrite (bind_ok _ _ _ _ _ Hget)|].
  intros d Hin%elem_of_map_to_list. congruence.
Qed.

Lemma disconnected_user_is_refused_witness :
  let E := Demo.env DEXCOM_API_CONFIG Demo.noon Demo.offline Demo.healthy in
  let w1 := (dexcomDisconnect E (Some "u1") (Demo.connected 1704240000000)).2 in
  (dexcomConnectionStatus E (Some "u1") (Demo.connected 1704240000000)).1 <> Ok notConnected /\
  (dexcomConnectionStatus E (Some "u1") w1).1 = Ok notConnected.
Proof.
  intros E w1. split; [vm_compute; discriminate|].
  exact (proj1 (disconnected_user_is_refused E "u1" (Demo.connected 1704240000000) w1
                  {| success := true |} (outcome_eta _ _ eq_refl) w1 eq_refl)).
Defined.

(** ** Token refresh *)

Section RefreshOutcome.

Context (E : Env).

(** What a refresh that goes through has received and stored. *)
Lemma refreshAccessToken_ok u rt w d w' :
  refreshAccessToken E u rt w = (Ok d, w') ->
  exists resp a r x,
    httpFetch E (step w) (refreshGrantRequest E rt) = Responded resp /\
    response_ok resp = true /\
    json resp = Some (TokenBody a r x) /\
    d = {| tk_userId := u; accessToken := a; refreshToken := r;
           expiresAt := clock E (S (step w)) + x * 1000;
           refreshTokenCreatedAt := clock E (S (S (step w)));
           lastRefresh := Some (clock E (S (S (S (step w))))) |} /\
    u <> "" /\
    exists stored,
      dexcomTokens w' = <[u := stored]> (dexcomTokens w) /\
      tk_userId stored = u /\
      accessToken stored = a /\
      refreshToken stored = r /\
      expiresAt stored = clock E (S (step w)) + x * 1000 /\
      glucoseReadings w' = glucoseReadings w.
Proof.
  unfold refreshAccessToken. intros H.
  apply bind_inv in H as [(e & _ & [=])|(resp & w1 & Hf & Hk)].
  rewrite fetch_run in Hf.
  destruct (httpFetch E (step w) (refreshGrantRequest E rt)) as [|resp'] eqn:Hv;
    [discriminate|].
  injection Hf as -> <-.
  destruct (response_ok resp) eqn:Hok; cbn [negb] in Hk.
  2: { apply bind_inv in Hk as [(e & _ & [=])|(? & ? & _ & [=])]. }
  unfold response_json in Hk.
  destruct (json resp) as [[a r x| | |]|] eqn:Hjson;
    try (unfold mbind, M_bind, mret, M_ret, tokenFields_of, throw in Hk;
         by simplify_eq).
  apply bind_inv in Hk as [(e & _ & [=])|(? & ? & [= <- <-] & Hk)].
  apply bind_inv in Hk as [(e & _ & [=])|(? & ? & [= <- <-] & Hk)].
  rewrite (bind_ok _ _ _ _ _ (Date_now_run E _)) in Hk.
  rewrite (bind_ok _ _ _ _ _ (Date_now_run E _)) in Hk.
  rewrite (bind_ok _ _ _ _ _ (Date_now_run E _)) in Hk.
  cbn [step set_step set_network] in Hk.
  apply bind_inv in Hk as [(e & _ & [=])|([] & w2 & Hsave & [= <- <-])].
  apply saveUserTokens_ok in Hsave
    as (Hu & created & refreshed & _ & _ & Hstore & Hreadings & _).
  exists resp, a, r, x. repeat split; try done.
  eexists. split; [exact Hstore|]. repeat split; done.
Qed.

(** A refresh that fails leaves the credential records as they were;
    when the vendor answered with an error status, it fails with the
    user message of that status. *)
Lemma refreshAccessToken_threw u rt w e w' :
  refreshAccessToken E u rt w = (Threw e, w') ->
  dexcomTokens w' = dexcomTokens w /\
  forall resp,
    httpFetch E (step w) (refreshGrantRequest E rt) = Responded resp ->
    response_ok resp = false ->
    e = HttpsError internal (err_userMessage (handleDexcomError resp)).
Proof.
  unfold refreshAccessToken. intros H.
  apply bind_inv in H as [(e' & Hf & [= ->])|(resp & w1 & Hf & Hk)];
    rewrite fetch_run in Hf.
  { injection Hf as Hr <-. split; [done|]. intros resp Hv. by rewrite Hv in Hr. }
  destruct (httpFetch E (step w) (refreshGrantRequest E rt)) as [|resp'] eqn:Hv;
    [discriminate|].
  injection Hf as -> <-.
  destruct (response_ok resp) eqn:Hok; cbn [negb] in Hk.
  2: { apply bind_inv in Hk as [(e' & [=] & _)|([] & w2 & [= <-] & [= <- <-])].
       split; [done|]. by intros ? [= <-] _. }
  assert (Hkeep : dexcomTokens w' = dexcomTokens w); [|split; [done|]; intros ? [= <-]; congruence].
  unfold response_json in Hk.
  destruct (json resp) as [[a r x| | |]|] eqn:Hjson;
    try (unfold mbind, M_bind, mret, M_ret, tokenFields_of, throw in Hk;
         by simplify_eq).
  apply bind_inv in Hk as [(e' & [=] & _)|(? & ? & [= <- <-] & Hk)].
  apply bind_inv in Hk as [(e' & [=] & _)|(? & ? & [= <- <-] & Hk)].
  rewrite (bind_ok _ _ _ _ _ (Date_now_run E _)) in Hk.
  rewrite (bind_ok _ _ _ _ _ (Date_now_run E _)) in Hk.
  rewrite (bind_ok _ _ _ _ _ (Date_now_run E _)) in Hk.
  apply bind_inv in Hk as [(e' & Hsave & _)|([] & w2 & _ & [=])].
  by apply saveUserTokens_threw in Hsave.
Qed.

Lemma dexcomRefreshToken_found u w d w1 :
  getUserTokens E u w = (Ok (Some d), w1) ->
  refreshToken d <> "" ->
  dexcomRefreshToken E (Some u) w =
    match refreshAccessToken E u (refreshToken d) w1 with
    | (Ok _, w') => (Ok {| success := true |}, w')
    | (Threw e, w') =>
        (Threw e, set_console (console w' ++ [(LError, "Error refreshing token:")]) w')
    end.
Proof.
  intros Hget Hrt. unfold dexcomRefreshToken.
  rewrite (bind_ok _ _ _ _ _ Hget).
  apply String.eqb_neq in Hrt. rewrite Hrt.
  unfold try_catch, mbind at 1, M_bind at 1.
  by destruct (refreshAccessToken E u (refreshToken d) w1) as [[?|?] ?].
Qed.

End RefreshOutcome.

(** X10.  [dexcomRefreshToken] throws [not-found] and sends nothing
    when the caller has no record or the record has an empty refresh
    token.  Otherwise it sends one request, the refresh grant carrying
    the stored refresh token.  When the vendor answers with an error
    status it throws [internal] with the user message of that status;
    whenever it throws, the credential records are what they were.  When
    it succeeds the vendor has answered with tokens, and the caller's
    record now holds the new access token, the new refresh token and an
    expiry of the clock reading plus [expires_in] seconds. *)
Theorem refresh_token_handler (E : Env) (u : string) (w : World) :
  let out := dexcomRefreshToken E (Some u) w in
  (forall w1,
      getUserTokens E u w = (Ok None, w1) ->
      out.1 = Threw (HttpsError not_found
                       "No refresh token found. Please reconnect to Dexcom.") /\
      network out.2 = network w) /\
  (forall d w1,
      getUserTokens E u w = (Ok (Some d), w1) ->
      (refreshToken d = "" ->
       out.1 = Threw (HttpsError not_found
                        "No refresh token found. Please reconnect to Dexcom.") /\
       network out.2 = network w) /\
      (refreshToken d <> "" ->
       let req := refreshGrantRequest E (refreshToken d) in
       network out.2 = network w ++ [req] /\
       (forall resp,
           httpFetch E (step w1) req = Responded resp ->
           response_ok resp = false ->
           out.1 = Threw (HttpsError internal (err_userMessage (handleDexcomError resp)))) /\
       (forall r,
           out.1 = Ok r ->
           r = {| success := true |} /\
           exists resp a rt x stored,
             httpFetch E (step w1) req = Responded resp /\
             response_ok resp = true /\
             json resp = Some (TokenBody a rt x) /\
             dexcomTokens out.2 !! u = Some stored /\
             tk_userId stored = u /\
             accessToken stored = a /\
             refreshToken stored = rt /\
             expiresAt stored = clock E (S (step w1)) + x * 1000))) /\
  (forall e, out.1 = Threw e -> dexcomTokens out.2 = dexcomTokens w).
Proof.
  intros out. subst out.
  assert (Hread : forall r w1, getUserTokens E u w = (Ok r, w1) ->
            dexcomTokens w1 = dexcomTokens w /\ network w1 = network w).
  { intros r w1. rewrite getUserTokens_run.
    destruct (String.eqb u ""); [by intros [= <- <-]|].
    destruct (dbFails E (step w)); by intros [= <- <-]. }
  split; [|split].
  - intros w1 Hget. destruct (Hread _ _ Hget) as [_ Hnet].
    unfold dexcomRefreshToken. by rewrite (bind_ok _ _ _ _ _ Hget).
  - intros d w1 Hget. destruct (Hread _ _ Hget) as [Htok Hnet]. split.
    + intros Hrt. unfold dexcomRefreshToken. rewrite (bind_ok _ _ _ _ _ Hget).
      apply String.eqb_eq in Hrt. by rewrite Hrt.
    + intros Hrt req. subst req. rewrite (dexcomRefreshToken_found E u w d w1 Hget Hrt).
      destruct (refreshAccessToken E u (refreshToken d) w1) as [[d'|e] w2] eqn:Hrun.
      * pose proof (refreshAccessToken_network E _ _ _ _ _ Hrun) as Hn.
        apply refreshAccessToken_ok in Hrun
          as (resp & a & rt & x & Hv & Hok & Hjson & _ & Hu & stored & Hst & ? & ? & ? & ? & _).
        cbn [fst snd]. split; [by rewrite Hn, Hnet|].
        split; [intros resp' Hv'; rewrite Hv in Hv'; injection Hv' as <-; congruence|].
        intros r [= <-]. split; [done|].
        exists resp, a, rt, x, stored. rewrite Hst, lookup_insert_eq. by repeat split.
      * pose proof (refreshAccessToken_network E _ _ _ _ _ Hrun) as Hn.
        apply refreshAccessToken_threw in Hrun as [_ Hstatus].
        cbn [fst snd network set_console]. split; [by rewrite Hn, Hnet|].
        split; [|done]. intros resp Hv Hok. by rewrite (Hstatus resp Hv Hok).
  - intros e.
    destruct (getUserTokens_total E u w) as [r Hr].
    pose proof (outcome_eta _ _ Hr) as Hget. destruct (Hread _ _ Hget) as [Htok _].
    destruct r as [d|];
      [destruct (String.eqb_spec (refreshToken d) "") as [Hrt|Hrt]|].
    + unfold dexcomRefreshToken. rewrite (bind_ok _ _ _ _ _ Hget).
      apply String.eqb_eq in Hrt. by rewrite Hrt.
    + rewrite (dexcomRefreshToken_found E u w d _ Hget Hrt).
      destruct (refreshAccessToken E u (refreshToken d) _) as [[d'|e'] w2] eqn:Hrun;
        [done|].
      apply refreshAccessToken_threw in Hrun as [Hkeep _].
      intros _. cbn. by rewrite Hkeep.
    + unfold dexcomRefreshToken. by rewrite (bind_ok _ _ _ _ _ Hget).
Qed.

Lemma refresh_token_handler_witness :
  let E := Demo.env DEXCOM_API_CONFIG Demo.noon Demo.granting Demo.healthy in
  let out := dexcomRefreshToken E (Some "u1") (Demo.connected 1704196800000) in
  out.1 = Ok {| success := true |} /\
  exists stored,
    dexcomTokens out.2 !! "u1" = Some stored /\
    accessToken stored = "access-2" /\
    refreshToken stored = "refresh-2" /\
    expiresAt stored = 1704204000000.
Proof.
  intros E out. split; [reflexivity|].
  set (w := Demo.connected 1704196800000).
  set (w1 := (getUserTokens E "u1" w).2).
  assert (Hget : getUserTokens E "u1" w = (Ok (Some (Demo.userTokens 1704196800000)), w1))
    by (apply outcome_eta; reflexivity).
  destruct (proj2 (proj2 (proj2 (proj1 (proj2 (refresh_token_handler E "u1" w)) _ _ Hget)
                             ltac:(discriminate)))
              {| success := true |} eq_refl)
    as (_ & resp & a & rt & x & stored & Hv & _ & Hjson & Hst & _ & Ha & Hrt & Hexp).
  exists stored. split; [exact Hst|].
  injection Hv as <-. injection Hjson as <- <- <-. repeat split; assumption.
Defined.

Section CurrentToken.

Context (E : Env).

Hint Resolve quiet_fetch quiet_storeGlucoseReadings quiet_fetchTryBlock
  quiet_fetchCatchBlock quiet_requestedWindow : preserves.

Lemma ensureFresh_run u tokens w :
  ensureFresh E u tokens w =
    if tokenNeedsRefresh E (clock E (step w)) tokens
    then refreshAccessToken E u (refreshToken tokens) (set_step (S (step w)) w)
    else (Ok tokens, set_step (S (step w)) w).
Proof.
  unfold ensureFresh. rewrite (bind_ok _ _ _ _ _ (Date_now_run E w)).
  by destruct (tokenNeedsRefresh E _ tokens).
Qed.

Lemma quiet_rawDataTryBlock tokens startTime startDate endDate :
  Preserves (quietFor (accessToken tokens))
    (rawDataTryBlock E tokens startTime startDate endDate).
Proof.
  unfold rawDataTryBlock. cbv zeta.
  apply preserves_bind; [exact _|apply quiet_requestedWindow|intros parsed].
  apply preserves_bind; [exact _|apply quiet_fetch|intros response].
  preserves.
Qed.

(** The steps of each data path that come after the refresh step. *)
Lemma quiet_after_refresh_fetch u current rl startDate endDate :
  Preserves (quietFor (accessToken current))
    (startTime ← Date_now E;
     try_catch (fetchTryBlock E u current rl startTime startDate endDate)
               (fetchCatchBlock E startTime)).
Proof. preserves. Qed.

Lemma quiet_after_refresh_raw current startDate endDate :
  Preserves (quietFor (accessToken current))
    (startTime ← Date_now E;
     try_catch
       (rawDataTryBlock E current startTime startDate endDate)
       (fun error =>
          Date_now E;;
          console_error "Error in test function:";;
          console_error "Response time:";;
          throw (HttpsError internal "Failed to fetch test data"))).
Proof.
  apply preserves_bind; [exact _|auto with preserves|intros startTime].
  apply preserves_try_catch; [exact _|apply quiet_rawDataTryBlock|intros e].
  preserves.
Qed.

End CurrentToken.

(** X11.  Each data path sends its requests with the access token in
    force after its refresh step.  When no refresh is due that is the
    stored token and the refresh step sends nothing; when one is due and
    goes through, it is the token the vendor has just issued.  From
    there on [dexcomFetchGlucoseData], the body of the sweep for a user
    and [dexcomTestRawData] only send GET requests bearing that token,
    and change no credential record: a token that was replaced is never
    sent again. *)
Theorem data_requests_bear_current_token (E : Env) (u : string)
    (tokens current : DexcomTokens) (w2 w3 : World) :
  ensureFresh E u tokens w2 = (Ok current, w3) ->
  (tokenNeedsRefresh E (clock E (step w2)) tokens = false ->
   current = tokens /\ network w3 = network w2) /\
  (tokenNeedsRefresh E (clock E (step w2)) tokens = true ->
   exists resp a r x,
     httpFetch E (S (step w2)) (refreshGrantRequest E (refreshToken tokens))
       = Responded resp /\
     json resp = Some (TokenBody a r x) /\
     accessToken current = a /\
     network w3 = network w2 ++ [refreshGrantRequest E (refreshToken tokens)]) /\
  (forall startDate endDate w w1 rl,
      getUserTokens E u w = (Ok (Some tokens), w1) ->
      checkRateLimit E w1 = (Ok rl, w2) ->
      allowed rl = true ->
      quietFor (accessToken current) w3
        (dexcomFetchGlucoseData E (Some u) startDate endDate w).2) /\
  (forall startDate endDate w,
      getUserTokens E u w = (Ok (Some tokens), w2) ->
      quietFor (accessToken current) w3
        (dexcomTestRawData E (Some u) startDate endDate w).2) /\
  (forall w rl,
      u = tk_userId tokens ->
      checkRateLimit E w = (Ok rl, w2) ->
      allowed rl = true ->
      quietFor (accessToken current) w3 (pullForUser E tokens w).2).
Proof.
  intros Hfresh. split; [|split; [|split; [|split]]].
  - intros Hn. rewrite ensureFresh_run, Hn in Hfresh. by injection Hfresh as <- <-.
  - intros Hn. rewrite ensureFresh_run, Hn in Hfresh.
    pose proof (refreshAccessToken_network E _ _ _ _ _ Hfresh) as Hnet.
    apply refreshAccessToken_ok in Hfresh
      as (resp & a & r & x & Hv & _ & Hjson & -> & _).
    exists resp, a, r, x. by repeat split.
  - intros startDate endDate w w1 rl Hget Hrl Hadm.
    unfold dexcomFetchGlucoseData.
    rewrite (bind_ok _ _ _ _ _ Hget). cbv beta iota.
    rewrite (bind_ok _ _ _ _ _ Hrl), Hadm. cbn [negb].
    rewrite (bind_ok _ _ _ _ _ Hfresh).
    eapply (quiet_after_refresh_fetch E u current rl startDate endDate).
    apply surjective_pairing.
  - intros startDate endDate w Hget.
    unfold dexcomTestRawData.
    rewrite (bind_ok _ _ _ _ _ Hget). cbv beta iota.
    rewrite (bind_ok _ _ _ _ _ Hfresh).
    eapply (quiet_after_refresh_raw E current startDate endDate).
    apply surjective_pairing.
  - intros w rl -> Hrl Hadm.
    unfold pullForUser, try_catch.
    rewrite (bind_ok _ _ _ _ _ Hrl), Hadm. cbn [negb].
    rewrite (bind_ok _ _ _ _ _ Hfresh).
    match goal with |- context [?m w3] => destruct (m w3) as [r wf] eqn:Hrun end.
    assert (Hq : quietFor (accessToken current) w3 wf).
    { revert Hrun. match goal with |- ?m w3 = _ -> _ =>
        assert (Hp : Preserves (quietFor (accessToken current)) m) end.
      { preserves; [apply quiet_fetch | apply quiet_storeGlucoseReadings]. }
      apply Hp. }
    destruct r; [exact Hq|].
    eapply frame_trans; [exact Hq|apply frame_console].
Qed.

Lemma data_requests_bear_current_token_witness :
  let E := Demo.env DEXCOM_API_CONFIG Demo.noon Demo.granting Demo.healthy in
  let w := Demo.connected 1704196800000 in
  exists first second,
    network (dexcomFetchGlucoseData E (Some "u1") None None w).2 = [first; second] /\
    first = refreshGrantRequest E "refresh-1" /\
    req_bearer second = Some "access-2".
Proof.
  intros E w.
  set (w1 := (getUserTokens E "u1" w).2).
  set (w2 := (checkRateLimit E w1).2).
  set (w3 := (ensureFresh E "u1" (Demo.userTokens 1704196800000) w2).2).
  set (current := {| tk_userId := "u1"; accessToken := "access-2";
                     refreshToken := "refresh-2"; expiresAt := 1704204000000;
                     refreshTokenCreatedAt := 1704196800000;
                     lastRefresh := Some 1704196800000 |}).
  assert (Hfresh : ensureFresh E "u1" (Demo.userTokens 1704196800000) w2 = (Ok current, w3))
    by (apply outcome_eta; vm_compute; reflexivity).
  assert (Hget : getUserTokens E "u1" w = (Ok (Some (Demo.userTokens 1704196800000)), w1))
    by (apply outcome_eta; reflexivity).
  assert (Hrl : checkRateLimit E w1 =
            (Ok {| allowed := true; remaining := 60000; resetTime := 1704200400000 |}, w2))
    by (apply outcome_eta; vm_compute; reflexivity).
  destruct (proj1 (proj2 (proj2 (data_requests_bear_current_token E "u1" _ _ _ _ Hfresh)))
              None None w w1 _ Hget Hrl eq_refl) as (_ & l & Hnet & Hall).
  assert (Hw3 : network w3 = [refreshGrantRequest E "refresh-1"])
    by (vm_compute; reflexivity).
  rewrite Hw3 in Hnet.
  assert (Hlen : length (network (dexcomFetchGlucoseData E (Some "u1") None None w).2) = 2%nat)
    by (vm_compute; reflexivity).
  rewrite Hnet in Hlen. destruct l as [|second [|? ?]]; try discriminate Hlen.
  exists (refreshGrantRequest E "refresh-1"), second.
  split; [exact Hnet|]. split; [reflexivity|].
  by apply Forall_inv in Hall as [_ ?].
Defined.

(** ** The readings store *)

Lemma occurs_string_of_uint c d :
  (forall n, (n < 10)%nat -> c <> ascii_of_nat (48 + n)) ->
  occurs c (NilEmpty.string_of_uint d) = false.
Proof.
  intros Hc. induction d; cbn [NilEmpty.string_of_uint occurs]; [done|..];
    rewrite IHd, orb_false_r; apply Ascii.eqb_neq; intros <-.
  - by apply (Hc 0%nat); [lia|].
  - by apply (Hc 1%nat); [lia|].
  - by apply (Hc 2%nat); [lia|].
  - by apply (Hc 3%nat); [lia|].
  - by apply (Hc 4%nat); [lia|].
  - by apply (Hc 5%nat); [lia|].
  - by apply (Hc 6%nat); [lia|].
  - by apply (Hc 7%nat); [lia|].
  - by apply (Hc 8%nat); [lia|].
  - by apply (Hc 9%nat); [lia|].
Qed.

Lemma occurs_underscore_Number_toString z : occurs "_" (Number_toString z) = false.
Proof.
  assert (Hd : forall n, (n < 10)%nat -> "_"%char <> ascii_of_nat (48 + n)).
  { intros n Hn. do 10 (destruct n as [|n]; [discriminate|]). lia. }
  unfold Number_toString, NilZero.string_of_int, NilZero.string_of_uint.
  destruct (Z.to_int z) as [d|d]; destruct d; cbn [occurs Ascii.eqb];
    try reflexivity; apply (occurs_string_of_uint "_" _ Hd).
Qed.

Lemma Number_toString_inj z1 z2 : Number_toString z1 = Number_toString z2 -> z1 = z2.
Proof.
  unfold Number_toString. intros H. apply to_int_inj.
  assert (Hn : forall z, Z.to_int z <> Pos Nil /\ Z.to_int z <> Neg Nil).
  { intros [|p|p]; cbn [Z.to_int]; split; try discriminate;
      intros [= Hp]; by apply (Unsigned.to_uint_nonnil p). }
  destruct (Hn z1), (Hn z2).
  assert (Some (Z.to_int z1) = Some (Z.to_int z2)) as [= ->]; [|done].
  rewrite <- (NilZero.isi (Z.to_int z1)), <- (NilZero.isi (Z.to_int z2)) by done.
  by rewrite H.
Qed.

Lemma occurs_app c a b : occurs c (a +:+ b) = occurs c a || occurs c b.
Proof.
  induction a as [|x a IH]; [done|].
  change (String x a +:+ b) with (String x (a +:+ b)).
  cbn [occurs]. by rewrite IH, orb_assoc.
Qed.

(** A separator that does not occur in the right parts splits in one
    way only. *)
Lemma split_at_last c u1 n1 u2 n2 :
  occurs c n1 = false -> occurs c n2 = false ->
  u1 +:+ String c n1 = u2 +:+ String c n2 ->
  u1 = u2 /\ n1 = n2.
Proof.
  intros H1 H2. revert u2. induction u1 as [|a u1 IH]; intros [|b u2] H.
  - by injection H as ->.
  - change (String c n1 = String b (u2 +:+ String c n2)) in H.
    injection H as <- ->. rewrite occurs_app in H1. cbn [occurs] in H1.
    rewrite Ascii.eqb_refl, orb_true_r in H1. done.
  - change (String a (u1 +:+ String c n1) = String c n2) in H.
    injection H as -> <-. rewrite occurs_app in H2. cbn [occurs] in H2.
    rewrite Ascii.eqb_refl, orb_true_r in H2. done.
  - change (String a (u1 +:+ String c n1) = String b (u2 +:+ String c n2)) in H.
    injection H as -> H. by destruct (IH _ H) as [-> ->].
Qed.

Lemma readingDocId_inj u1 ms1 u2 ms2 :
  readingDocId u1 ms1 = readingDocId u2 ms2 -> u1 = u2 /\ ms1 = ms2.
Proof.
  unfold readingDocId. intros H.
  change ("_" +:+ Number_toString ms1) with (String "_" (Number_toString ms1)) in H.
  change ("_" +:+ Number_toString ms2) with (String "_" (Number_toString ms2)) in H.
  apply split_at_last in H as [-> H]; try apply occurs_underscore_Number_toString.
  split; [done|]. by apply Number_toString_inj.
Qed.

Section StoreOutcome.

Context (E : Env).

Lemma storeGlucoseReadings_run u readings w :
  storeGlucoseReadings E u readings w =
    match readings with
    | [] => (Ok tt, w)
    | _ =>
        match prepareBatch E u readings with
        | Threw e =>
            (Threw e,
             set_console (console w ++ [(LError, "Error processing reading for storage:")]) w)
        | Ok batch =>
            if dbFails E (step w)
            then (Threw (JsError "Firestore operation failed"),
                  set_console
                    (console w ++ [(LError, "Failed to commit batch to Firestore:")])
                    (set_step (S (step w)) w))
            else (Ok tt,
                  set_glucoseReadings
                    (commitBatch (serverTime E (step w)) batch (glucoseReadings w))
                    (set_step (S (step w)) w))
        end
    end.
Proof.
  unfold storeGlucoseReadings. destruct readings as [|r readings]; [reflexivity|].
  cbn [length Nat.eqb].
  unfold mbind at 1, M_bind at 1, try_catch at 1, liftR.
  destruct (prepareBatch E u (r :: readings)) as [batch|e]; [|reflexivity].
  unfold try_catch. rewrite firestore_op_run.
  by destruct (dbFails E (step w)).
Qed.

Lemma prepareBatch_threw u readings reading :
  reading ∈ readings ->
  (exists e, prepareWrite E u reading = Threw e) ->
  exists e, prepareBatch E u readings = Threw e.
Proof.
  intros Hin [e He]. induction readings as [|r readings IH]; [by apply elem_of_nil in Hin|].
  cbn [prepareBatch]. unfold mbind, Result_bind.
  apply elem_of_cons in Hin as [<-|Hin].
  - rewrite He. by eexists.
  - destruct (prepareWrite E u r); [|by eexists].
    destruct (IH Hin) as [e' ->]. by eexists.
Qed.

Lemma prepareBatch_length u readings batch :
  prepareBatch E u readings = Ok batch -> length batch = length readings.
Proof.
  revert batch. induction readings as [|r readings IH]; intros batch.
  - by intros [= <-].
  - cbn [prepareBatch]. unfold mbind, Result_bind, mret, Result_ret.
    destruct (prepareWrite E u r); [|done].
    destruct (prepareBatch E u readings); [|done].
    intros [= <-]. cbn. f_equal. by apply IH.
Qed.

Lemma prepareWrite_bad_date u reading :
  parseDate E (systemTime reading) = None \/ parseDate E (displayTime reading) = None ->
  exists e, prepareWrite E u reading = Threw e.
Proof.
  unfold prepareWrite, mbind, Result_bind. intros [H|H]; rewrite H.
  - by eexists.
  - destruct (Timestamp_fromDate (parseDate E (systemTime reading))); by eexists.
Qed.

Lemma prepareWrite_undefined_rate u reading :
  trendRate reading = Undefined -> ignoreUndefinedProperties E = false ->
  exists e, prepareWrite E u reading = Threw e.
Proof.
  unfold prepareWrite, mbind, Result_bind. intros -> ->.
  destruct (Timestamp_fromDate (parseDate E (systemTime reading))); [|by eexists].
  destruct (Timestamp_fromDate (parseDate E (displayTime reading))); by eexists.
Qed.

End StoreOutcome.

(** X12.  [storeGlucoseReadings] writes all the readings of a call or
    none of them.  Whenever it throws, the readings collection is what
    it was; it throws when a single reading of the batch has a system or
    display time that does not parse, or has no trend rate while the
    store rejects undefined fields, however good the other readings are;
    and it throws when the commit fails.  With no reading at all it
    returns at once, without a storage operation.  When it succeeds on a
    batch, every reading of it has been prepared and the whole batch
    committed in one operation. *)
Theorem store_is_all_or_nothing (E : Env) (u : string)
    (readings : list DexcomGlucoseReading) (w : World) :
  let out := storeGlucoseReadings E u readings w in
  (forall e, out.1 = Threw e -> glucoseReadings out.2 = glucoseReadings w) /\
  (readings = [] -> out = (Ok tt, w)) /\
  (forall reading,
      reading ∈ readings ->
      parseDate E (systemTime reading) = None \/
      parseDate E (displayTime reading) = None \/
      (trendRate reading = Undefined /\ ignoreUndefinedProperties E = false) ->
      exists e, out.1 = Threw e) /\
  (readings <> [] -> dbFails E (step w) = true -> exists e, out.1 = Threw e) /\
  (readings <> [] -> out.1 = Ok tt ->
   exists batch,
     prepareBatch E u readings = Ok batch /\
     length batch = length readings /\
     glucoseReadings out.2 =
       commitBatch (serverTime E (step w)) batch (glucoseReadings w)).
Proof.
  intros out. subst out. rewrite storeGlucoseReadings_run.
  split; [|split; [|split; [|split]]].
  - intros e. destruct readings; [done|].
    destruct (prepareBatch E u _); [|done]. by destruct (dbFails E (step w)).
  - by intros ->.
  - intros reading Hin Hbad.
    assert (Hw : exists e, prepareWrite E u reading = Threw e).
    { destruct Hbad as [H|[H|[H1 H2]]].
      - apply prepareWrite_bad_date. by left.
      - apply prepareWrite_bad_date. by right.
      - by apply prepareWrite_undefined_rate. }
    destruct (prepareBatch_threw E u readings reading Hin Hw) as [e He].
    destruct readings; [by apply elem_of_nil in Hin|]. rewrite He. by eexists.
  - intros Hne Hdb. destruct readings; [done|].
    destruct (prepareBatch E u _); [|by eexists]. rewrite Hdb. by eexists.
  - intros Hne. destruct readings as [|r readings]; [done|].
    destruct (prepareBatch E u (r :: readings)) as [batch|] eqn:Hb; [|done].
    destruct (dbFails E (step w)); [done|]. intros _.
    exists batch. split; [done|]. split; [|done]. by apply (prepareBatch_length E u).
Qed.

Lemma store_is_all_or_nothing_witness :
  let E := Demo.env DEXCOM_API_CONFIG Demo.noon Demo.offline Demo.healthy in
  let bad := {| systemTime := "yesterday"; displayTime := "2024-01-01T00:00:00Z";
                value := 90; trend := "flat"; trendRate := Num 0 |} in
  let out := storeGlucoseReadings E "u1" [Demo.firstReading; bad] Demo.w0 in
  (exists e, out.1 = Threw e) /\ glucoseReadings out.2 = ∅.
Proof.
  intros E bad out.
  destruct (store_is_all_or_nothing E "u1" [Demo.firstReading; bad] Demo.w0)
    as (Hkeep & _ & Hbad & _).
  destruct (Hbad bad) as [e He].
  - apply list_elem_of_further, list_elem_of_here.
  - by left.
  - split; [by exists e|]. exact (Hkeep e He).
Defined.

(** X13.  The document id of a reading determines its user and its
    instant: two readings get the same id only if they are of the same
    user and the same system time in milliseconds.  So in a store where
    each document sits under the id of its own user and instant, writing
    a reading leaves every document of another user, or of another
    instant, exactly as it was. *)
Theorem readingDocId_injective (u1 u2 : string) (ms1 ms2 : Z) :
  (readingDocId u1 ms1 = readingDocId u2 ms2 <-> u1 = u2 /\ ms1 = ms2) /\
  (forall recordedAt bw store k d,
      bw_docId bw = readingDocId u1 ms1 ->
      keyedByIdentity store ->
      store !! k = Some d ->
      sr_userId d <> u1 \/ sr_systemTime d <> Timestamp_fromMillis ms1 ->
      mergeWrite recordedAt bw store !! k = Some d).
Proof.
  split.
  - split; [apply readingDocId_inj|]. by intros [-> ->].
  - intros recordedAt bw store k d Hid Hkeyed Hk Hother.
    unfold mergeWrite. rewrite lookup_insert_ne; [done|].
    rewrite Hid. intros <-.
    destruct (Hkeyed _ _ Hk) as (ms & Hst & Hkey).
    apply readingDocId_inj in Hkey as [Hu ->].
    destruct Hother as [H|H]; [by apply H|by apply H].
Qed.

Lemma readingDocId_injective_witness :
  let store : gmap string StoredGlucoseReading :=
    {[ readingDocId "u2" 1704067200000 :=
         {| sr_userId := "u2"; sr_systemTime := Timestamp_fromMillis 1704067200000;
            sr_displayTime := Timestamp_fromMillis 1704067200000; sr_value := 100;
            sr_unit := "mg/dL"; sr_trend := "flat"; sr_trendRate := Num 0;
            sr_recordedAt := 0 |} ]} in
  let bw := {| bw_docId := readingDocId "u1" 1704067200000; bw_userId := "u1";
               bw_systemTime := Timestamp_fromMillis 1704067200000;
               bw_displayTime := Timestamp_fromMillis 1704067200000;
               bw_value := 140; bw_trend := "singleUp"; bw_trendRate := Num 2 |} in
  exists d,
    mergeWrite 5 bw store !! readingDocId "u2" 1704067200000 = Some d /\ sr_value d = 100.
Proof.
  intros store bw. eexists. split; [|shelve].
  apply (proj2 (readingDocId_injective "u1" "u1" 1704067200000 1704067200000) 5 bw store).
  - reflexivity.
  - intros k d Hk. apply lookup_singleton_Some in Hk as [<- <-].
    exists 1704067200000. split; reflexivity.
  - apply lookup_singleton_eq.
  - left. discriminate.
  Unshelve. reflexivity.
Defined.

Section StoreIsolation.

Context (E : Env).

Lemma prepareBatch_owned u readings batch :
  prepareBatch E u readings = Ok batch ->
  Forall (fun bw => identified bw /\ bw_userId bw = u) batch.
Proof.
  revert batch. induction readings as [|r rs IH]; intros batch.
  - intros [= <-]. constructor.
  - cbn [prepareBatch]. destruct (prepareWrite E u r) as [bw|] eqn:Hbw; [|done].
    cbn [mbind Result_bind].
    destruct (prepareBatch E u rs) as [rest|]; [|done].
    intros [= <-]. constructor; [|by apply IH].
    apply prepareWrite_ok in Hbw as (ms & _ & Hid & Hu & Hst & _).
    split; [|done]. exists ms. by rewrite Hu.
Qed.

Lemma commitBatch_others u t batch store k d :
  Forall (fun bw => identified bw /\ bw_userId bw = u) batch ->
  keyedByIdentity store ->
  store !! k = Some d ->
  sr_userId d <> u ->
  commitBatch t batch store !! k = Some d.
Proof.
  unfold commitBatch. intros Hb. revert store.
  induction Hb as [|bw batch [Hbw Hu] _ IH]; intros store Hs Hk Hd; [done|].
  cbn [fold_left]. apply IH; [by apply mergeWrite_keyed| |done].
  unfold mergeWrite. rewrite lookup_insert_ne; [done|].
  intros Heq. destruct Hbw as (ms & _ & Hid).
  destruct (Hs _ _ Hk) as (ms' & _ & Hkey).
  rewrite <- Heq, Hid, Hu in Hkey. by apply readingDocId_inj in Hkey as [-> _].
Qed.

Lemma commitBatch_written u t batch store k d :
  Forall (fun bw => identified bw /\ bw_userId bw = u) batch ->
  commitBatch t batch store !! k = Some d ->
  store !! k = Some d \/
  (sr_userId d = u /\ sr_unit d = "mg/dL" /\ sr_recordedAt d = t).
Proof.
  unfold commitBatch. intros Hb. revert store.
  induction Hb as [|bw batch [_ Hu] _ IH]; intros store Hk; [by left|].
  cbn [fold_left] in Hk. apply IH in Hk as [Hk|Hk]; [|by right].
  unfold mergeWrite in Hk.
  destruct (decide (bw_docId bw = k)) as [<-|Hne].
  - rewrite lookup_insert_eq in Hk. injection Hk as <-. by right.
  - rewrite lookup_insert_ne in Hk by done. by left.
Qed.

End StoreIsolation.

(** X14.  On a store in which each document sits under the id of its own
    user and instant, a call of [storeGlucoseReadings] for one user
    leaves every document of every other user as it was, whether it
    succeeds or fails; each document found afterwards is either one that
    was there before, unchanged, or one written by this call, which then
    carries this user's id, the unit "mg/dL" and the server time of the
    commit.  The call sends no request and touches no other
    collection. *)
Theorem store_touches_one_user_only (E : Env) (u : string)
    (readings : list DexcomGlucoseReading) (w : World) :
  keyedByIdentity (glucoseReadings w) ->
  let out := storeGlucoseReadings E u readings w in
  (forall k d,
      glucoseReadings w !! k = Some d ->
      sr_userId d <> u ->
      glucoseReadings out.2 !! k = Some d) /\
  (forall k d,
      glucoseReadings out.2 !! k = Some d ->
      glucoseReadings w !! k = Some d \/
      (sr_userId d = u /\ sr_unit d = "mg/dL" /\
       sr_recordedAt d = serverTime E (step w))) /\
  dexcomTokens out.2 = dexcomTokens w /\
  rateLimits out.2 = rateLimits w /\
  healthMetrics out.2 = healthMetrics w /\
  network out.2 = network w.
Proof.
  intros Hkeyed out. subst out. rewrite storeGlucoseReadings_run.
  destruct readings as [|r readings]; [by repeat split; auto|].
  destruct (prepareBatch E u (r :: readings)) as [batch|] eqn:Hb;
    [|by repeat split; auto].
  destruct (dbFails E (step w)); [by repeat split; auto|].
  apply prepareBatch_owned in Hb. cbn [snd glucoseReadings set_glucoseReadings].
  split; [|split; [|done]].
  - intros k d Hk Hd. by apply (commitBatch_others u).
  - intros k d Hk. by apply (commitBatch_written u) in Hk.
Qed.

Lemma store_touches_one_user_only_witness :
  let E := Demo.env DEXCOM_API_CONFIG Demo.noon Demo.offline Demo.healthy in
  let w1 := (storeGlucoseReadings E "u2" [Demo.firstReading] Demo.w0).2 in
  let w2 := (storeGlucoseReadings E "u1" [Demo.secondReading] w1).2 in
  exists d,
    glucoseReadings w2 !! readingDocId "u2" 1704067200000 = Some d /\
    sr_userId d = "u2" /\ sr_value d = 100.
Proof.
  intros E w1 w2.
  assert (Hkeyed : keyedByIdentity (glucoseReadings w1)).
  { apply storeGlucoseReadings_keyed. intros k d Hk.
    change (glucoseReadings Demo.w0) with (∅ : gmap string StoredGlucoseReading) in Hk.
    by rewrite lookup_empty in Hk. }
  eexists. split; [|shelve].
  apply (proj1 (store_touches_one_user_only E "u1" [Demo.secondReading] w1 Hkeyed)).
  - vm_compute. reflexivity.
  - discriminate.
  Unshelve. split; reflexivity.
Defined.

(** ** The rate ledger *)

(** X15.  When its transaction goes through, [checkRateLimit] answers
    with a reset time of [now] plus the window and a remaining count
    that is never negative and is 0 exactly on a denial.  On an
    admission the remaining count is that of the slots free before this
    call was recorded, so at least 1; and the ledger then written holds
    at most as many timestamps as the ceiling, each of them inside the
    window that ends at [now], the last one being [now] itself: the
    ledger never grows beyond the ceiling. *)
Theorem rate_ledger_bounded (E : Env) (w : World) :
  dbFails E (S (step w)) = false ->
  0 < RATE_LIMIT_WINDOW_MS (apiConfig E) ->
  let now := clock E (step w) in
  let ceiling := RATE_LIMIT_MAX_CALLS (apiConfig E) in
  exists r w',
    checkRateLimit E w = (Ok r, w') /\
    resetTime r = now + RATE_LIMIT_WINDOW_MS (apiConfig E) /\
    0 <= remaining r /\
    (allowed r = false <-> remaining r = 0) /\
    (allowed r = true ->
     exists earlier,
       rateLimits w' = Some {| calls := Some (earlier ++ [now]);
                               lastReset := now; lastCall := Some now |} /\
       Z.of_nat (length (earlier ++ [now])) <= ceiling /\
       Forall (fun t => now - RATE_LIMIT_WINDOW_MS (apiConfig E) < t) (earlier ++ [now]) /\
       remaining r = ceiling - Z.of_nat (length earlier)).
Proof.
  intros Hdb Hwin now ceiling.
  rewrite (checkRateLimit_healthy E w Hdb). fold now.
  unfold rateLimitTransaction. rewrite rateLimitTransaction_recent.
  set (fresh := freshEntries E now (rateLimits w)). fold ceiling.
  assert (Hfresh : Forall (fun t => now - RATE_LIMIT_WINDOW_MS (apiConfig E) < t) fresh).
  { unfold fresh, freshEntries. apply Forall_forall. intros t Ht.
    apply list_elem_of_filter in Ht as [Ht _]. lia. }
  destruct (bool_decide (ceiling - Z.of_nat (length fresh) > 0)) eqn:Hd.
  - apply bool_decide_eq_true in Hd. eexists _, _. split; [reflexivity|].
    cbn [resetTime remaining allowed snd rateLimits set_rateLimits].
    split; [done|]. split; [lia|]. split; [split; [done|lia]|].
    intros _. exists fresh. split; [done|].
    split; [rewrite length_app; cbn; lia|].
    split; [|lia]. apply Forall_app. split; [done|]. constructor; [lia|constructor].
  - apply bool_decide_eq_false in Hd. eexists _, _. split; [reflexivity|].
    cbn [resetTime remaining allowed].
    split; [done|]. split; [lia|]. split; [split; [lia|done]|done].
Qed.

Lemma rate_ledger_bounded_witness :
  exists r w',
    checkRateLimit Demo.fiveCalls Demo.w0 = (Ok r, w') /\
    remaining r = 3 /\
    rateLimits w' = Some {| calls := Some [0]; lastReset := 0; lastCall := Some 0 |}.
Proof.
  destruct (rate_ledger_bounded Demo.fiveCalls Demo.w0 eq_refl eq_refl)
    as (r & w' & Hrun & _ & _ & _ & Hadm).
  exists r, w'. split; [exact Hrun|].
  assert (Hr : r = {| allowed := true; remaining := 3; resetTime := 1000 |}).
  { assert (H : (checkRateLimit Demo.fiveCalls Demo.w0).1 =
                  Ok {| allowed := true; remaining := 3; resetTime := 1000 |})
      by (vm_compute; reflexivity).
    rewrite Hrun in H. by injection H. }
  subst r. split; [reflexivity|].
  assert (Hw : rateLimits (checkRateLimit Demo.fiveCalls Demo.w0).2 =
                 Some {| calls := Some [0]; lastReset := 0; lastCall := Some 0 |})
    by (vm_compute; reflexivity).
  by rewrite Hrun in Hw.
Defined.

(** ** The sandbox window *)

(** X16.  In sandbox mode, with an available range from [D1] to [D2]
    that is not reversed and a request whose start is not after its end,
    the window [adjustDatesForSandbox] returns always lies inside the
    available range and has its start not after its end; [adjusted] is
    false exactly when the window returned is the one requested; and
    adjusting is idempotent: the window returned, requested again, comes
    back unchanged and not adjusted.  Outside sandbox mode, or without
    both ends of the range, the request comes back as it is. *)
Theorem adjustDatesForSandbox_within_range (E : Env) (dataRange : option DexcomDataRange)
    (s e : RangeBound) (D1 D2 rs re : Z) :
  egvsBounds dataRange = Some (s, e) ->
  parseDate E (rb_systemTime s) = Some D1 ->
  parseDate E (rb_systemTime e) = Some D2 ->
  D1 <= D2 ->
  rs <= re ->
  (exists a b adj,
      adjustDatesForSandbox E (Some rs) (Some re) dataRange true =
        Ok {| adj_startDate := Some a; adj_endDate := Some b; adjusted := adj |} /\
      D1 <= a /\ a <= b /\ b <= D2 /\
      (adj = false <-> a = rs /\ b = re) /\
      adjustDatesForSandbox E (Some a) (Some b) dataRange true =
        Ok {| adj_startDate := Some a; adj_endDate := Some b; adjusted := false |}) /\
  (forall requestedStart requestedEnd range,
      adjustDatesForSandbox E requestedStart requestedEnd range false =
        Ok {| adj_startDate := requestedStart; adj_endDate := requestedEnd;
              adjusted := false |}) /\
  (forall requestedStart requestedEnd range,
      egvsBounds range = None ->
      adjustDatesForSandbox E requestedStart requestedEnd range true =
        Ok {| adj_startDate := requestedStart; adj_endDate := requestedEnd;
              adjusted := false |}).
Proof.
  intros Hb H1 H2 Hrange Hreq.
  assert (Hrun : forall x y,
    adjustDatesForSandbox E (Some x) (Some y) dataRange true =
      if (x >? D2) || (y <? D1)
      then Ok {| adj_startDate := Some (D2 - Z.min (12 * 60 * 60 * 1000) (D2 - D1));
                 adj_endDate := Some D2; adjusted := true |}
      else Ok {| adj_startDate := Some (Z.max x D1); adj_endDate := Some (Z.min y D2);
                 adjusted := negb (Z.max x D1 =? x) || negb (Z.min y D2 =? y) |}).
  { intros x y. unfold adjustDatesForSandbox. rewrite Hb.
    cbn [toISOString_checked mbind Result_bind]. rewrite H1, H2.
    cbn [toISOString_checked mbind Result_bind]. reflexivity. }
  split; [|split].
  - rewrite Hrun.
    destruct ((rs >? D2) || (re <? D1)) eqn:Hout.
    + eexists _, _, _. split; [reflexivity|].
      apply orb_true_iff in Hout. rewrite Z.gtb_lt, Z.ltb_lt in Hout.
      split; [lia|]. split; [lia|]. split; [lia|]. split; [split; [done|lia]|].
      rewrite Hrun.
      replace ((D2 - Z.min (12 * 60 * 60 * 1000) (D2 - D1) >? D2) || (D2 <? D1))
        with false by (symmetry; apply orb_false_iff; split; case_compare; lia).
      f_equal. f_equal; [f_equal; lia|f_equal; lia|].
      apply orb_false_iff. split; apply negb_false_iff; apply Z.eqb_eq; lia.
    + eexists _, _, _. split; [reflexivity|].
      apply orb_false_iff in Hout as [Ho1 Ho2].
      rewrite Z.gtb_ltb in Ho1. apply Z.ltb_ge in Ho1. apply Z.ltb_ge in Ho2.
      split; [lia|]. split; [lia|]. split; [lia|]. split.
      * rewrite orb_false_iff, !negb_false_iff, !Z.eqb_eq. done.
      * rewrite Hrun.
        replace ((Z.max rs D1 >? D2) || (Z.min re D2 <? D1))
          with false by (symmetry; apply orb_false_iff; split; case_compare; lia).
        f_equal. f_equal; [f_equal; lia|f_equal; lia|].
        apply orb_false_iff. split; apply negb_false_iff; apply Z.eqb_eq; lia.
  - reflexivity.
  - intros requestedStart requestedEnd range Hnone. unfold adjustDatesForSandbox.
    by rewrite Hnone.
Qed.

Lemma adjustDatesForSandbox_within_range_witness :
  let E := Demo.env DEXCOM_API_CONFIG (fun _ => 0) Demo.offline Demo.healthy in
  let range := Some {| dr_egvs := Some {|
      rg_start := Some {| rb_systemTime := "2024-01-01T00:00:00Z"; rb_displayTime := "" |};
      rg_end := Some {| rb_systemTime := "2024-01-03T00:00:00Z"; rb_displayTime := "" |} |} |} in
  exists a b adj,
    adjustDatesForSandbox E (Some 1577836800000) (Some 1577923200000) range true =
      Ok {| adj_startDate := Some a; adj_endDate := Some b; adjusted := adj |} /\
    1704067200000 <= a /\ b <= 1704240000000 /\
    adjustDatesForSandbox E (Some a) (Some b) range true =
      Ok {| adj_startDate := Some a; adj_endDate := Some b; adjusted := false |}.
Proof.
  intros E range.
  destruct (proj1 (adjustDatesForSandbox_within_range E range _ _
                     1704067200000 1704240000000 1577836800000 1577923200000
                     eq_refl eq_refl eq_refl ltac:(lia) ltac:(lia)))
    as (a & b & adj & Hrun & Ha & _ & Hb & _ & Hidem).
  exists a, b, adj. repeat split; assumption.
Defined.

(** ** The errors of the fetch handler *)

Section FetchErrors.

Context (E : Env).

Lemma fetchCatchBlock_throws startTime e w :
  (fetchCatchBlock E startTime e w).1 =
    Threw match e with
          | HttpsError code message => HttpsError code message
          | JsError _ => HttpsError internal "Failed to fetch glucose data"
          end.
Proof.
  destruct e as [code message|message]; [reflexivity|].
  unfold fetchCatchBlock.
  rewrite (bind_ok _ _ _ _ _ (Date_now_run E w)).
  unfold console_error, modify. unfold mbind at 1, M_bind at 1.
  erewrite bind_ok_fst by apply recordHealthMetric_total. reflexivity.
Qed.

Lemma checkRateLimit_total w : exists r, (checkRateLimit E w).1 = Ok r.
Proof.
  destruct (dbFails E (S (step w))) eqn:Hdb.
  - rewrite (checkRateLimit_faulty E w Hdb). by eexists.
  - rewrite (checkRateLimit_healthy E w Hdb). cbv zeta.
    destruct (rateLimitTransaction E _ _). by eexists.
Qed.

End FetchErrors.

(** X17.  Past the refresh step [dexcomFetchGlucoseData] only ever
    throws an [HttpsError]: whatever fails inside its [try] block
    reaches the caller as the [HttpsError] thrown there, or as
    [internal] "Failed to fetch glucose data" when it was any other
    error.  A raw error can reach the caller only out of the token
    refresh, which runs before the [try] block: if the handler throws an
    error that is not an [HttpsError], a refresh was due and that
    refresh threw it. *)
Theorem fetch_errors_are_https_errors (E : Env) (u : string)
    (startDate endDate : option string) (w : World) :
  let out := dexcomFetchGlucoseData E (Some u) startDate endDate w in
  (forall tokens rl startTime w' e,
      (try_catch (fetchTryBlock E u tokens rl startTime startDate endDate)
                 (fetchCatchBlock E startTime) w').1 = Threw e ->
      exists code message, e = HttpsError code message) /\
  (forall tokens rl startTime w' message,
      (fetchTryBlock E u tokens rl startTime startDate endDate w').1 =
        Threw (JsError message) ->
      (try_catch (fetchTryBlock E u tokens rl startTime startDate endDate)
                 (fetchCatchBlock E startTime) w').1 =
        Threw (HttpsError internal "Failed to fetch glucose data")) /\
  (forall message,
      out.1 = Threw (JsError message) ->
      exists tokens w2,
        tokenNeedsRefresh E (clock E (step w2)) tokens = true /\
        refreshAccessToken E u (refreshToken tokens) (set_step (S (step w2)) w2)
          = (Threw (JsError message), out.2)).
Proof.
  intros out. subst out.
  assert (Hblock : forall tokens rl startTime w' e,
    (try_catch (fetchTryBlock E u tokens rl startTime startDate endDate)
               (fetchCatchBlock E startTime) w').1 = Threw e ->
    exists code message, e = HttpsError code message).
  { intros tokens rl startTime w' e. unfold try_catch.
    destruct (fetchTryBlock E u tokens rl startTime startDate endDate w') as [[r|e0] w1];
      [done|].
    rewrite fetchCatchBlock_throws. intros [= <-]. destruct e0; by eexists _, _. }
  split; [exact Hblock|]. split.
  - intros tokens rl startTime w' message. unfold try_catch.
    destruct (fetchTryBlock E u tokens rl startTime startDate endDate w') as [[r|e0] w1];
      [done|].
    intros [= ->]. by rewrite fetchCatchBlock_throws.
  - intros message. unfold dexcomFetchGlucoseData.
    destruct (getUserTokens_total E u w) as [stored Hs].
    rewrite (bind_ok_fst _ _ _ _ Hs). destruct stored as [tokens|]; [|done].
    set (w1 := (getUserTokens E u w).2).
    destruct (checkRateLimit_total E w1) as [rl Hrl].
    rewrite (bind_ok_fst _ _ _ _ Hrl). set (w2 := (checkRateLimit E w1).2).
    destruct (allowed rl); cbn [negb].
    2: { erewrite bind_ok_fst by apply recordHealthMetric_total. done. }
    destruct (ensureFresh E u tokens w2) as [[current|e] w3] eqn:Hfresh.
    + rewrite (bind_ok _ _ _ _ _ Hfresh).
      rewrite (bind_ok _ _ _ _ _ (Date_now_run E w3)).
      intros H. apply Hblock in H as (? & ? & [=]).
    + rewrite (bind_threw _ _ _ _ _ Hfresh). intros [= ->].
      exists tokens, w2. rewrite ensureFresh_run in Hfresh.
      destruct (tokenNeedsRefresh E _ tokens); [done|discriminate].
Qed.

Lemma fetch_errors_are_https_errors_witness :
  let E := Demo.env DEXCOM_API_CONFIG Demo.noon Demo.offline Demo.healthy in
  (dexcomFetchGlucoseData E (Some "u1") None None (Demo.connected 1704240000000)).1 =
    Threw (HttpsError internal "Failed to fetch glucose data") /\
  (dexcomFetchGlucoseData E (Some "u1") None None (Demo.connected 1704196800000)).1 =
    Threw (JsError "fetch failed") /\
  exists tokens w2,
    tokenNeedsRefresh E (clock E (step w2)) tokens = true.
Proof.
  intros E. split; [vm_compute; reflexivity|]. split; [vm_compute; reflexivity|].
  destruct (proj2 (proj2 (fetch_errors_are_https_errors E "u1" None None
                            (Demo.connected 1704196800000)))
              "fetch failed" ltac:(vm_compute; reflexivity))
    as (tokens & w2 & Hdue & _).
  by exists tokens, w2.
Defined.



(** ** The requests of the sweep *)

Lemma sentAtMost_trans a b w1 w2 w3 :
  sentAtMost a w1 w2 -> sentAtMost b w2 w3 -> sentAtMost (a + b) w1 w3.
Proof.
  intros (l1 & H1 & Hl1) (l2 & H2 & Hl2). exists (l1 ++ l2).
  split; [by rewrite H2, H1, (assoc_L (++))|]. rewrite length_app. lia.
Qed.

Lemma sentAtMost_same n w w' : sameNetwork w w' -> sentAtMost n w w'.
Proof. intros H. exists []. split; [by rewrite app_nil_r|cbn; lia]. Qed.

Lemma sentAtMost_weaken a b w w' : (a <= b)%nat -> sentAtMost a w w' -> sentAtMost b w w'.
Proof. intros Hab (l & H & Hl). exists l. split; [done|lia]. Qed.

Section SweepRequests.

Context (E : Env).

Hint Extern 1 (Preserves _ (checkRateLimit _)) =>
  apply preserves_checkRateLimit; exact _ : preserves.
Hint Extern 1 (Preserves sameNetwork (storeGlucoseReadings _ _ _)) =>
  apply preserves_storeGlucoseReadings; [exact _ | done] : preserves.

Lemma ensureFresh_sent u tokens w r w' :
  ensureFresh E u tokens w = (r, w') -> sentAtMost 1 w w'.
Proof.
  rewrite ensureFresh_run. destruct (tokenNeedsRefresh E _ tokens).
  - intros H%refreshAccessToken_network. exists [refreshGrantRequest E (refreshToken tokens)].
    split; [exact H|cbn; lia].
  - intros [= <- <-]. by apply sentAtMost_same.
Qed.

Lemma pullForUser_denied tokens w rl w1 :
  checkRateLimit E w = (Ok rl, w1) ->
  allowed rl = false ->
  pullForUser E tokens w =
    (Ok tt, set_console (console w1 ++ [(LWarn, "Rate limit exceeded, skipping user")]) w1).
Proof.
  intros Hrl Hden. unfold pullForUser, try_catch.
  by rewrite (bind_ok _ _ _ _ _ Hrl), Hden.
Qed.

Lemma pullForUser_sent tokens w : sentAtMost 2 w (pullForUser E tokens w).2.
Proof.
  unfold pullForUser, try_catch.
  match goal with |- context [?m w] => destruct (m w) as [r w'] eqn:Hbody end.
  assert (Hsent : sentAtMost 2 w w').
  { apply bind_inv in Hbody as [(e & Hrl & _)|(rl & w1 & Hrl & Hk)].
    { apply sentAtMost_same. eapply (preserves_checkRateLimit E sameNetwork), Hrl. }
    apply (sentAtMost_trans 0 2 w w1);
      [apply sentAtMost_same; eapply (preserves_checkRateLimit E sameNetwork), Hrl|].
    destruct (allowed rl); cbn [negb] in Hk.
    2: { apply sentAtMost_same. by injection Hk as _ <-. }
    apply bind_inv in Hk as [(e & Hf & _)|(current & w2 & Hf & Hk)].
    { eapply sentAtMost_weaken; [|by eapply ensureFresh_sent]. lia. }
    apply (sentAtMost_trans 1 1 w1 w2); [by eapply ensureFresh_sent|].
    rewrite (bind_ok _ _ _ _ _ (Date_now_run E _)) in Hk.
    rewrite (bind_ok _ _ _ _ _ (Date_now_run E _)) in Hk.
    apply bind_inv in Hk as [(e & Hf' & _)|(response & w3 & Hf' & Hk)];
      rewrite fetch_run in Hf'; injection Hf' as _ <-.
    { eexists [_]. split; [reflexivity|cbn; lia]. }
    match type of Hk with ?m _ = _ => assert (Hp : Preserves sameNetwork m) end.
    { preserves. }
    apply Hp in Hk. unfold sameNetwork in Hk.
    eexists [_]. split; [rewrite Hk; reflexivity|cbn; lia]. }
  destruct r; [exact Hsent|].
  apply (sentAtMost_trans 2 0 w w' _ Hsent). by apply sentAtMost_same.
Qed.

Lemma pullAll_sent docs w : sentAtMost (2 * length docs) w (pullAll E docs w).2.
Proof.
  revert w. induction docs as [|tokens docs IH]; intros w.
  - by apply sentAtMost_same.
  - cbn [pullAll]. rewrite (bind_ok_fst _ _ _ _ (pullForUser_total E tokens w)).
    eapply sentAtMost_weaken; [|eapply sentAtMost_trans; [apply pullForUser_sent|apply IH]].
    cbn [length]. lia.
Qed.

Lemma scheduledGlucoseDataPull_faulty w :
  dbFails E (step w) = true ->
  scheduledGlucoseDataPull E w =
    (Ok tt,
     set_console (console w ++ [(LError, "Error in scheduled glucose data pull:")])
       (set_step (S (step w)) w)).
Proof.
  intros Hdb. unfold scheduledGlucoseDataPull, try_catch.
  unfold mbind at 1, M_bind at 1. by rewrite firestore_op_run, Hdb.
Qed.

End SweepRequests.

(** X19.  The scheduled sweep sends at most two requests per credential
    record, a refresh grant and a readings request, and each user's body
    at most two.  A user the rate limiter denies is skipped with a
    warning and nothing else: no request, no write.  When there is no
    credential record, or listing them fails, the sweep sends nothing
    and writes nothing, and the rate ledger is not touched. *)
Theorem sweep_request_bound (E : Env) (w : World) :
  let out := scheduledGlucoseDataPull E w in
  sentAtMost (2 * size (dexcomTokens w)) w out.2 /\
  (forall tokens w0, sentAtMost 2 w0 (pullForUser E tokens w0).2) /\
  (forall tokens w0 rl w1,
      checkRateLimit E w0 = (Ok rl, w1) ->
      allowed rl = false ->
      pullForUser E tokens w0 =
        (Ok tt,
         set_console (console w1 ++ [(LWarn, "Rate limit exceeded, skipping user")]) w1)) /\
  (dexcomTokens w = ∅ \/ dbFails E (step w) = true ->
   network out.2 = network w /\
   rateLimits out.2 = rateLimits w /\
   glucoseReadings out.2 = glucoseReadings w /\
   dexcomTokens out.2 = dexcomTokens w).
Proof.
  intros out. subst out.
  split; [|split; [apply pullForUser_sent|split; [apply pullForUser_denied|]]].
  - destruct (dbFails E (step w)) eqn:Hdb.
    + apply sentAtMost_same. by rewrite (scheduledGlucoseDataPull_faulty E w Hdb).
    + rewrite (scheduledGlucoseDataPull_run E w Hdb).
      rewrite <- (length_map_to_list (dexcomTokens w)),
        <- (length_fmap snd (map_to_list (dexcomTokens w))).
      apply (sentAtMost_trans 0 _ w (set_step (S (step w)) w));
        [by apply sentAtMost_same|apply pullAll_sent].
  - intros [Hempty|Hdb].
    + destruct (dbFails E (step w)) eqn:Hdb.
      * by rewrite (scheduledGlucoseDataPull_faulty E w Hdb).
      * rewrite (scheduledGlucoseDataPull_run E w Hdb), Hempty, map_to_list_empty. done.
    + by rewrite (scheduledGlucoseDataPull_faulty E w Hdb).
Qed.

Lemma sweep_request_bound_witness :
  let E := Demo.env DEXCOM_API_CONFIG Demo.noon Demo.secondFails Demo.healthy in
  exists sent,
    network (scheduledGlucoseDataPull E Demo.threeUsers).2 = sent /\
    (length sent <= 6)%nat.
Proof.
  intros E.
  destruct (proj1 (sweep_request_bound E Demo.threeUsers)) as (sent & Hnet & Hlen).
  exists sent. split; [exact Hnet|]. exact Hlen.
Defined.

(** ** What the credential handlers leave alone *)

#[local] Instance glucoseReadings_view : DataView glucoseReadings.
Proof. by split. Qed.
#[local] Instance rateLimits_view : DataView rateLimits.
Proof. by split. Qed.
#[local] Instance healthMetrics_view : DataView healthMetrics.
Proof. by split. Qed.

Section Keeping.

Context (E : Env) {X : Type} (f : World -> X) `{!DataView f}.

Lemma leaves_ret {A} (a : A) : Leaves f (mret a).
Proof. by intros w r w' [= _ <-]. Qed.

Lemma leaves_throw {A} e : Leaves f (@throw A e).
Proof. by intros w r w' [= _ <-]. Qed.

Lemma leaves_liftR {A} (x : Result A) : Leaves f (liftR x).
Proof. by intros w r w' [= _ <-]. Qed.

Lemma leaves_bind {A B} (m : M A) (k : A -> M B) :
  Leaves f m -> (forall a, Leaves f (k a)) -> Leaves f (m ≫= k).
Proof.
  intros Hm Hk w r w' H.
  apply bind_inv in H as [(e & H & _)|(a & w1 & H & H')]; [by eapply Hm|].
  rewrite (Hk _ _ _ _ H'). by eapply Hm.
Qed.

Lemma leaves_try_catch {A} (m : M A) h :
  Leaves f m -> (forall e, Leaves f (h e)) -> Leaves f (try_catch m h).
Proof.
  intros Hm Hh w r w'. unfold try_catch.
  destruct (m w) as [[a|e] w1] eqn:H.
  - intros [= <- <-]. by eapply Hm.
  - intros H'. rewrite (Hh _ _ _ _ H'). by eapply Hm.
Qed.

Lemma leaves_Date_now : Leaves f (Date_now E).
Proof. intros w r w'. rewrite Date_now_run. intros [= _ <-]. apply view_step. Qed.

Lemma leaves_tick : Leaves f tick.
Proof. intros w r w' [= _ <-]. apply view_step. Qed.

Lemma leaves_console_error msg : Leaves f (console_error msg).
Proof. intros w r w' [= _ <-]. apply view_console. Qed.

Lemma leaves_console_warn msg : Leaves f (console_warn msg).
Proof. intros w r w' [= _ <-]. apply view_console. Qed.

Lemma leaves_fetch req : Leaves f (fetch E req).
Proof.
  intros w r w'. rewrite fetch_run. intros [= _ <-].
  by rewrite view_network, view_step.
Qed.

Lemma leaves_response_json r : Leaves f (response_json r).
Proof. unfold response_json. destruct (json r); [apply leaves_ret|apply leaves_throw]. Qed.

Lemma leaves_tokenFields_of body : Leaves f (tokenFields_of body).
Proof. destruct body; (apply leaves_ret || apply leaves_throw). Qed.

Lemma leaves_getUserTokens u : Leaves f (getUserTokens E u).
Proof.
  intros w r w'. rewrite getUserTokens_run.
  destruct (String.eqb u ""); [intros [= _ <-]; apply view_console|].
  destruct (dbFails E (step w)); intros [= _ <-];
    by rewrite ?view_console, view_step.
Qed.

Lemma leaves_deleteUserTokens u : Leaves f (deleteUserTokens E u).
Proof.
  intros w r w'. rewrite deleteUserTokens_run.
  destruct (String.eqb u ""); [intros [= _ <-]; apply view_console|].
  destruct (dbFails E (step w)); intros [= _ <-];
    by rewrite ?view_console, ?view_tokens, view_step.
Qed.

Lemma leaves_firestore_tokens {A} (g : nat -> World -> A * gmap string DexcomTokens) :
  Leaves f (firestore_op E (fun k w => ((g k w).1, set_dexcomTokens (g k w).2 w))).
Proof.
  intros w r w'. rewrite firestore_op_run.
  destruct (dbFails E (step w)); intros [= _ <-]; cbn [snd];
    by rewrite ?view_tokens, view_step.
Qed.

End Keeping.

Create HintDb leaves.

#[local] Hint Resolve leaves_ret leaves_throw leaves_liftR leaves_Date_now leaves_tick
  leaves_console_error leaves_console_warn leaves_fetch leaves_response_json
  leaves_tokenFields_of leaves_getUserTokens leaves_deleteUserTokens : leaves.

Ltac leaves_step :=
  lazymatch goal with
  | |- Leaves _ (mbind _ _) => apply leaves_bind; [|intro]
  | |- Leaves _ (try_catch _ _) => apply leaves_try_catch; [|intro]
  | |- Leaves _ (if ?b then _ else _) => destruct b
  | |- Leaves _ (match ?x with _ => _ end) => destruct x
  | |- Leaves _ _ => solve [auto with leaves]
  end.
Ltac leaves := repeat leaves_step.

Section KeepingHandlers.

Context (E : Env) {X : Type} (f : World -> X) `{!DataView f}.

Lemma leaves_saveUserTokens userId tokens : Leaves f (saveUserTokens E userId tokens).
Proof.
  unfold saveUserTokens. leaves.
  all: apply (leaves_firestore_tokens E f (fun _ w => (tt, _))).
Qed.

Lemma leaves_refreshAccessToken u rt : Leaves f (refreshAccessToken E u rt).
Proof. unfold refreshAccessToken. leaves. all: apply leaves_saveUserTokens. Qed.

Lemma leaves_ensureFresh u tokens : Leaves f (ensureFresh E u tokens).
Proof. unfold ensureFresh. leaves. apply leaves_refreshAccessToken. Qed.

Lemma leaves_validateState state expected : Leaves f (validateState E state expected).
Proof. unfold validateState. leaves. Qed.

Lemma leaves_generateSecureState u : Leaves f (generateSecureState E u).
Proof. unfold generateSecureState. leaves. Qed.

Lemma leaves_requestedWindow startDate endDate :
  Leaves f (requestedWindow E startDate endDate).
Proof. unfold requestedWindow. leaves. Qed.

Lemma leaves_exchangeAndStore code userId : Leaves f (exchangeAndStore E code userId).
Proof. unfold exchangeAndStore. leaves. all: apply leaves_saveUserTokens. Qed.

Lemma leaves_dexcomOAuthCallback query : Leaves f (dexcomOAuthCallback E query).
Proof.
  unfold dexcomOAuthCallback. leaves.
  - apply leaves_validateState.
  - apply leaves_exchangeAndStore.
Qed.

Lemma leaves_dexcomOAuthStart auth : Leaves f (dexcomOAuthStart E auth).
Proof. unfold dexcomOAuthStart. leaves. apply leaves_generateSecureState. Qed.

Lemma leaves_dexcomConnectionStatus auth : Leaves f (dexcomConnectionStatus E auth).
Proof. unfold dexcomConnectionStatus. leaves. Qed.

Lemma leaves_dexcomRefreshToken auth : Leaves f (dexcomRefreshToken E auth).
Proof. unfold dexcomRefreshToken. leaves. apply leaves_refreshAccessToken. Qed.

Lemma leaves_dexcomDisconnect auth : Leaves f (dexcomDisconnect E auth).
Proof. unfold dexcomDisconnect. leaves. Qed.

Lemma leaves_rawDataTryBlock tokens startTime startDate endDate :
  Leaves f (rawDataTryBlock E tokens startTime startDate endDate).
Proof. unfold rawDataTryBlock. cbv zeta. leaves. apply leaves_requestedWindow. Qed.

Lemma leaves_dexcomTestRawData auth startDate endDate :
  Leaves f (dexcomTestRawData E auth startDate endDate).
Proof.
  unfold dexcomTestRawData. leaves.
  - apply leaves_ensureFresh.
  - apply leaves_rawDataTryBlock.
Qed.

Lemma leaves_testFunction : Leaves f (testFunction E).
Proof. unfold testFunction. cbv zeta. leaves. Qed.

Lemma leaves_testConfig : Leaves f (testConfig E).
Proof. unfold testConfig. cbv zeta. leaves. Qed.

End KeepingHandlers.

(** X20.  Only [dexcomFetchGlucoseData] and the scheduled sweep ever
    touch the stored glucose readings, the rate ledger or the health
    metrics.  Every other handler ([dexcomOAuthStart],
    [dexcomOAuthCallback], [dexcomConnectionStatus],
    [dexcomRefreshToken], [dexcomDisconnect], [dexcomTestRawData],
    [testFunction], [testConfig]) leaves all three exactly as they were,
    whatever its arguments and however it ends; in particular
    [dexcomTestRawData] stores nothing of what it fetches and does not
    count against the rate limit. *)
Theorem credential_handlers_leave_data_alone (E : Env) (w : World) :
  let untouched w' :=
    glucoseReadings w' = glucoseReadings w /\
    rateLimits w' = rateLimits w /\
    healthMetrics w' = healthMetrics w in
  (forall auth, untouched (dexcomOAuthStart E auth w).2) /\
  (forall query, untouched (dexcomOAuthCallback E query w).2) /\
  (forall auth, untouched (dexcomConnectionStatus E auth w).2) /\
  (forall auth, untouched (dexcomRefreshToken E auth w).2) /\
  (forall auth, untouched (dexcomDisconnect E auth w).2) /\
  (forall auth startDate endDate,
      untouched (dexcomTestRawData E auth startDate endDate w).2) /\
  untouched (testFunction E w).2 /\
  untouched (testConfig E w).2.
Proof.
  intros untouched.
  assert (Hall : forall A (m : M A),
            (forall X (f : World -> X), DataView f -> Leaves f m) -> untouched (m w).2).
  { intros A m Hm. unfold untouched.
    repeat split; eapply Hm; try exact _; apply surjective_pairing. }
  split; [intros auth; apply Hall; intros; by apply leaves_dexcomOAuthStart|].
  split; [intros query; apply Hall; intros; by apply leaves_dexcomOAuthCallback|].
  split; [intros auth; apply Hall; intros; by apply leaves_dexcomConnectionStatus|].
  split; [intros auth; apply Hall; intros; by apply leaves_dexcomRefreshToken|].
  split; [intros auth; apply Hall; intros; by apply leaves_dexcomDisconnect|].
  split; [intros auth sd ed; apply Hall; intros; by apply leaves_dexcomTestRawData|].
  split; apply Hall; intros; [by apply leaves_testFunction|by apply leaves_testConfig].
Qed.

(** ** The raw-data test handler *)

Section RawData.

Context (E : Env).

Lemma requestedWindow_run startDate endDate w :
  requestedWindow E startDate endDate w =
    if truthy_str startDate && truthy_str endDate
    then (Ok (parseDate E (default "" startDate), parseDate E (default "" endDate)), w)
    else (Ok (Some (clock E (step w) - 12 * 60 * 60 * 1000), Some (clock E (step w))),
          set_step (S (step w)) w).
Proof.
  unfold requestedWindow. destruct (truthy_str startDate && truthy_str endDate); [done|].
  by rewrite (bind_ok _ _ _ _ _ (Date_now_run E w)).
Qed.

(** The [try] block of the handler, given the window asked for. *)
Lemma rawDataTryBlock_run tokens startTime startDate endDate w3 parsed w3' :
  requestedWindow E startDate endDate w3 = (Ok parsed, w3') ->
  let req := rawDataRequest E (accessToken tokens) parsed in
  let w4 := set_network (network w3' ++ [req]) (set_step (S (step w3')) w3') in
  let w5 := set_step (S (step w4)) w4 in
  rawDataTryBlock E tokens startTime startDate endDate w3 =
    match httpFetch E (step w3') req with
    | NetworkError => (Threw (JsError "fetch failed"), w4)
    | Responded response =>
        if response_ok response
        then match json response with
             | Some body =>
                 (Ok {| rd_success := true;
                        statusCode := status response;
                        rd_responseTime := clock E (step w4) - startTime;
                        rawResponse := body;
                        parsedGlucoseData := glucoseData_of body;
                        dataLength := Z.of_nat (length (glucoseData_of body));
                        rd_sandbox := useSandbox (getDexcomConfig E);
                        dateRange := (formatRawDate E parsed.1, formatRawDate E parsed.2);
                        apiFormat := apiFormat_of body |}, w5)
             | None => (Threw (JsError "SyntaxError: Unexpected token in JSON"), w5)
             end
        else (Threw (HttpsError failed_precondition
                       ("API Error: " +:+ Number_toString (status response))),
              set_console
                (console w5 ++
                 [(LError, "API Error: " +:+ Number_toString (status response) +:+
                           " - " +:+ text response)]) w5)
    end.
Proof.
  intros Hasked req w4 w5. unfold rawDataTryBlock. cbv zeta.
  rewrite (bind_ok _ _ _ _ _ Hasked). fold req.
  unfold mbind at 1, M_bind at 1. rewrite fetch_run. fold w4.
  destruct (httpFetch E (step w3') req) as [|response]; [reflexivity|].
  rewrite (bind_ok _ _ _ _ _ (Date_now_run E w4)). fold w5.
  destruct (response_ok response); cbn [negb]; [|reflexivity].
  unfold response_json. by destruct (json response).
Qed.

Lemma dexcomTestRawData_after_tokens u startDate endDate w tokens w1 current w2 :
  getUserTokens E u w = (Ok (Some tokens), w1) ->
  ensureFresh E u tokens w1 = (Ok current, w2) ->
  dexcomTestRawData E (Some u) startDate endDate w =
    match rawDataTryBlock E current (clock E (step w2)) startDate endDate
            (set_step (S (step w2)) w2) with
    | (Ok r, w') => (Ok r, w')
    | (Threw _, w') =>
        (Threw (HttpsError internal "Failed to fetch test data"),
         set_console
           (console (set_console (console w' ++ [(LError, "Error in test function:")])
                       (set_step (S (step w')) w')) ++ [(LError, "Response time:")])
           (set_console (console w' ++ [(LError, "Error in test function:")])
              (set_step (S (step w')) w')))
    end.
Proof.
  intros Hget Hfresh. unfold dexcomTestRawData.
  rewrite (bind_ok _ _ _ _ _ Hget). cbv beta iota.
  rewrite (bind_ok _ _ _ _ _ Hfresh).
  rewrite (bind_ok _ _ _ _ _ (Date_now_run E w2)).
  unfold try_catch.
  destruct (rawDataTryBlock E current _ startDate endDate _) as [[r|e] w']; [done|].
  by rewrite (bind_ok _ _ _ _ _ (Date_now_run E w')).
Qed.

End RawData.

(** X21.  Once [dexcomTestRawData] holds the tokens, the only error it
    can throw is [internal] "Failed to fetch test data": a network
    failure, a body that is not JSON and also an error status of the
    vendor all end there, the [failed-precondition] "API Error" thrown
    for the status being caught by the handler's own [catch].  When it
    succeeds the vendor has answered with a 2xx status and JSON, and the
    answer echoes the status, the body, the readings read from it
    ([records], else [egvs], else none) and their number.  It sends one
    readings request and does not validate the dates: a date that does
    not parse goes out as "NaN-NaN-NaNTNaN:NaN:NaN". *)
Theorem raw_data_handler (E : Env) (u : string) (startDate endDate : option string)
    (w w1 w2 : World) (tokens current : DexcomTokens) :
  getUserTokens E u w = (Ok (Some tokens), w1) ->
  ensureFresh E u tokens w1 = (Ok current, w2) ->
  let out := dexcomTestRawData E (Some u) startDate endDate w in
  (forall e, out.1 = Threw e -> e = HttpsError internal "Failed to fetch test data") /\
  (forall parsed w3,
      requestedWindow E startDate endDate (set_step (S (step w2)) w2) = (Ok parsed, w3) ->
      let req := rawDataRequest E (accessToken current) parsed in
      network out.2 = network w2 ++ [req] /\
      (forall response,
          httpFetch E (step w3) req = Responded response ->
          response_ok response = false ->
          out.1 = Threw (HttpsError internal "Failed to fetch test data")) /\
      (forall r,
          out.1 = Ok r ->
          exists response body,
            httpFetch E (step w3) req = Responded response /\
            response_ok response = true /\
            json response = Some body /\
            rd_success r = true /\
            statusCode r = status response /\
            rawResponse r = body /\
            parsedGlucoseData r = glucoseData_of body /\
            dataLength r = Z.of_nat (length (glucoseData_of body)))) /\
  (forall s e,
      startDate = Some s -> endDate = Some e -> s <> "" -> e <> "" ->
      parseDate E s = None ->
      exists req,
        network out.2 = network w2 ++ [req] /\
        req_params req =
          [("startDate", "NaN-NaN-NaNTNaN:NaN:NaN");
           ("endDate", formatRawDate E (parseDate E e))]).
Proof.
  intros Hget Hfresh out. subst out.
  rewrite (dexcomTestRawData_after_tokens E u startDate endDate w tokens w1 current w2
             Hget Hfresh).
  assert (Hmain : forall parsed w3,
    requestedWindow E startDate endDate (set_step (S (step w2)) w2) = (Ok parsed, w3) ->
    network w3 = network w2).
  { intros parsed w3. rewrite requestedWindow_run.
    destruct (truthy_str startDate && truthy_str endDate); by intros [= _ <-]. }
  split; [|split].
  - intros e. destruct (rawDataTryBlock E current _ startDate endDate _) as [[r|e'] w'];
      [done|by intros [= <-]].
  - intros parsed w3 Hasked req. pose proof (Hmain _ _ Hasked) as Hnet.
    rewrite (rawDataTryBlock_run E current _ startDate endDate _ parsed w3 Hasked).
    fold req. cbv zeta.
    destruct (httpFetch E (step w3) req) as [|response] eqn:Hv.
    { cbn. rewrite Hnet. split; [done|]. split; [by intros ? [=]|by intros ? [=]]. }
    destruct (response_ok response) eqn:Hok; [destruct (json response) as [body|] eqn:Hj|].
    + cbn. rewrite Hnet. split; [done|]. split; [by intros ? [= <-]; congruence|].
      intros r [= <-]. by exists response, body.
    + cbn. rewrite Hnet. split; [done|]. split; [done|by intros ? [=]].
    + cbn. rewrite Hnet. split; [done|]. split; [done|by intros ? [=]].
  - intros s e -> -> Hs He Hparse.
    assert (Hasked : requestedWindow E (Some s) (Some e) (set_step (S (step w2)) w2) =
                       (Ok (None, parseDate E e), set_step (S (step w2)) w2)).
    { rewrite requestedWindow_run. cbn [truthy_str].
      apply String.eqb_neq in Hs, He. rewrite Hs, He. cbn. by rewrite Hparse. }
    rewrite (rawDataTryBlock_run E current _ _ _ _ _ _ Hasked). cbv zeta.
    exists (rawDataRequest E (accessToken current) (None, parseDate E e)).
    split; [|reflexivity].
    destruct (httpFetch E _ _) as [|response]; [reflexivity|].
    destruct (response_ok response); [|reflexivity].
    by destruct (json response).
Qed.

Lemma raw_data_handler_witness :
  let E := Demo.env DEXCOM_API_CONFIG Demo.noon
             (fun _ _ => Responded {| status := 503; text := "maintenance"; json := None |})
             Demo.healthy in
  (dexcomTestRawData E (Some "u1") None None (Demo.connected 1704240000000)).1 =
    Threw (HttpsError internal "Failed to fetch test data").
Proof.
  intros E.
  set (w := Demo.connected 1704240000000).
  set (w1 := (getUserTokens E "u1" w).2).
  set (w2 := (ensureFresh E "u1" (Demo.userTokens 1704240000000) w1).2).
  assert (Hget : getUserTokens E "u1" w = (Ok (Some (Demo.userTokens 1704240000000)), w1))
    by (apply outcome_eta; reflexivity).
  assert (Hfresh : ensureFresh E "u1" (Demo.userTokens 1704240000000) w1 =
                     (Ok (Demo.userTokens 1704240000000), w2))
    by (apply outcome_eta; vm_compute; reflexivity).
  destruct (proj1 (proj2 (raw_data_handler E "u1" None None w w1 w2 _ _ Hget Hfresh))
              _ _ (outcome_eta _ _ eq_refl)) as (_ & Hstatus & _).
  eapply Hstatus; [reflexivity|vm_compute; reflexivity].
Defined.

(** ** The OAuth callback *)

Section CallbackRun.

Context (E : Env).

Lemma frontendUrl_nonempty : frontendUrl (getDexcomConfig E) <> "".
Proof.
  assert (Hurl : forall s d, d <> "" -> or_default s d <> "").
  { intros [s|] d Hd; unfold or_default; cbn; [|done].
    destruct (String.eqb_spec s ""); cbn; done. }
  unfold getDexcomConfig. destruct (_ && _); by apply Hurl.
Qed.

Lemma or_default_frontendUrl d :
  or_default (Some (frontendUrl (getDexcomConfig E))) d = frontendUrl (getDexcomConfig E).
Proof.
  unfold or_default. cbn [truthy_str].
  pose proof frontendUrl_nonempty as H. apply String.eqb_neq in H. by rewrite H.
Qed.

Lemma validateState_total state expected w :
  exists v, (validateState E state expected w).1 = Ok v.
Proof.
  unfold validateState, try_catch.
  match goal with |- context [?m w] => destruct (m w) as [[v|e] w'] end; by eexists.
Qed.

Lemma validateState_network state expected w :
  network (validateState E state expected w).2 = network w /\
  dexcomTokens (validateState E state expected w).2 = dexcomTokens w.
Proof.
  split.
  - apply (preserves_validateState E sameNetwork state expected w _ _ (surjective_pairing _)).
  - apply (preserves_validateState E sameTokens state expected w _ _ (surjective_pairing _)).
Qed.

(** One line on the console. *)
Lemma console_error_run msg w :
  console_error msg w = (Ok tt, set_console (console w ++ [(LError, msg)]) w).
Proof. reflexivity. Qed.

(** The exchange, as a function of what the vendor answers and of how
    the save ends. *)
Lemma exchangeAndStore_run code userId w :
  let config := getDexcomConfig E in
  let req := authorizationCodeRequest E code in
  let w1 := set_network (network w ++ [req]) (set_step (S (step w)) w) in
  let w2 := set_step (S (S (step w1))) (set_step (S (step w1)) w1) in
  exchangeAndStore E code userId w =
    match httpFetch E (step w) req with
    | NetworkError => (Threw (JsError "fetch failed"), w1)
    | Responded resp =>
        if response_ok resp
        then match json resp with
             | Some (TokenBody a r x) =>
                 match saveUserTokens E userId
                         {| tf_accessToken := a; tf_refreshToken := r;
                            tf_expiresAt := clock E (step w1) + x * 1000;
                            tf_refreshTokenCreatedAt := clock E (S (step w1)) |} w2 with
                 | (Ok _, w3) => (Ok (frontendUrl config +:+ "/dexcom?success=true"), w3)
                 | (Threw _, w3) =>
                     (Ok (frontendUrl config +:+ "/dexcom?success=true"),
                      set_console (console w3 ++ [(LError, "Firestore save failed:")]) w3)
                 end
             | Some _ => (Threw (JsError "token response without tokens"), w1)
             | None => (Threw (JsError "SyntaxError: Unexpected token in JSON"), w1)
             end
        else (Ok (frontendUrl config +:+ "/dexcom?error=token_exchange_failed"),
              set_console
                (console w1 ++
                 [(LError, "Token exchange failed: " +:+
                           err_message (handleDexcomError resp))]) w1)
    end.
Proof.
  intros config req w1 w2. unfold exchangeAndStore. fold config req.
  unfold mbind at 1, M_bind at 1. rewrite fetch_run. fold w1.
  destruct (httpFetch E (step w) req) as [|resp]; [reflexivity|].
  destruct (response_ok resp); cbn [negb]; [|reflexivity].
  unfold response_json.
  destruct (json resp) as [[a r x| | |]|]; try reflexivity.
  unfold mbind at 1, M_bind at 1, mret at 1, M_ret at 1. cbn [tokenFields_of].
  unfold mbind at 1, M_bind at 1, mret at 1, M_ret at 1.
  rewrite (bind_ok _ _ _ _ _ (Date_now_run E w1)).
  rewrite (bind_ok _ _ _ _ _ (Date_now_run E _)). cbn [step set_step].
  unfold mbind at 1, M_bind at 1, try_catch.
  change (set_step (S (S (step w1))) (set_step (S (step w1)) w1)) with w2.
  by destruct (saveUserTokens E userId _ w2) as [[[]|e] w3].
Qed.

(** The callback as a decision tree. *)
Lemma dexcomOAuthCallback_run query w :
  let config := getDexcomConfig E in
  let log msg w := set_console (console w ++ [(LError, msg)]) w in
  let failed w :=
    (Ok (frontendUrl config +:+ "/dexcom?error=internal_error"),
     log "Error details:" (log "Error in OAuth callback:" w)) in
  dexcomOAuthCallback E query w =
    if negb (truthy_str (clientId config)) ||
       negb (truthy_str (clientSecret config)) ||
       negb (truthy_str (redirectUri config))
    then (Ok (frontendUrl config +:+ "/dexcom?error=configuration_error"),
          log "Missing Dexcom configuration:" w)
    else if truthy_str (q_error query)
    then (Ok (frontendUrl config +:+ "/dexcom?error=" +:+
              encodeURIComponent E (default "" (q_error query))),
          log "OAuth error:" w)
    else if negb (truthy_str (q_code query)) || negb (truthy_str (q_state query))
    then (Ok (frontendUrl config +:+ "/dexcom?error=missing_parameters"),
          log "Missing code or state" w)
    else
      match JSON.parse (Base64.decode (default "" (q_state query))) with
      | None =>
          (Ok (frontendUrl config +:+ "/dexcom?error=invalid_state"),
           log "Invalid state parameter format" w)
      | Some stateData =>
          match get_property stateData "userId" with
          | Threw _ => failed w
          | Ok userId =>
              if negb (truthy userId)
              then (Ok (frontendUrl config +:+ "/dexcom?error=invalid_state"),
                    log "No userId in state" w)
              else
                match validateState E (default "" (q_state query)) userId w with
                | (Threw _, w1) => failed w1
                | (Ok validation, w1) =>
                    if negb (valid validation)
                    then (Ok (frontendUrl config +:+ "/dexcom?error=invalid_state"),
                          log "State validation failed:" w1)
                    else
                      match exchangeAndStore E (default "" (q_code query)) userId w1 with
                      | (Ok url, w2) => (Ok url, w2)
                      | (Threw _, w2) => failed w2
                      end
                end
          end
      end.
Proof.
  intros config log failed. unfold dexcomOAuthCallback, try_catch. fold config.
  destruct (negb _ || negb _ || negb _).
  { by rewrite or_default_frontendUrl. }
  destruct (truthy_str (q_error query)); [reflexivity|].
  destruct (negb _ || negb _); [reflexivity|].
  destruct (JSON.parse _) as [stateData|]; [|reflexivity].
  unfold mbind at 1, M_bind at 1, liftR.
  destruct (get_property stateData "userId") as [userId|e]; [|reflexivity].
  destruct (negb (truthy userId)); [reflexivity|].
  unfold mbind at 1, M_bind at 1.
  destruct (validateState E _ userId w) as [[validation|e] w1]; [|reflexivity].
  destruct (negb (valid validation)); [reflexivity|].
  by destruct (exchangeAndStore E _ userId w1) as [[url|e] w2].
Qed.

Lemma saveUserTokens_frames userId tokens w :
  network (saveUserTokens E userId tokens w).2 = network w.
Proof.
  apply (preserves_saveUserTokens E sameNetwork userId tokens (fun _ _ => eq_refl)
           w _ _ (surjective_pairing _)).
Qed.

Lemma saveUserTokens_string userId tokens w w' :
  saveUserTokens E userId tokens w = (Ok tt, w') -> exists u, userId = Some (JStr u).
Proof.
  unfold saveUserTokens, try_catch.
  destruct userId as [[]|]; try (by eexists);
    intros H; exfalso; revert H;
    destruct (tf_refreshTokenCreatedAt tokens =? 0);
    unfold mbind, M_bind, mret, M_ret, Date_now, tick, liftR; cbn; done.
Qed.

End CallbackRun.

(** X22.  [dexcomOAuthCallback] never throws: it always answers with a
    redirect to the front-end URL of the configuration, to [/dexcom?]
    followed by one of [error=configuration_error], [error=] and the
    encoded error of the query, [error=missing_parameters],
    [error=invalid_state], [error=token_exchange_failed],
    [error=internal_error] or [success=true]; the fallback to
    [http://localhost:5173] is never used, the front-end URL never being
    empty.  The first three are decided in this order: an incomplete
    configuration, then an error parameter in the query (whatever else
    the query holds), then a missing code or state. *)
Theorem callback_always_redirects (E : Env) (query : CallbackQuery) (w : World) :
  let config := getDexcomConfig E in
  let complete :=
    truthy_str (clientId config) && truthy_str (clientSecret config) &&
    truthy_str (redirectUri config) in
  let vendorError :=
    frontendUrl config +:+ "/dexcom?error=" +:+
    encodeURIComponent E (default "" (q_error query)) in
  exists url,
    (dexcomOAuthCallback E query w).1 = Ok url /\
    (url = frontendUrl config +:+ "/dexcom?error=configuration_error" \/
     url = vendorError \/
     url = frontendUrl config +:+ "/dexcom?error=missing_parameters" \/
     url = frontendUrl config +:+ "/dexcom?error=invalid_state" \/
     url = frontendUrl config +:+ "/dexcom?error=token_exchange_failed" \/
     url = frontendUrl config +:+ "/dexcom?error=internal_error" \/
     url = frontendUrl config +:+ "/dexcom?success=true") /\
    (complete = false ->
     url = frontendUrl config +:+ "/dexcom?error=configuration_error") /\
    (complete = true -> truthy_str (q_error query) = true -> url = vendorError) /\
    (complete = true -> truthy_str (q_error query) = false ->
     truthy_str (q_code query) && truthy_str (q_state query) = false ->
     url = frontendUrl config +:+ "/dexcom?error=missing_parameters").
Proof.
  intros config complete vendorError.
  rewrite dexcomOAuthCallback_run. fold config. cbv zeta.
  assert (Hc : negb (truthy_str (clientId config)) ||
               negb (truthy_str (clientSecret config)) ||
               negb (truthy_str (redirectUri config)) = negb complete).
  { unfold complete.
    by destruct (truthy_str (clientId config)), (truthy_str (clientSecret config)),
         (truthy_str (redirectUri config)). }
  rewrite Hc. clear Hc.
  destruct complete; cbn [negb].
  2: { eexists. split; [reflexivity|]. split; [by left|]. by repeat split. }
  destruct (truthy_str (q_error query)).
  { eexists. split; [reflexivity|]. split; [by right; left|]. by repeat split. }
  assert (Hm : negb (truthy_str (q_code query)) || negb (truthy_str (q_state query)) =
               negb (truthy_str (q_code query) && truthy_str (q_state query))).
  { by destruct (truthy_str (q_code query)), (truthy_str (q_state query)). }
  rewrite Hm. clear Hm.
  destruct (truthy_str (q_code query) && truthy_str (q_state query)); cbn [negb].
  2: { eexists. split; [reflexivity|]. split; [by right; right; left|]. by repeat split. }
  assert (Hrest : forall out : Result string * World,
    (exists url, out.1 = Ok url /\
       (url = frontendUrl config +:+ "/dexcom?error=invalid_state" \/
        url = frontendUrl config +:+ "/dexcom?error=token_exchange_failed" \/
        url = frontendUrl config +:+ "/dexcom?error=internal_error" \/
        url = frontendUrl config +:+ "/dexcom?success=true")) ->
    exists url, out.1 = Ok url /\
      (url = frontendUrl config +:+ "/dexcom?error=configuration_error" \/
       url = vendorError \/
       url = frontendUrl config +:+ "/dexcom?error=missing_parameters" \/
       url = frontendUrl config +:+ "/dexcom?error=invalid_state" \/
       url = frontendUrl config +:+ "/dexcom?error=token_exchange_failed" \/
       url = frontendUrl config +:+ "/dexcom?error=internal_error" \/
       url = frontendUrl config +:+ "/dexcom?success=true") /\
      (true = false ->
       url = frontendUrl config +:+ "/dexcom?error=configuration_error") /\
      (true = true -> false = true -> url = vendorError) /\
      (true = true -> false = false -> true = false ->
       url = frontendUrl config +:+ "/dexcom?error=missing_parameters")).
  { intros out (url & Hout & Hurl). exists url. split; [done|].
    split; [tauto|]. by repeat split. }
  apply Hrest.
  destruct (JSON.parse _) as [stateData|]; [|by eexists; split; [reflexivity|left]].
  destruct (get_property stateData "userId") as [userId|e];
    [|by eexists; split; [reflexivity|right; right; left]].
  destruct (negb (truthy userId)); [by eexists; split; [reflexivity|left]|].
  destruct (validateState E _ userId w) as [[validation|e] w1];
    [|by eexists; split; [reflexivity|right; right; left]].
  destruct (negb (valid validation)); [by eexists; split; [reflexivity|left]|].
  rewrite exchangeAndStore_run. fold config. cbv zeta.
  destruct (httpFetch E _ _) as [|resp];
    [by eexists; split; [reflexivity|right; right; left]|].
  destruct (response_ok resp);
    [|by eexists; split; [reflexivity|right; left]].
  destruct (json resp) as [[a r x| | |]|];
    try (by eexists; split; [reflexivity|right; right; left]).
  destruct (saveUserTokens E userId _ _) as [[[]|e] w3];
    by eexists; split; [reflexivity|right; right; right].
Qed.

Lemma callback_always_redirects_witness :
  let E := Demo.env DEXCOM_API_CONFIG Demo.noon Demo.granting Demo.healthy in
  let query := {| q_code := Some "code-1"; q_state := Some Demo.stateToken;
                  q_error := Some "access_denied" |} in
  (dexcomOAuthCallback E query Demo.w0).1 =
    Ok "https://app.example.test/dexcom?error=access_denied".
Proof.
  intros E query.
  destruct (callback_always_redirects E query Demo.w0)
    as (url & Hrun & _ & _ & Herr & _).
  rewrite Hrun. f_equal. exact (Herr eq_refl eq_refl).
Defined.

(** X23.  [dexcomOAuthCallback] contacts the vendor only on a query
    without an error parameter, with a code, and with a state that
    decodes and that [validateState] accepts for the user id it names;
    it then sends one request, the authorization-code exchange of that
    code.  In every other case it sends nothing and leaves the
    credential records alone.  The only record it can write is the one
    of the user id named by the state, stored under that id. *)
Theorem callback_exchanges_only_for_valid_state (E : Env) (query : CallbackQuery)
    (w : World) :
  let out := dexcomOAuthCallback E query w in
  (network out.2 = network w /\ dexcomTokens out.2 = dexcomTokens w) \/
  (exists code state stateData userId validation,
      q_code query = Some code /\ code <> "" /\
      q_state query = Some state /\
      truthy_str (q_error query) = false /\
      JSON.parse (Base64.decode state) = Some stateData /\
      get_property stateData "userId" = Ok userId /\
      truthy userId = true /\
      (validateState E state userId w).1 = Ok validation /\
      valid validation = true /\
      network out.2 = network w ++ [authorizationCodeRequest E code] /\
      (dexcomTokens out.2 = dexcomTokens w \/
       exists u d,
         userId = Some (JStr u) /\ tk_userId d = u /\
         dexcomTokens out.2 = <[u := d]> (dexcomTokens w))).
Proof.
  intros out. subst out. rewrite dexcomOAuthCallback_run. cbv zeta.
  destruct (negb _ || negb _ || negb _); [by left|].
  destruct (truthy_str (q_error query)) eqn:Herr; [by left|].
  destruct (q_code query) as [code|] eqn:Hcode; [|by left].
  destruct (q_state query) as [state|] eqn:Hstate;
    [|rewrite orb_true_r; by left].
  cbn [truthy_str default]. unfold id.
  destruct (String.eqb_spec code "") as [|Hne]; [by left|].
  destruct (String.eqb state ""); [by left|]. cbn [negb orb].
  destruct (JSON.parse (Base64.decode state)) as [stateData|] eqn:Hparse; [|by left].
  destruct (get_property stateData "userId") as [userId|e] eqn:Hprop; [|by left].
  destruct (truthy userId) eqn:Htruthy; [|by left]. cbn [negb].
  pose proof (validateState_network E state userId w) as [Hvn Hvt].
  destruct (validateState E state userId w) as [[validation|e] w1] eqn:Hv; [|by left].
  cbn [snd] in Hvn, Hvt.
  destruct (valid validation) eqn:Hvalid; [|by left]. cbn [negb].
  right. exists code, state, stateData, userId, validation.
  do 7 (split; [done|]). split; [by rewrite Hv|]. split; [done|].
  rewrite exchangeAndStore_run. cbv zeta.
  destruct (httpFetch E _ _) as [|resp]; [cbn; rewrite Hvn, Hvt; by split; [|left]|].
  destruct (response_ok resp); [|cbn; rewrite Hvn, Hvt; by split; [|left]].
  destruct (json resp) as [[a r x| | |]|];
    try (cbn; rewrite Hvn, Hvt; by split; [|left]).
  match goal with |- context [saveUserTokens E userId ?t ?w2] =>
    pose proof (saveUserTokens_frames E userId t w2) as Hsn;
    destruct (saveUserTokens E userId t w2) as [[[]|e] w3] eqn:Hsave
  end; cbn [snd] in Hsn; cbn [snd network set_console dexcomTokens].
  - rewrite Hsn. cbn [network set_step set_network]. rewrite Hvn. split; [done|].
    right. destruct (saveUserTokens_string E _ _ _ _ Hsave) as [u ->].
    apply saveUserTokens_ok in Hsave as (_ & created & refreshed & _ & _ & Hst & _).
    eexists u, _. split; [done|]. split; [|rewrite Hst; cbn; by rewrite Hvt]. done.
  - rewrite Hsn. cbn [network set_step set_network]. rewrite Hvn. split; [done|].
    left. apply saveUserTokens_threw in Hsave. rewrite Hsave. cbn. by rewrite Hvt.
Qed.

(** ** State tokens, whoever builds them *)

Section MintedState.

Context (E : Env).

Lemma encode_nonempty a s : Base64.encode (String a s) <> "".
Proof. destruct s as [|b [|c s]]; discriminate. Qed.

Lemma stringify_state_nonempty u issued nonce :
  exists a s, JSON.stringify_state u issued nonce = String a s.
Proof. unfold JSON.stringify_state. by eexists _, _. Qed.

Lemma state_token_nonempty u issued nonce :
  Base64.encode (JSON.stringify_state u issued nonce) <> "".
Proof.
  destruct (stringify_state_nonempty u issued nonce) as (a & s & ->).
  apply encode_nonempty.
Qed.

(** What [validateState] answers on a token built from three fields. *)
Lemma validateState_minted u issued nonce expected w :
  (validateState E (Base64.encode (JSON.stringify_state u issued nonce)) expected w).1 =
    if String.eqb u "" || (issued =? 0) || String.eqb nonce ""
    then Ok {| valid := false; reason := Some "Missing required state fields" |}
    else if negb (strict_eq (Some (JStr u)) expected)
    then Ok {| valid := false; reason := Some "User ID mismatch" |}
    else if clock E (step w) - issued >? 60 * 60 * 1000
    then Ok {| valid := false; reason := Some "State parameter expired" |}
    else Ok {| valid := true; reason := None |}.
Proof.
  rewrite (validateState_object E _ _ _ _ (decode_state_token _ _ _)).
  cbn [lookup_field String.eqb Ascii.eqb Bool.eqb]. cbn [truthy].
  rewrite !negb_involutive.
  destruct (String.eqb u "" || (issued =? 0) || String.eqb nonce ""); [reflexivity|].
  destruct (negb (strict_eq (Some (JStr u)) expected)); [reflexivity|].
  unfold stateAge_exceeds, age_exceeds. cbn [Z.leb Z.compare Z.pow].
  by rewrite Z.mul_1_r.
Qed.

Lemma is_hex_byte b :
  is_hex (JSON.hex_digit (N_of_ascii b / 16)) &&
  is_hex (JSON.hex_digit (N_of_ascii b mod 16)) = true.
Proof. destruct b as [[] [] [] [] [] [] [] []]; reflexivity. Qed.

Lemma hex_of_bytes_hex l :
  all_chars is_hex (hex_of_bytes l) = true /\
  String.length (hex_of_bytes l) = (2 * length l)%nat.
Proof.
  induction l as [|b l [IH1 IH2]]; [done|].
  cbn [hex_of_bytes all_chars String.length length].
  pose proof (is_hex_byte b) as Hb. apply andb_true_iff in Hb as [-> ->].
  rewrite IH1, IH2. split; [done|lia].
Qed.

Lemma dexcomOAuthStart_run u w :
  dexcomOAuthStart E (Some u) w =
    let config := getDexcomConfig E in
    if negb (truthy_str (clientId config)) || negb (truthy_str (redirectUri config))
    then (Threw (HttpsError failed_precondition "Dexcom API credentials not configured"), w)
    else (Ok (authUrl E config
                (Base64.encode
                   (JSON.stringify_state u (clock E (S (step w)))
                      (hex_of_bytes (map (randomByte E (step w)) (seq 0 16)))))),
          set_step (S (S (step w))) w).
Proof.
  unfold dexcomOAuthStart. cbv zeta.
  destruct (negb _ || negb _); [reflexivity|].
  by rewrite (bind_ok _ _ _ _ _ (generateSecureState_run E u w)).
Qed.

End MintedState.

(** X24.  [generateSecureState] draws sixteen random bytes once and
    reads the clock once, and changes nothing else.  The token it
    returns decodes, from base64 and then from JSON, to an object of
    exactly three fields: the user id given, the clock reading, and a
    nonce of 32 lower-case hexadecimal digits, the sixteen bytes
    drawn. *)
Theorem generateSecureState_token (E : Env) (u : string) (w : World) :
  let nonce := hex_of_bytes (map (randomByte E (step w)) (seq 0 16)) in
  exists token,
    generateSecureState E u w = (Ok token, set_step (S (S (step w))) w) /\
    JSON.parse (Base64.decode token) =
      Some (JObj [("userId", JStr u); ("timestamp", JNum (clock E (S (step w))) 0);
                  ("nonce", JStr nonce)]) /\
    String.length nonce = 32%nat /\
    all_chars is_hex nonce = true /\
    token <> "".
Proof.
  intros nonce. eexists. split; [apply generateSecureState_run|].
  split; [apply decode_state_token|].
  destruct (hex_of_bytes_hex (map (randomByte E (step w)) (seq 0 16))) as [Hhex Hlen].
  split; [unfold nonce; by rewrite Hlen, length_map, length_seq|].
  split; [exact Hhex|]. apply state_token_nonempty.
Qed.

(** X25.  [validateState] looks at the content of the token only.  Any
    token that encodes a user id that is not empty, a timestamp that is
    not 0 and a nonce that is not empty is valid for that user id until
    more than an hour after the timestamp, whoever built it and whatever
    the nonce: nothing ties it to a token that was issued.  The callback
    takes the expected user id from the token itself, so it goes on to
    the exchange on any such token; and for a token whose user id is a
    string, the validation it runs never fails with "User ID
    mismatch". *)
Theorem state_is_not_authenticated (E : Env) (u nonce : string) (issued : Z) (w : World) :
  u <> "" ->
  nonce <> "" ->
  issued <> 0 ->
  clock E (step w) - issued <= 60 * 60 * 1000 ->
  let state := Base64.encode (JSON.stringify_state u issued nonce) in
  let config := getDexcomConfig E in
  (validateState E state (Some (JStr u)) w).1 = Ok {| valid := true; reason := None |} /\
  (forall code,
      code <> "" ->
      truthy_str (clientId config) && truthy_str (clientSecret config)
        && truthy_str (redirectUri config) = true ->
      let query := {| q_code := Some code; q_state := Some state; q_error := None |} in
      network (dexcomOAuthCallback E query w).2 =
        network w ++ [authorizationCodeRequest E code]) /\
  (forall token fields s w',
      JSON.parse (Base64.decode token) = Some (JObj fields) ->
      lookup_field "userId" fields = Some (JStr s) ->
      (validateState E token (Some (JStr s)) w').1 <>
        Ok {| valid := false; reason := Some "User ID mismatch" |}).
Proof.
  intros Hu Hnonce Hissued Hage state config.
  assert (Hvalid : (validateState E state (Some (JStr u)) w).1 =
                     Ok {| valid := true; reason := None |}).
  { unfold state. rewrite validateState_minted.
    apply String.eqb_neq in Hu, Hnonce. apply Z.eqb_neq in Hissued.
    rewrite Hu, Hnonce, Hissued. cbn [orb strict_eq]. rewrite String.eqb_refl.
    cbn [negb]. destruct (Z.gtb_spec (clock E (step w) - issued) (60 * 60 * 1000));
      [lia|done]. }
  split; [exact Hvalid|]. split.
  - intros code Hcode Hcomplete query. subst query.
    rewrite dexcomOAuthCallback_run. fold config. cbv zeta.
    apply andb_true_iff in Hcomplete as [Hc Hc3].
    apply andb_true_iff in Hc as [Hc1 Hc2].
    rewrite Hc1, Hc2, Hc3. cbn [negb orb q_error q_code q_state truthy_str default].
    unfold id.
    apply String.eqb_neq in Hcode. rewrite Hcode.
    pose proof (state_token_nonempty u issued nonce) as Hstate.
    apply String.eqb_neq in Hstate. fold state in Hstate. rewrite Hstate.
    cbn [negb orb]. unfold state at 1. rewrite decode_state_token.
    cbn [get_property lookup_field String.eqb Ascii.eqb Bool.eqb truthy].
    apply String.eqb_neq in Hu. rewrite Hu. cbn [negb].
    pose proof (validateState_network E state (Some (JStr u)) w) as [Hvn _].
    destruct (validateState E state (Some (JStr u)) w) as [[validation|e] w1];
      [|discriminate Hvalid].
    cbn [fst snd] in Hvalid, Hvn. injection Hvalid as ->. cbn [valid negb].
    rewrite exchangeAndStore_run. cbv zeta.
    destruct (httpFetch E _ _) as [|resp]; [cbn; by rewrite Hvn|].
    destruct (response_ok resp); [|cbn; by rewrite Hvn].
    destruct (json resp) as [[a r x| | |]|]; try (cbn; by rewrite Hvn).
    match goal with |- context [saveUserTokens E ?i ?t ?w2] =>
      pose proof (saveUserTokens_frames E i t w2) as Hsn;
      destruct (saveUserTokens E i t w2) as [[[]|e] w3]
    end; cbn [snd] in Hsn; cbn [snd network set_console];
      rewrite Hsn; cbn [network set_step set_network]; by rewrite Hvn.
  - intros token fields s w' Hparse Hfield.
    rewrite (validateState_object E _ _ _ _ Hparse). cbv zeta. rewrite Hfield.
    cbn [strict_eq]. rewrite String.eqb_refl. cbn [negb].
    destruct (negb _ || negb _ || negb _); [discriminate|].
    destruct (stateAge_exceeds E _ _); discriminate.
Qed.

Lemma state_is_not_authenticated_witness :
  let E := Demo.env DEXCOM_API_CONFIG Demo.noon Demo.granting Demo.healthy in
  let forged := Base64.encode (JSON.stringify_state "u1" 1704196800000 "x") in
  (validateState E forged (Some (JStr "u1")) Demo.w0).1 =
    Ok {| valid := true; reason := None |}.
Proof.
  intros E forged.
  apply (state_is_not_authenticated E "u1" "x" 1704196800000 Demo.w0);
    [discriminate|discriminate|discriminate|vm_compute; discriminate].
Defined.

Section OAuthFlow.

Context (E : Env).

(** The world [validateState] ends in: the clock is read only when the
    fields are there and the user id matches. *)
Lemma validateState_object_run state expected fields w :
  JSON.parse (Base64.decode state) = Some (JObj fields) ->
  validateState E state expected w =
    ((validateState E state expected w).1,
     if negb (truthy (lookup_field "userId" fields)) ||
        negb (truthy (lookup_field "timestamp" fields)) ||
        negb (truthy (lookup_field "nonce" fields)) ||
        negb (strict_eq (lookup_field "userId" fields) expected)
     then w else set_step (S (step w)) w).
Proof.
  intros Hparse. unfold validateState, Date_now. rewrite Hparse.
  unfold_M. cbn [get_property]. cbn zeta.
  destruct (negb _ || negb _ || negb _); [reflexivity|].
  destruct (negb (strict_eq _ _)); [reflexivity|].
  cbn [step orb]. by destruct (stateAge_exceeds _ _ _).
Qed.

Lemma callback_on_minted_state u issued nonce code w :
  let config := getDexcomConfig E in
  let state := Base64.encode (JSON.stringify_state u issued nonce) in
  truthy_str (clientId config) && truthy_str (clientSecret config)
    && truthy_str (redirectUri config) = true ->
  u <> "" -> nonce <> "" -> issued <> 0 -> code <> "" ->
  clock E (step w) - issued <= 60 * 60 * 1000 ->
  dexcomOAuthCallback E {| q_code := Some code; q_state := Some state; q_error := None |} w =
    match exchangeAndStore E code (Some (JStr u)) (set_step (S (step w)) w) with
    | (Ok url, w2) => (Ok url, w2)
    | (Threw _, w2) =>
        (Ok (frontendUrl config +:+ "/dexcom?error=internal_error"),
         set_console
           (console (set_console (console w2 ++ [(LError, "Error in OAuth callback:")]) w2)
            ++ [(LError, "Error details:")])
           (set_console (console w2 ++ [(LError, "Error in OAuth callback:")]) w2))
    end.
Proof.
  intros config state Hcomplete Hu Hnonce Hissued Hcode Hage.
  rewrite dexcomOAuthCallback_run. fold config. cbv zeta.
  apply andb_true_iff in Hcomplete as [Hc Hc3].
  apply andb_true_iff in Hc as [Hc1 Hc2].
  rewrite Hc1, Hc2, Hc3. cbn [negb orb q_error q_code q_state truthy_str default].
  unfold id.
  pose proof Hcode as Hcode'. apply String.eqb_neq in Hcode'. rewrite Hcode'.
  pose proof (state_token_nonempty u issued nonce) as Hstate.
  apply String.eqb_neq in Hstate. fold state in Hstate. rewrite Hstate.
  cbn [negb orb]. unfold state at 1. rewrite decode_state_token.
  cbn [get_property lookup_field String.eqb Ascii.eqb Bool.eqb truthy].
  pose proof Hu as Hu'. apply String.eqb_neq in Hu'. rewrite Hu'. cbn [negb].
  rewrite (validateState_object_run state (Some (JStr u)) _ w (decode_state_token _ _ _)).
  unfold state at 1. rewrite validateState_minted.
  cbn [lookup_field String.eqb Ascii.eqb Bool.eqb truthy strict_eq].
  apply String.eqb_neq in Hnonce. apply Z.eqb_neq in Hissued.
  rewrite Hu', Hnonce, Hissued, String.eqb_refl. cbn [negb orb].
  destruct (Z.gtb_spec (clock E (step w) - issued) (60 * 60 * 1000)); [lia|].
  cbn [valid negb]. reflexivity.
Qed.

End OAuthFlow.

(** X26.  The state that [dexcomOAuthStart] puts in the login URL of a
    user takes that user through the callback.  With a complete
    configuration, a user id that is not empty and a clock that does not
    read 0 at issuance: when the callback receives that state and a code
    within the hour, the vendor answers the exchange with tokens and the
    save goes through, the callback redirects to [success=true] and the
    credential record of that user then holds the vendor's access token
    and refresh token and an expiry of the clock reading plus
    [expires_in] seconds. *)
Theorem oauth_flow_round_trip (E : Env) (u code : string) (w wc : World) :
  let config := getDexcomConfig E in
  let issued := clock E (S (step w)) in
  u <> "" ->
  code <> "" ->
  truthy_str (clientId config) && truthy_str (clientSecret config)
    && truthy_str (redirectUri config) = true ->
  issued <> 0 ->
  clock E (step wc) - issued <= 60 * 60 * 1000 ->
  exists state,
    (dexcomOAuthStart E (Some u) w).1 = Ok (authUrl E config state) /\
    forall response a r x w2 w3,
      fetch E (authorizationCodeRequest E code) (set_step (S (step wc)) wc)
        = (Ok response, w2) ->
      response_ok response = true ->
      json response = Some (TokenBody a r x) ->
      saveUserTokens E (Some (JStr u))
        {| tf_accessToken := a; tf_refreshToken := r;
           tf_expiresAt := clock E (step w2) + x * 1000;
           tf_refreshTokenCreatedAt := clock E (S (step w2)) |}
        (set_step (S (S (step w2))) w2) = (Ok tt, w3) ->
      dexcomOAuthCallback E
        {| q_code := Some code; q_state := Some state; q_error := None |} wc =
        (Ok (frontendUrl config +:+ "/dexcom?success=true"), w3) /\
      exists d,
        dexcomTokens w3 !! u = Some d /\
        tk_userId d = u /\
        accessToken d = a /\
        refreshToken d = r /\
        expiresAt d = clock E (step w2) + x * 1000.
Proof.
  intros config issued Hu Hcode Hcomplete Hissued Hage. subst issued.
  eexists. split.
  { rewrite dexcomOAuthStart_run. cbv zeta. fold config.
    apply andb_true_iff in Hcomplete as [Hc Hc3].
    apply andb_true_iff in Hc as [Hc1 _]. rewrite Hc1, Hc3. reflexivity. }
  intros response a r x w2 w3 Hfetch Hok Hjson Hsave.
  assert (Hnonce : hex_of_bytes (map (randomByte E (step w)) (seq 0 16)) <> "")
    by discriminate.
  rewrite (callback_on_minted_state E u _ _ code wc Hcomplete Hu Hnonce Hissued Hcode Hage).
  rewrite exchangeAndStore_run. cbv zeta. fold config.
  rewrite fetch_run in Hfetch.
  destruct (httpFetch E _ _) as [|resp]; [discriminate|].
  injection Hfetch as -> <-. rewrite Hok, Hjson.
  match goal with |- context [saveUserTokens E ?i ?t ?W] =>
    replace (saveUserTokens E i t W) with (@Ok unit tt, w3) by (symmetry; exact Hsave)
  end.
  split; [reflexivity|].
  apply saveUserTokens_ok in Hsave as (_ & created & refreshed & _ & _ & Hst & _).
  eexists. rewrite Hst, lookup_insert_eq. by repeat split.
Qed.

Lemma oauth_flow_round_trip_witness :
  let E := Demo.env DEXCOM_API_CONFIG Demo.noon Demo.granting Demo.healthy in
  exists state d,
    (dexcomOAuthStart E (Some "u1") Demo.w0).1 = Ok (authUrl E (getDexcomConfig E) state) /\
    dexcomTokens
      (dexcomOAuthCallback E
         {| q_code := Some "code-1"; q_state := Some state; q_error := None |}
         Demo.w0).2 !! "u1" = Some d /\
    accessToken d = "access-2".
Proof.
  intros E.
  destruct (oauth_flow_round_trip E "u1" "code-1" Demo.w0 Demo.w0
              ltac:(discriminate) ltac:(discriminate) eq_refl
              ltac:(discriminate) ltac:(vm_compute; discriminate))
    as (state & Hstart & Hflow).
  set (w2 := (fetch E (authorizationCodeRequest E "code-1") (set_step 1 Demo.w0)).2).
  set (tokens := {| tf_accessToken := "access-2"; tf_refreshToken := "refresh-2";
                    tf_expiresAt := clock E (step w2) + 7200 * 1000;
                    tf_refreshTokenCreatedAt := clock E (S (step w2)) |}).
  set (w3 := (saveUserTokens E (Some (JStr "u1")) tokens (set_step (S (S (step w2))) w2)).2).
  destruct (Hflow {| status := 200; text := "";
                     json := Some (TokenBody "access-2" "refresh-2" 7200) |}
              "access-2" "refresh-2" 7200 w2 w3
              (outcome_eta _ _ eq_refl) eq_refl eq_refl (outcome_eta _ _ eq_refl))
    as (Hrun & d & Hd & _ & Ha & _).
  exists state, d. split; [exact Hstart|]. rewrite Hrun. split; [exact Hd|exact Ha].
Defined.

(** ** The keys of the credential records *)

#[local] Instance keepsOwnKeys_frame : Frame keepsOwnKeys.
Proof. split; unfold keepsOwnKeys; intros; simpl; auto. Qed.

Section OwnKeys.

Context (E : Env).

Hint Extern 1 (Preserves _ (getUserTokens _ _)) =>
  apply preserves_getUserTokens; exact _ : preserves.
Hint Extern 1 (Preserves _ (checkRateLimit _)) =>
  apply preserves_checkRateLimit; exact _ : preserves.
Hint Extern 1 (Preserves _ (recordHealthMetric _ _ _ _ _)) =>
  apply preserves_recordHealthMetric; exact _ : preserves.
Hint Extern 1 (Preserves keepsOwnKeys (fetch _ _)) =>
  apply preserves_fetch; [exact _ | by intros ? ?] : preserves.
Hint Extern 1 (Preserves keepsOwnKeys (storeGlucoseReadings _ _ _)) =>
  apply preserves_storeGlucoseReadings; [exact _ | by intros ? ? ?] : preserves.
Hint Extern 1 (Preserves keepsOwnKeys (validateState _ _ _)) =>
  apply preserves_validateState; exact _ : preserves.

Lemma own_saveUserTokens userId tokens :
  Preserves keepsOwnKeys (saveUserTokens E userId tokens).
Proof.
  intros w r w' Hrun Hown. destruct r as [[]|e].
  - destruct (saveUserTokens_string E _ _ _ _ Hrun) as [u ->].
    apply saveUserTokens_ok in Hrun as (_ & created & refreshed & _ & _ & Hst & _).
    rewrite Hst. intros k d. destruct (decide (u = k)) as [<-|Hne].
    + rewrite lookup_insert_eq. by intros [= <-].
    + rewrite lookup_insert_ne by done. apply Hown.
  - apply saveUserTokens_threw in Hrun. by rewrite Hrun.
Qed.

Lemma own_deleteUserTokens u : Preserves keepsOwnKeys (deleteUserTokens E u).
Proof.
  intros w r w'. rewrite deleteUserTokens_run.
  destruct (String.eqb u ""); [intros [= _ <-]; apply frame_console|].
  destruct (dbFails E (step w)); intros [= _ <-].
  - eapply frame_trans; [apply frame_step|apply frame_console].
  - intros Hown k d. cbn. intros [_ Hk]%lookup_delete_Some. by apply Hown.
Qed.

Hint Resolve own_saveUserTokens own_deleteUserTokens : preserves.

Lemma own_refreshAccessToken u rt : Preserves keepsOwnKeys (refreshAccessToken E u rt).
Proof. unfold refreshAccessToken. preserves. Qed.

Lemma own_ensureFresh u tokens : Preserves keepsOwnKeys (ensureFresh E u tokens).
Proof. unfold ensureFresh. preserves. apply own_refreshAccessToken. Qed.

Hint Resolve own_refreshAccessToken own_ensureFresh : preserves.

Lemma own_generateSecureState u : Preserves keepsOwnKeys (generateSecureState E u).
Proof. unfold generateSecureState. preserves. Qed.

Lemma own_dexcomOAuthStart auth : Preserves keepsOwnKeys (dexcomOAuthStart E auth).
Proof. unfold dexcomOAuthStart. cbv zeta. preserves. apply own_generateSecureState. Qed.

Lemma own_exchangeAndStore code userId :
  Preserves keepsOwnKeys (exchangeAndStore E code userId).
Proof. unfold exchangeAndStore. cbv zeta. preserves. Qed.

Lemma own_dexcomOAuthCallback query : Preserves keepsOwnKeys (dexcomOAuthCallback E query).
Proof. unfold dexcomOAuthCallback. cbv zeta. preserves. apply own_exchangeAndStore. Qed.

Lemma own_dexcomConnectionStatus auth :
  Preserves keepsOwnKeys (dexcomConnectionStatus E auth).
Proof. unfold dexcomConnectionStatus. preserves. Qed.

Lemma own_dexcomRefreshToken auth : Preserves keepsOwnKeys (dexcomRefreshToken E auth).
Proof. unfold dexcomRefreshToken. preserves. Qed.

Lemma own_dexcomDisconnect auth : Preserves keepsOwnKeys (dexcomDisconnect E auth).
Proof. unfold dexcomDisconnect. preserves. Qed.

Lemma own_quietFor a w w' : quietFor a w w' -> keepsOwnKeys w w'.
Proof. intros [Htok _] Hown. by rewrite Htok. Qed.

Lemma own_dexcomFetchGlucoseData auth startDate endDate :
  Preserves keepsOwnKeys (dexcomFetchGlucoseData E auth startDate endDate).
Proof.
  unfold dexcomFetchGlucoseData. preserves.
  - intros w r w' Hrun. eapply own_quietFor.
    by eapply (quiet_fetchTryBlock E).
  - intros w r w' Hrun. eapply own_quietFor.
    by eapply (quiet_fetchCatchBlock E "").
Qed.

Lemma own_dexcomTestRawData auth startDate endDate :
  Preserves keepsOwnKeys (dexcomTestRawData E auth startDate endDate).
Proof.
  unfold dexcomTestRawData. preserves.
  intros w r w' Hrun. eapply own_quietFor. by eapply (quiet_rawDataTryBlock E).
Qed.

Lemma own_pullForUser tokens : Preserves keepsOwnKeys (pullForUser E tokens).
Proof. unfold pullForUser. preserves. Qed.

Lemma own_pullAll docs : Preserves keepsOwnKeys (pullAll E docs).
Proof.
  induction docs as [|tokens docs IH]; cbn [pullAll]; preserves.
  apply own_pullForUser.
Qed.

Lemma own_scheduledGlucoseDataPull : Preserves keepsOwnKeys (scheduledGlucoseDataPull E).
Proof.
  unfold scheduledGlucoseDataPull. preserves.
  - apply (preserves_firestore_op E keepsOwnKeys). intros k w. apply frame_refl.
  - apply own_pullAll.
Qed.

End OwnKeys.

(** X27.  Every handler keeps the credential records under their own
    keys: if each record is stored under the user id it carries before a
    run of [dexcomOAuthStart], [dexcomOAuthCallback],
    [dexcomConnectionStatus], [dexcomRefreshToken],
    [dexcomFetchGlucoseData], [dexcomDisconnect], [dexcomTestRawData] or
    the scheduled sweep, the same holds after it, however the run ends.
    So the user id the sweep reads out of a record is the id the record
    is stored under, and the tokens the sweep refreshes for it are
    written back over that same record. *)
Theorem credential_records_keep_own_keys (E : Env) (w : World) :
  ownKeys (dexcomTokens w) ->
  (forall auth, ownKeys (dexcomTokens (dexcomOAuthStart E auth w).2)) /\
  (forall query, ownKeys (dexcomTokens (dexcomOAuthCallback E query w).2)) /\
  (forall auth, ownKeys (dexcomTokens (dexcomConnectionStatus E auth w).2)) /\
  (forall auth, ownKeys (dexcomTokens (dexcomRefreshToken E auth w).2)) /\
  (forall auth startDate endDate,
      ownKeys (dexcomTokens (dexcomFetchGlucoseData E auth startDate endDate w).2)) /\
  (forall auth, ownKeys (dexcomTokens (dexcomDisconnect E auth w).2)) /\
  (forall auth startDate endDate,
      ownKeys (dexcomTokens (dexcomTestRawData E auth startDate endDate w).2)) /\
  ownKeys (dexcomTokens (scheduledGlucoseDataPull E w).2) /\
  (forall tokens,
      tokens ∈ (map_to_list (dexcomTokens w)).*2 ->
      dexcomTokens w !! tk_userId tokens = Some tokens).
Proof.
  intros Hown.
  assert (Hall : forall A (m : M A),
            Preserves keepsOwnKeys m -> ownKeys (dexcomTokens (m w).2)).
  { intros A m Hm. by eapply Hm; [apply surjective_pairing|]. }
  split; [intros; apply Hall, own_dexcomOAuthStart|].
  split; [intros; apply Hall, own_dexcomOAuthCallback|].
  split; [intros; apply Hall, own_dexcomConnectionStatus|].
  split; [intros; apply Hall, own_dexcomRefreshToken|].
  split; [intros; apply Hall, own_dexcomFetchGlucoseData|].
  split; [intros; apply Hall, own_dexcomDisconnect|].
  split; [intros; apply Hall, own_dexcomTestRawData|].
  split; [apply Hall, own_scheduledGlucoseDataPull|].
  intros tokens Hin. apply list_elem_of_fmap in Hin as ([k d] & -> & Hin).
  apply elem_of_map_to_list in Hin. cbn [snd]. by rewrite (Hown _ _ Hin).
Qed.

Lemma credential_records_keep_own_keys_witness :
  let E := Demo.env DEXCOM_API_CONFIG Demo.noon Demo.granting Demo.healthy in
  let query := {| q_code := Some "code-1"; q_state := Some Demo.stateToken;
                  q_error := None |} in
  ownKeys (dexcomTokens (dexcomOAuthCallback E query Demo.w0).2).
Proof.
  intros E query.
  apply (credential_records_keep_own_keys E Demo.w0).
  intros k d Hk.
  change (dexcomTokens Demo.w0) with (∅ : gmap string DexcomTokens) in Hk.
  by rewrite lookup_empty in Hk.
Defined.

(** ** Starting the flow, and the test endpoints *)

Section Start.

Context (E : Env).

Lemma callback_unconfigured query w :
  let config := getDexcomConfig E in
  truthy_str (clientId config) && truthy_str (clientSecret config)
    && truthy_str (redirectUri config) = false ->
  (dexcomOAuthCallback E query w).1 =
    Ok (frontendUrl config +:+ "/dexcom?error=configuration_error").
Proof.
  intros config Hc. rewrite dexcomOAuthCallback_run. fold config. cbv zeta.
  assert (Hn : negb (truthy_str (clientId config)) ||
               negb (truthy_str (clientSecret config)) ||
               negb (truthy_str (redirectUri config)) = true).
  { by destruct (truthy_str (clientId config)), (truthy_str (clientSecret config)),
         (truthy_str (redirectUri config)). }
  by rewrite Hn.
Qed.

End Start.

(** X28.  [dexcomOAuthStart] refuses a caller who is not authenticated
    before it looks at the configuration, and throws
    [failed-precondition] when the client id or the redirect URI is
    missing, in both cases without any effect.  Otherwise it answers
    with the login URL under the base URL in force, carrying the client
    id, the encoded redirect URI, [response_type=code],
    [scope=offline_access] and, last, a state that decodes to the
    caller's user id.  It does not look at the client secret: with the
    secret missing it still issues the URL, and the callback that
    follows can only answer [configuration_error]. *)
Theorem oauth_start_url (E : Env) (w : World) :
  let config := getDexcomConfig E in
  dexcomOAuthStart E None w =
    (Threw (HttpsError unauthenticated "User must be authenticated"), w) /\
  (forall u,
      truthy_str (clientId config) && truthy_str (redirectUri config) = false ->
      dexcomOAuthStart E (Some u) w =
        (Threw (HttpsError failed_precondition "Dexcom API credentials not configured"),
         w)) /\
  (forall u,
      truthy_str (clientId config) && truthy_str (redirectUri config) = true ->
      exists state cid uri,
        clientId config = Some cid /\
        redirectUri config = Some uri /\
        (dexcomOAuthStart E (Some u) w).1 =
          Ok (getDexcomBaseUrl E (useSandbox config) +:+
              "/v2/oauth2/login?client_id=" +:+ cid +:+
              "&redirect_uri=" +:+ encodeURIComponent E uri +:+
              "&response_type=code&scope=offline_access&state=" +:+ state) /\
        exists timestamp nonce,
          JSON.parse (Base64.decode state) =
            Some (JObj [("userId", JStr u); ("timestamp", JNum timestamp 0);
                        ("nonce", JStr nonce)]) /\
        (truthy_str (clientSecret config) = false ->
         forall query w',
           (dexcomOAuthCallback E query w').1 =
             Ok (frontendUrl config +:+ "/dexcom?error=configuration_error"))).
Proof.
  intros config. split; [reflexivity|]. split.
  - intros u Hc. rewrite dexcomOAuthStart_run. cbv zeta. fold config.
    by destruct (truthy_str (clientId config)), (truthy_str (redirectUri config)).
  - intros u Hc. rewrite dexcomOAuthStart_run. cbv zeta. fold config.
    apply andb_true_iff in Hc as [Hc1 Hc2]. rewrite Hc1, Hc2. cbn [negb orb fst].
    destruct (clientId config) as [cid|] eqn:Hcid; [|discriminate].
    destruct (redirectUri config) as [uri|] eqn:Huri; [|discriminate].
    eexists _, cid, uri. split; [done|]. split; [done|].
    split.
    { unfold authUrl. rewrite Hcid, Huri. reflexivity. }
    eexists _, _. split; [apply decode_state_token|].
    intros Hsecret query w'. apply callback_unconfigured. fold config.
    by rewrite Hsecret, andb_false_r.
Qed.

Lemma oauth_start_url_witness :
  let E := Demo.env DEXCOM_API_CONFIG Demo.noon Demo.offline Demo.healthy in
  exists state,
    (dexcomOAuthStart E (Some "u1") Demo.w0).1 =
      Ok ("https://api.dexcom.com/v2/oauth2/login?client_id=client" +:+
          "&redirect_uri=https://example.test/callback" +:+
          "&response_type=code&scope=offline_access&state=" +:+ state).
Proof.
  intros E.
  destruct (proj2 (proj2 (oauth_start_url E Demo.w0)) "u1" eq_refl)
    as (state & cid & uri & Hcid & Huri & Hrun & _).
  injection Hcid as <-. injection Huri as <-.
  exists state. exact Hrun.
Defined.

(** X29.  [testFunction] and [testConfig] never throw and change
    nothing but the count of clock readings.  Both report whether the
    configuration in force has a client id, a client secret and a
    redirect URI, never their values, and [dexcomConfigured] exactly
    when it has all three; [testConfig] answers with status 200 and
    reports the same for the environment variables alone, which being
    all three set makes the configuration complete.  Their report
    agrees with the flow: when [dexcomConfigured] is false every
    callback answers [configuration_error], and when it is true
    [dexcomOAuthStart] issues a login URL to any authenticated caller. *)
Theorem test_endpoints_report (E : Env) (w : World) :
  let config := getDexcomConfig E in
  let complete :=
    truthy_str (clientId config) && truthy_str (clientSecret config) &&
    truthy_str (redirectUri config) in
  exists r reply,
    testFunction E w = (Ok r, set_step (S (step w)) w) /\
    testConfig E w = (Ok reply, set_step (S (step w)) w) /\
    rp_status reply = 200 /\
    t_timestamp r = clock E (step w) /\
    dexcomConfigured r = complete /\
    dexcomConfigured (rp_body reply) = complete /\
    environment r =
      {| hasClientId := truthy_str (clientId config);
         hasClientSecret := truthy_str (clientSecret config);
         hasRedirectUri := truthy_str (redirectUri config);
         er_useSandbox := useSandbox config;
         er_frontendUrl := frontendUrl config;
         er_processEnv := None |} /\
    (exists report,
        er_processEnv (environment (rp_body reply)) = Some report /\
        (pe_hasClientId report && pe_hasClientSecret report && pe_hasRedirectUri report
           = true -> complete = true)) /\
    (dexcomConfigured r = false ->
     forall query w',
       (dexcomOAuthCallback E query w').1 =
         Ok (frontendUrl config +:+ "/dexcom?error=configuration_error")) /\
    (dexcomConfigured r = true ->
     forall u w', exists url, (dexcomOAuthStart E (Some u) w').1 = Ok url).
Proof.
  intros config complete. eexists _, _.
  split; [unfold testFunction; cbv zeta;
          by rewrite (bind_ok _ _ _ _ _ (Date_now_run E w))|].
  split; [unfold testConfig; cbv zeta;
          by rewrite (bind_ok _ _ _ _ _ (Date_now_run E w))|].
  cbn [rp_status rp_body t_timestamp dexcomConfigured environment er_processEnv].
  fold config. fold complete.
  do 5 (split; [reflexivity|]). split; [|split].
  - eexists. split; [reflexivity|].
    cbn [pe_hasClientId pe_hasClientSecret pe_hasRedirectUri]. intros Henv.
    unfold complete, config, getDexcomConfig. by rewrite Henv.
  - intros Hc query w'. by apply callback_unconfigured.
  - intros Hc u w'. rewrite dexcomOAuthStart_run. cbv zeta. fold config.
    unfold complete in Hc. apply andb_true_iff in Hc as [Hc Hc3].
    apply andb_true_iff in Hc as [Hc1 _]. rewrite Hc1, Hc3. by eexists.
Qed.

(** ** A fetch that succeeds *)

Section FetchSuccess.

Context (E : Env).

Lemma prepareBatch_parses u readings batch reading :
  prepareBatch E u readings = Ok batch ->
  reading ∈ readings ->
  exists ms, parseDate E (systemTime reading) = Some ms.
Proof.
  revert batch. induction readings as [|r rs IH]; intros batch Hb Hin.
  - by apply elem_of_nil in Hin.
  - cbn [prepareBatch] in Hb.
    destruct (prepareWrite E u r) as [bw|] eqn:Hbw; [|done].
    cbn [mbind Result_bind] in Hb.
    destruct (prepareBatch E u rs) as [rest|]; [|done].
    apply elem_of_cons in Hin as [->|Hin]; [|by eapply IH].
    apply prepareWrite_ok in Hbw as (ms & Hms & _). by exists ms.
Qed.

(** After a store that succeeds every reading has its document. *)
Lemma storeGlucoseReadings_docs u readings w w' reading :
  storeGlucoseReadings E u readings w = (Ok tt, w') ->
  reading ∈ readings ->
  exists ms,
    parseDate E (systemTime reading) = Some ms /\
    readingDocId u ms ∈ dom (glucoseReadings w').
Proof.
  rewrite storeGlucoseReadings_run. intros Hrun Hin.
  destruct readings as [|r rs]; [by apply elem_of_nil in Hin|].
  destruct (prepareBatch E u (r :: rs)) as [batch|] eqn:Hb; [|done].
  destruct (dbFails E (step w)); [done|]. injection Hrun as <-.
  destruct (prepareBatch_parses u _ _ _ Hb Hin) as [ms Hms].
  exists ms. split; [done|]. cbn [glucoseReadings set_glucoseReadings].
  rewrite commitBatch_dom. apply elem_of_union_l, elem_of_list_to_set.
  by eapply prepareBatch_docIds.
Qed.

Lemma recordHealthMetric_readings op ok rt err w :
  glucoseReadings (recordHealthMetric E op ok rt err w).2 = glucoseReadings w.
Proof.
  unfold recordHealthMetric, try_catch. rewrite firestore_op_run.
  by destruct (dbFails E (step w)).
Qed.

(** What the last part of the handler has done when it returns. *)
Lemma fetchAndStore_ok u tokens rl startTime startDate endDate config dataRange
    final w resp w' :
  fetchAndStore E u tokens rl startTime startDate endDate config dataRange final w
    = (Ok resp, w') ->
  (exists request k response body,
      httpFetch E k request = Responded response /\
      req_method request = "GET" /\
      req_url request = getDexcomBaseUrl E (useSandbox config) +:+ "/v3/users/self/egvs" /\
      req_bearer request = Some (accessToken tokens) /\
      response_ok response = true /\
      json response = Some body /\
      glucoseData resp = glucoseData_of body) /\
  (forall reading,
      reading ∈ glucoseData resp ->
      exists ms,
        parseDate E (systemTime reading) = Some ms /\
        readingDocId u ms ∈ dom (glucoseReadings w')) /\
  rateLimitRemaining resp = remaining rl /\
  rateLimitResetTime resp = resetTime rl /\
  sandbox resp = useSandbox config /\
  datesAdjusted resp = final.2 /\
  (datesAdjusted resp = false <-> adjustedDateRange resp = None) /\
  (useSandbox config = false -> availableDataRange resp = None).
Proof.
  unfold fetchAndStore. destruct final as [[fs fe] adj]. intros H.
  apply bind_inv in H as [(e & _ & [=])|(fsd & w1 & Hfs & H)].
  apply bind_inv in H as [(e & _ & [=])|(fed & w2 & Hfe & H)].
  apply bind_inv in H as [(e & _ & [=])|(response & w3 & Hfetch & H)].
  rewrite fetch_run in Hfetch.
  destruct (httpFetch E (step w2) _) as [|response'] eqn:Hv; [discriminate|].
  injection Hfetch as -> <-.
  rewrite (bind_ok _ _ _ _ _ (Date_now_run E _)) in H.
  destruct (response_ok response) eqn:Hok; cbn [negb] in H.
  2: { exfalso. apply bind_inv in H as [(e & _ & [=])|(? & w4 & _ & H)].
       apply bind_inv in H as [(e & _ & [=])|(? & w5 & _ & H)].
       apply bind_inv in H as [(e & _ & [=])|(? & w6 & _ & H)]. discriminate. }
  unfold response_json in H.
  destruct (json response) as [body|] eqn:Hjson;
    [|by apply bind_inv in H as [(e & _ & [=])|(? & ? & [=] & _)]].
  apply bind_inv in H as [(e & _ & [=])|(? & w4 & [= <- <-] & H)].
  apply bind_inv in H as [(e & _ & [=])|([] & w5 & Hstore & H)].
  apply bind_inv in H as [(e & _ & [=])|([] & w6 & Hmetric & H)].
  injection H as <- <-.
  cbn [glucoseData rateLimitRemaining rateLimitResetTime sandbox datesAdjusted
       adjustedDateRange availableDataRange snd].
  split; [|split].
  - eexists _, _, response, body. split; [exact Hv|]. by repeat split.
  - intros reading Hin.
    assert (Hs : exists w0, storeGlucoseReadings E u (glucoseData_of body) w0 = (Ok tt, w5)).
    { unfold try_catch in Hstore.
      destruct (storeGlucoseReadings E u (glucoseData_of body) _) as [[[]|e] w0] eqn:Hs.
      - injection Hstore as <-. by eexists.
      - by apply bind_inv in Hstore as [(? & _ & [=])|(? & ? & _ & [=])]. }
    destruct Hs as [w0 Hs].
    destruct (storeGlucoseReadings_docs u _ _ _ _ Hs Hin) as (ms & Hms & Hdoc).
    exists ms. split; [done|].
    match type of Hmetric with
    | recordHealthMetric _ ?a ?b ?c ?d ?w0 = _ =>
        pose proof (recordHealthMetric_readings a b c d w0) as Hr
    end.
    rewrite Hmetric in Hr. cbn [snd] in Hr. by rewrite Hr.
  - repeat split; try done.
    + by intros ->.
    + by destruct adj.
    + by intros ->.
Qed.

Lemma fetchTryBlock_ok u tokens rl startTime startDate endDate w resp w' :
  fetchTryBlock E u tokens rl startTime startDate endDate w = (Ok resp, w') ->
  exists dataRange final w0,
    fetchAndStore E u tokens rl startTime startDate endDate (getDexcomConfig E)
      dataRange final w0 = (Ok resp, w') /\
    (useSandbox (getDexcomConfig E) = false -> final.2 = false).
Proof.
  unfold fetchTryBlock. cbv zeta. intros H.
  apply bind_inv in H as [(e & _ & [=])|(dataRange & w1 & _ & H)].
  apply bind_inv in H as [(e & _ & [=])|(parsed & w2 & _ & H)].
  apply bind_inv in H as [(e & _ & [=])|([ps pe] & w3 & _ & H)].
  apply bind_inv in H as [(e & _ & [=])|(final & w4 & Hfinal & H)].
  exists dataRange, final, w4. split; [exact H|].
  intros Hprod. unfold finalWindow in Hfinal. rewrite Hprod in Hfinal.
  rewrite (bind_ok _ _ _ _ _ (Date_now_run E _)) in Hfinal.
  destruct (ps >? _); [discriminate|].
  destruct (pe >? _); by injection Hfinal as <-.
Qed.

End FetchSuccess.

(** X30.  When [dexcomFetchGlucoseData] returns, the vendor has answered
    a GET of [/v3/users/self/egvs] with a 2xx status and JSON, the
    readings returned are the ones of that body ([records], else [egvs],
    else none), each of them has a system time that parses and has its
    document in the readings collection, and the rate-limit figures
    returned are those of a check that admitted the call.  The answer
    says [sandbox] as the configuration does, carries an adjusted date
    range exactly when [datesAdjusted] is true, and outside sandbox mode
    never reports adjusted dates or an available range. *)
Theorem fetch_success_stores_what_it_returns (E : Env) (u : string)
    (startDate endDate : option string) (w w' : World) (resp : FetchGlucoseResponse) :
  dexcomFetchGlucoseData E (Some u) startDate endDate w = (Ok resp, w') ->
  (exists request k response body,
      httpFetch E k request = Responded response /\
      req_method request = "GET" /\
      req_url request =
        getDexcomBaseUrl E (useSandbox (getDexcomConfig E)) +:+ "/v3/users/self/egvs" /\
      response_ok response = true /\
      json response = Some body /\
      glucoseData resp = glucoseData_of body) /\
  (forall reading,
      reading ∈ glucoseData resp ->
      exists ms,
        parseDate E (systemTime reading) = Some ms /\
        readingDocId u ms ∈ dom (glucoseReadings w')) /\
  (exists rl w1 w2,
      checkRateLimit E w1 = (Ok rl, w2) /\
      allowed rl = true /\
      rateLimitRemaining resp = remaining rl /\
      rateLimitResetTime resp = resetTime rl) /\
  sandbox resp = useSandbox (getDexcomConfig E) /\
  (datesAdjusted resp = false <-> adjustedDateRange resp = None) /\
  (useSandbox (getDexcomConfig E) = false ->
   datesAdjusted resp = false /\ availableDataRange resp = None).
Proof.
  unfold dexcomFetchGlucoseData. intros H.
  apply bind_inv in H as [(e & _ & [=])|(stored & w1 & _ & H)].
  destruct stored as [tokens|]; [|discriminate].
  apply bind_inv in H as [(e & _ & [=])|(rl & w2 & Hrl & H)].
  destruct (allowed rl) eqn:Hadm; cbn [negb] in H.
  2: { by apply bind_inv in H as [(e & _ & [=])|(? & ? & _ & [=])]. }
  apply bind_inv in H as [(e & _ & [=])|(current & w3 & _ & H)].
  rewrite (bind_ok _ _ _ _ _ (Date_now_run E w3)) in H.
  unfold try_catch in H.
  destruct (fetchTryBlock E u current rl _ startDate endDate _) as [[r|e] w4] eqn:Htry.
  2: { pose proof (fetchCatchBlock_throws E (clock E (step w3)) e w4) as Hc.
       rewrite H in Hc. discriminate. }
  injection H as -> ->.
  apply fetchTryBlock_ok in Htry as (dataRange & final & w0 & Hrun & Hprod).
  apply fetchAndStore_ok in Hrun
    as ((request & k & response & body & Hv & Hm & Hurl & _ & Hok & Hjson & Hdata)
        & Hdocs & Hrem & Hreset & Hsb & Hadj & Hrange & Havail).
  split; [by exists request, k, response, body|].
  split; [exact Hdocs|].
  split; [by exists rl, w1, w2|].
  split; [exact Hsb|]. split; [exact Hrange|].
  intros Hp. split; [by rewrite Hadj, Hprod|by apply Havail].
Qed.

Lemma fetch_success_stores_what_it_returns_witness :
  let E := Demo.env DEXCOM_API_CONFIG Demo.noon Demo.secondFails Demo.healthy in
  let w := set_dexcomTokens {[ "u2" := Demo.tokensOf "u2" "access-2" ]} Demo.w0 in
  let out := dexcomFetchGlucoseData E (Some "u2") None None w in
  exists resp,
    out.1 = Ok resp /\
    glucoseData resp = [Demo.firstReading] /\
    readingDocId "u2" 1704067200000 ∈ dom (glucoseReadings out.2).
Proof.
  intros E w out.
  assert (Hrun : exists resp, out.1 = Ok resp /\ glucoseData resp = [Demo.firstReading]).
  { vm_compute. by eexists. }
  destruct Hrun as (resp & Hrun & Hdata).
  exists resp. split; [exact Hrun|]. split; [exact Hdata|].
  destruct (proj1 (proj2 (fetch_success_stores_what_it_returns E "u2" None None w out.2 resp
                            (outcome_eta _ _ Hrun)))
              Demo.firstReading) as (ms & Hms & Hdoc).
  - rewrite Hdata. apply list_elem_of_here.
  - injection Hms as <-. exact Hdoc.
Defined.
